(** * MasterMind trading core: Renko chart, pattern detector, risk manager

    A shallow embedding of [core/RenkoChart.cpp], [core/PatternDetector.cpp]
    and [core/RiskManager.cpp] together with the structures of [core/Types.h]
    they use, followed by the properties established about them.

    Conventions of the embedding.
    - [double] (and the aliases [Price], [Volume]) is the field [Q] of exact
      rationals: comparisons, sums, products and quotients are exact.  This
      model carries the statements that do not depend on rounding: which
      branch a call takes on given flags, what is copied where, which value
      is stored as which expression, and the order between a value and the
      same value plus or minus an amount that is not negative.  Infinities
      and NaN are outside the model, and a quotient is the program's only
      where its divisor is not zero ([x / 0] is [0] in [Q]); a statement
      about a quotient says so.
    - Where rounding decides, the brick formation is evaluated in
      [Binary64]: the same functions over the IEEE 754 binary64 numbers of
      [PrimFloat], every operation rounded as in the program.
    - [int] is a [Z] kept in the 32-bit two's-complement range by [wrap_int]
      after every arithmetic step; [size_t] is [nat].
    - [TimePoint] is a [Z] (ticks since the epoch); a method that reads
      [std::chrono::system_clock::now()] takes the reading as an argument.
    - A method runs in the monad [M S A = S -> option (A * S)] over the object
      it belongs to.  [None] is a call that does not return: the only source
      is a [std::lock_guard] on a [std::mutex] which the running call already
      holds ([std::mutex] is not recursive).
    - Writes to [std::cout] are not part of the state and are left out. *)

From Stdlib Require Import Floats.PrimFloat.
From Stdlib Require Import String ZArith QArith Qabs List Bool Lia Lqa.
Import ListNotations.

Local Open Scope Q_scope.

Set Warnings "-inexact-float".

(** ** Execution monad *)

Module Exec.

Definition M (S A : Type) : Type := S -> option (A * S).

Definition ret {S A : Type} (a : A) : M S A := fun s => Some (a, s).

Definition bind {S A B : Type} (m : M S A) (k : A -> M S B) : M S B :=
  fun s => match m s with
           | Some (a, s') => k a s'
           | None => None
           end.

Definition get {S : Type} : M S S := fun s => Some (s, s).

Definition gets {S A : Type} (f : S -> A) : M S A := fun s => Some (f s, s).

Definition modify {S : Type} (f : S -> S) : M S unit := fun s => Some (tt, f s).

(** [std::lock_guard<std::mutex> lock(m); body] where [held] reads and
    [setHeld] writes the flag of the mutex [m] inside the object. *)
Definition lock_guard {S A : Type} (held : S -> bool) (setHeld : bool -> S -> S)
    (body : M S A) : M S A :=
  fun s => if held s then None
           else match body (setHeld true s) with
                | Some (a, s') => Some (a, setHeld false s')
                | None => None
                end.

(** Run a list of calls one after the other. *)
Fixpoint seq_ {S : Type} (ms : list (M S unit)) : M S unit :=
  match ms with
  | [] => ret tt
  | m :: rest => bind m (fun _ => seq_ rest)
  end.

End Exec.

Import Exec.

Declare Scope exec_scope.
Delimit Scope exec_scope with exec.
Notation "x <- m ;; k" := (bind m (fun x => k))
  (at level 61, m at next level, right associativity) : exec_scope.
Notation "m ;; k" := (bind m (fun _ => k))
  (at level 61, right associativity) : exec_scope.
Local Open Scope exec_scope.

(** ** Numbers *)

(** C++ comparisons on [double]. *)
Definition Qleb (x y : Q) : bool := Qle_bool x y.
Definition Qltb (x y : Q) : bool := negb (Qle_bool y x).
Definition Qgeb (x y : Q) : bool := Qle_bool y x.
Definition Qgtb (x y : Q) : bool := negb (Qle_bool x y).

(** [std::max(a, b)] is [(a < b) ? b : a]; [std::min(a, b)] is
    [(b < a) ? b : a]. *)
Definition std_max (a b : Q) : Q := if Qltb a b then b else a.
Definition std_min (a b : Q) : Q := if Qltb b a then b else a.

Definition INT_MIN : Z := (- 2 ^ 31)%Z.
Definition INT_MAX : Z := (2 ^ 31 - 1)%Z.

Definition int_range (z : Z) : Prop := (INT_MIN <= z <= INT_MAX)%Z.

Definition wrap_int (z : Z) : Z := ((z + 2 ^ 31) mod 2 ^ 32 - 2 ^ 31)%Z.

(** [x++] on an [int]. *)
Definition int_incr (x : Z) : Z := wrap_int (x + 1).

(** [std::max] on [int]. *)
Definition std_max_int (a b : Z) : Z := if (a <? b)%Z then b else a.

(** ** Types.h *)

Definition Price : Type := Q.
Definition Volume : Type := Q.
Definition TimePoint : Type := Z.
Definition Symbol : Type := string.
Definition OrderId : Type := string.

Inductive OrderSide : Type := BUY | SELL.

Inductive RiskStatus : Type := NORMAL | WARNING | LIMIT_REACHED | PAPER_MODE.

Inductive PatternType : Type :=
  SETUP_1_CONSECUTIVE | SETUP_2_GREEN_RED_GREEN | NONE.

Definition PatternType_eqb (a b : PatternType) : bool :=
  match a, b with
  | SETUP_1_CONSECUTIVE, SETUP_1_CONSECUTIVE => true
  | SETUP_2_GREEN_RED_GREEN, SETUP_2_GREEN_RED_GREEN => true
  | NONE, NONE => true
  | _, _ => false
  end.

Record RenkoBrick : Type := mkRenkoBrick {
  open : Price;
  close : Price;
  high : Price;
  low : Price;
  timestamp : TimePoint;
  isUp : bool;
  completionPercent : Q
}.

(** [RenkoBrick()] *)
Definition RenkoBrick_default : RenkoBrick :=
  mkRenkoBrick 0 0 0 0 0%Z true 0.

(** [RenkoBrick(o, c, ts, up)] *)
Definition RenkoBrick_make (o c : Price) (ts : TimePoint) (up : bool) : RenkoBrick :=
  mkRenkoBrick o c (std_max o c) (std_min o c) ts up 1.

Definition set_open (v : Price) (b : RenkoBrick) : RenkoBrick :=
  mkRenkoBrick v (close b) (high b) (low b) (timestamp b) (isUp b) (completionPercent b).
Definition set_close (v : Price) (b : RenkoBrick) : RenkoBrick :=
  mkRenkoBrick (open b) v (high b) (low b) (timestamp b) (isUp b) (completionPercent b).
Definition set_high (v : Price) (b : RenkoBrick) : RenkoBrick :=
  mkRenkoBrick (open b) (close b) v (low b) (timestamp b) (isUp b) (completionPercent b).
Definition set_low (v : Price) (b : RenkoBrick) : RenkoBrick :=
  mkRenkoBrick (open b) (close b) (high b) v (timestamp b) (isUp b) (completionPercent b).
Definition set_timestamp (v : TimePoint) (b : RenkoBrick) : RenkoBrick :=
  mkRenkoBrick (open b) (close b) (high b) (low b) v (isUp b) (completionPercent b).
Definition set_isUp (v : bool) (b : RenkoBrick) : RenkoBrick :=
  mkRenkoBrick (open b) (close b) (high b) (low b) (timestamp b) v (completionPercent b).
Definition set_completionPercent (v : Q) (b : RenkoBrick) : RenkoBrick :=
  mkRenkoBrick (open b) (close b) (high b) (low b) (timestamp b) (isUp b) v.

(** The fields of [Order] the core reads or that identify the order. *)
Record Order : Type := mkOrder {
  orderId : OrderId;
  order_symbol : Symbol;
  order_side : OrderSide;
  order_price : Price;
  quantity : Volume;
  order_stopLoss : Price;
  order_takeProfit : Price
}.

(** The fields of [Position] that identify and size it; no method of the
    core reads a position. *)
Record Position : Type := mkPosition {
  position_symbol : Symbol;
  position_side : OrderSide;
  position_quantity : Volume;
  averagePrice : Price;
  currentPrice : Price
}.

(** [TradingSignal] without its free-text [description]. *)
Record TradingSignal : Type := mkTradingSignal {
  signal_symbol : Symbol;
  pattern : PatternType;
  side : OrderSide;
  entryPrice : Price;
  stopLoss : Price;
  takeProfit : Price;
  signal_quantity : Volume;
  signal_timestamp : TimePoint;
  signal_confidence : Q
}.

Record RiskParameters : Type := mkRiskParameters {
  dailyRiskPercent : Q;
  maxDrawdownPercent : Q;
  consecutiveLossLimit : Z;
  capitalUtilization : Q;
  ordersPerCounter : Z;
  minLotSize : Q;
  paperTradingMode : bool
}.

(** [RiskParameters()] *)
Definition RiskParameters_default : RiskParameters :=
  mkRiskParameters (1 # 100) (5 # 100) 2 1 10 (1 # 100) false.

(** The balance fields of [AccountInfo]; the core reads [equity] only. *)
Record AccountInfo : Type := mkAccountInfo {
  balance : Q;
  equity : Q;
  margin : Q;
  freeMargin : Q
}.

(** [AccountInfo()] *)
Definition AccountInfo_default : AccountInfo := mkAccountInfo 0 0 0 0.

(** The fields of [InstrumentSpec] that price a tick; the core reads
    [tickValue] only. *)
Record InstrumentSpec : Type := mkInstrumentSpec {
  instrument_symbol : Symbol;
  tickSize : Q;
  tickValue : Q;
  contractSize : Q
}.

(** [InstrumentSpec()] *)
Definition InstrumentSpec_default : InstrumentSpec :=
  mkInstrumentSpec EmptyString (1 # 10000) 1 1.

(** [suggestedSide] is the one member the constructor [PatternResult()] leaves
    without a value; [None] is that indeterminate state. *)
Record PatternResult : Type := mkPatternResult {
  type : PatternType;
  result_symbol : Symbol;
  bricks : list RenkoBrick;
  confidence : Q;
  detectionTime : TimePoint;
  suggestedEntry : Price;
  suggestedStop : Price;
  suggestedSide : option OrderSide
}.

(** [PatternResult()] *)
Definition PatternResult_default : PatternResult :=
  mkPatternResult NONE EmptyString [] 0 0%Z 0 0 None.

(** [struct Tick] *)
Record Tick : Type := mkTick {
  tick_symbol : Symbol;
  bid : Price;
  ask : Price;
  tick_last : Price;
  tick_volume : Volume;
  tick_timestamp : TimePoint
}.

(** [TradingSignal()]: the constructor gives [side] no value; [side0] is the
    value found there. *)
Definition TradingSignal_default (side0 : OrderSide) : TradingSignal :=
  mkTradingSignal EmptyString NONE side0 0 0 0 0 0%Z 0.

(** [struct SymbolConfig] without its two session times. *)
Record SymbolConfig : Type := mkSymbolConfig {
  config_symbol : Symbol;
  capitalAllocation : Q;
  config_brickSize : Q;
  riskParams : RiskParameters;
  isEnabled : bool
}.

(** ** RenkoChart.h / RenkoChart.cpp *)

Module RenkoChart.

(** The data members of [class RenkoChart]; [dataMutex_] is [true] while the
    mutex is held. *)
Record t : Type := mk {
  symbol_ : Symbol;
  brickSize_ : Q;
  tickValue_ : Q;
  maxBricks_ : nat;
  bricks_ : list RenkoBrick;
  currentBrick_ : RenkoBrick;
  currentBrickInitialized_ : bool;
  lastPrice_ : Price;
  highestPrice_ : Price;
  lowestPrice_ : Price;
  lastUpdate_ : TimePoint;
  dataMutex_ : bool
}.

Definition set_brickSize (v : Q) (c : t) : t :=
  mk (symbol_ c) v (tickValue_ c) (maxBricks_ c) (bricks_ c) (currentBrick_ c)
     (currentBrickInitialized_ c) (lastPrice_ c) (highestPrice_ c) (lowestPrice_ c)
     (lastUpdate_ c) (dataMutex_ c).
Definition set_tickValue (v : Q) (c : t) : t :=
  mk (symbol_ c) (brickSize_ c) v (maxBricks_ c) (bricks_ c) (currentBrick_ c)
     (currentBrickInitialized_ c) (lastPrice_ c) (highestPrice_ c) (lowestPrice_ c)
     (lastUpdate_ c) (dataMutex_ c).
Definition set_maxBricks (v : nat) (c : t) : t :=
  mk (symbol_ c) (brickSize_ c) (tickValue_ c) v (bricks_ c) (currentBrick_ c)
     (currentBrickInitialized_ c) (lastPrice_ c) (highestPrice_ c) (lowestPrice_ c)
     (lastUpdate_ c) (dataMutex_ c).
Definition set_bricks (v : list RenkoBrick) (c : t) : t :=
  mk (symbol_ c) (brickSize_ c) (tickValue_ c) (maxBricks_ c) v (currentBrick_ c)
     (currentBrickInitialized_ c) (lastPrice_ c) (highestPrice_ c) (lowestPrice_ c)
     (lastUpdate_ c) (dataMutex_ c).
Definition set_currentBrick (v : RenkoBrick) (c : t) : t :=
  mk (symbol_ c) (brickSize_ c) (tickValue_ c) (maxBricks_ c) (bricks_ c) v
     (currentBrickInitialized_ c) (lastPrice_ c) (highestPrice_ c) (lowestPrice_ c)
     (lastUpdate_ c) (dataMutex_ c).
Definition set_currentBrickInitialized (v : bool) (c : t) : t :=
  mk (symbol_ c) (brickSize_ c) (tickValue_ c) (maxBricks_ c) (bricks_ c) (currentBrick_ c)
     v (lastPrice_ c) (highestPrice_ c) (lowestPrice_ c)
     (lastUpdate_ c) (dataMutex_ c).
Definition set_lastPrice (v : Price) (c : t) : t :=
  mk (symbol_ c) (brickSize_ c) (tickValue_ c) (maxBricks_ c) (bricks_ c) (currentBrick_ c)
     (currentBrickInitialized_ c) v (highestPrice_ c) (lowestPrice_ c)
     (lastUpdate_ c) (dataMutex_ c).
Definition set_highestPrice (v : Price) (c : t) : t :=
  mk (symbol_ c) (brickSize_ c) (tickValue_ c) (maxBricks_ c) (bricks_ c) (currentBrick_ c)
     (currentBrickInitialized_ c) (lastPrice_ c) v (lowestPrice_ c)
     (lastUpdate_ c) (dataMutex_ c).
Definition set_lowestPrice (v : Price) (c : t) : t :=
  mk (symbol_ c) (brickSize_ c) (tickValue_ c) (maxBricks_ c) (bricks_ c) (currentBrick_ c)
     (currentBrickInitialized_ c) (lastPrice_ c) (highestPrice_ c) v
     (lastUpdate_ c) (dataMutex_ c).
Definition set_lastUpdate (v : TimePoint) (c : t) : t :=
  mk (symbol_ c) (brickSize_ c) (tickValue_ c) (maxBricks_ c) (bricks_ c) (currentBrick_ c)
     (currentBrickInitialized_ c) (lastPrice_ c) (highestPrice_ c) (lowestPrice_ c)
     v (dataMutex_ c).
Definition set_dataMutex (v : bool) (c : t) : t :=
  mk (symbol_ c) (brickSize_ c) (tickValue_ c) (maxBricks_ c) (bricks_ c) (currentBrick_ c)
     (currentBrickInitialized_ c) (lastPrice_ c) (highestPrice_ c) (lowestPrice_ c)
     (lastUpdate_ c) v.

(** [std::lock_guard<std::mutex> lock(dataMutex_);] *)
Definition locked {A : Type} (body : M t A) : M t A :=
  lock_guard dataMutex_ set_dataMutex body.

(** [RenkoChart::RenkoChart(symbol, brickSize, maxBricks)] *)
Definition create (symbol : Symbol) (brickSize : Q) (maxBricks : nat) : t :=
  mk symbol brickSize (1 # 10000) maxBricks [] RenkoBrick_default false 0 0 0 0%Z false.

(** [bricks_.back()], read only where the deque is not empty. *)
Definition back (l : list RenkoBrick) : RenkoBrick := last l RenkoBrick_default.

(** [maintainMaxBricks]: [while (bricks_.size() > maxBricks_) bricks_.pop_front();] *)
Fixpoint pop_front_while_over (maxBricks : nat) (l : list RenkoBrick) : list RenkoBrick :=
  match l with
  | [] => []
  | _ :: rest =>
      if (maxBricks <? List.length l)%nat then pop_front_while_over maxBricks rest else l
  end.

Definition maintainMaxBricks (c : t) : t :=
  set_bricks (pop_front_while_over (maxBricks_ c) (bricks_ c)) c.

(** [initializeCurrentBrick] *)
Definition initializeCurrentBrick (price : Price) (ts : TimePoint) (c : t) : t :=
  let cur := currentBrick_ c in
  let cur := set_open price cur in
  let cur := set_close price cur in
  let cur := set_high price cur in
  let cur := set_low price cur in
  let cur := set_timestamp ts cur in
  let cur := set_isUp true cur in
  let cur := set_completionPercent 0 cur in
  let c := set_currentBrick cur c in
  let c := set_highestPrice price c in
  let c := set_lowestPrice price c in
  set_currentBrickInitialized true c.

(** [finalizeBrick] *)
Definition finalizeBrick (brick : RenkoBrick) (c : t) : t :=
  let c := set_bricks (bricks_ c ++ [brick]) c in
  let cur := RenkoBrick_default in
  let cur := set_open (close brick) cur in
  let cur := set_close (close brick) cur in
  let cur := set_timestamp (timestamp brick) cur in
  let cur := set_completionPercent 0 cur in
  let c := set_currentBrick cur c in
  let c := set_highestPrice (close brick) c in
  let c := set_lowestPrice (close brick) c in
  maintainMaxBricks c.

(** [updateCurrentBrick] *)
Definition updateCurrentBrick (price : Price) (ts : TimePoint) (c : t) : t :=
  match bricks_ c with
  | [] =>
      let o := open (currentBrick_ c) in
      if Qgeb price (o + brickSize_ c) then
        finalizeBrick (RenkoBrick_make o (o + brickSize_ c) ts true) c
      else if Qleb price (o - brickSize_ c) then
        finalizeBrick (RenkoBrick_make o (o - brickSize_ c) ts false) c
      else
        let upDistance := price - o in
        let downDistance := o - price in
        if Qgtb upDistance downDistance then
          set_currentBrick
            (set_completionPercent (upDistance / brickSize_ c)
               (set_isUp true (currentBrick_ c))) c
        else
          set_currentBrick
            (set_completionPercent (downDistance / brickSize_ c)
               (set_isUp false (currentBrick_ c))) c
  | _ :: _ =>
      let lastClose := close (back (bricks_ c)) in
      if Qgeb price (lastClose + brickSize_ c) then
        finalizeBrick (RenkoBrick_make lastClose (lastClose + brickSize_ c) ts true) c
      else if Qleb price (lastClose - brickSize_ c) then
        finalizeBrick (RenkoBrick_make lastClose (lastClose - brickSize_ c) ts false) c
      else
        let upDistance := price - lastClose in
        let downDistance := lastClose - price in
        let cur :=
          if Qgtb (Qabs upDistance) (Qabs downDistance) then
            set_completionPercent (upDistance / brickSize_ c)
              (set_isUp true (currentBrick_ c))
          else
            set_completionPercent (Qabs downDistance / brickSize_ c)
              (set_isUp false (currentBrick_ c)) in
        set_currentBrick
          (set_completionPercent
             (std_max 0 (std_min 1 (completionPercent cur))) cur) c
  end.

(** [addPrice] *)
Definition addPrice (price : Price) (ts : TimePoint) : M t unit :=
  locked (
    if Qleb price 0 then ret tt
    else
      modify (set_lastPrice price) ;;
      modify (set_lastUpdate ts) ;;
      initialized <- gets currentBrickInitialized_ ;;
      if negb initialized then modify (initializeCurrentBrick price ts)
      else
        modify (fun c => set_highestPrice (std_max (highestPrice_ c) price) c) ;;
        modify (fun c => set_lowestPrice (std_min (lowestPrice_ c) price) c) ;;
        modify (updateCurrentBrick price ts)).

(** [setBrickSize] *)
Definition setBrickSize (brickSize : Q) : M t unit :=
  locked (if Qgtb brickSize 0 then modify (set_brickSize brickSize) else ret tt).

(** [getBrickSize] *)
Definition getBrickSize : M t Q := gets brickSize_.

(** [getBricks]: the last [count] bricks, all of them when [count] is 0 or
    not below the size. *)
Definition getBricks (count : nat) : M t (list RenkoBrick) :=
  locked (
    bs <- gets bricks_ ;;
    if ((count =? 0)%nat || (List.length bs <=? count)%nat)%bool then ret bs
    else ret (skipn (List.length bs - count) bs)).

(** [getLastNBricks] *)
Definition getLastNBricks (n : nat) : M t (list RenkoBrick) := getBricks n.

(** [getLastBrick] *)
Definition getLastBrick : M t RenkoBrick :=
  locked (
    bs <- gets bricks_ ;;
    match bs with
    | [] => ret RenkoBrick_default
    | _ :: _ => ret (back bs)
    end).

(** [getCurrentBrick] *)
Definition getCurrentBrick : M t RenkoBrick := locked (gets currentBrick_).

(** [getBrickCount] *)
Definition getBrickCount : M t nat := locked (gets (fun c => List.length (bricks_ c))).

(** [getPartialBrickCompletion] *)
Definition getPartialBrickCompletion : M t Q :=
  locked (gets (fun c => completionPercent (currentBrick_ c))).

(** [getNextUpBrickLevel] *)
Definition getNextUpBrickLevel : M t Price :=
  locked (
    c <- get ;;
    match bricks_ c with
    | [] => ret (lastPrice_ c + brickSize_ c)
    | _ :: _ => ret (close (back (bricks_ c)) + brickSize_ c)
    end).

(** [getNextDownBrickLevel] *)
Definition getNextDownBrickLevel : M t Price :=
  locked (
    c <- get ;;
    match bricks_ c with
    | [] => ret (lastPrice_ c - brickSize_ c)
    | _ :: _ => ret (close (back (bricks_ c)) - brickSize_ c)
    end).

(** [calculateSetup1EntryPrice]: takes the lock, then calls the two public
    level getters, which take it again. *)
Definition calculateSetup1EntryPrice (side : OrderSide) (tickBuffer : Z) : M t Price :=
  locked (
    basePrice <- match side with
                 | BUY => getNextUpBrickLevel
                 | SELL => getNextDownBrickLevel
                 end ;;
    tickAdjustment <- gets (fun c => inject_Z tickBuffer * tickValue_ c) ;;
    match side with
    | BUY => ret (basePrice + tickAdjustment)
    | SELL => ret (basePrice - tickAdjustment)
    end).

(** [calculateSetup2EntryPrice] *)
Definition calculateSetup2EntryPrice (side : OrderSide) (tickBuffer : Z) : M t Price :=
  calculateSetup1EntryPrice side tickBuffer.

(** [calculateStopLoss] *)
Definition calculateStopLoss (side : OrderSide) (tickBuffer : Z) : M t Price :=
  locked (
    c <- get ;;
    match bricks_ c with
    | [] => ret (lastPrice_ c)
    | _ :: _ =>
        let stopLevel := match side with
                         | BUY => close (back (bricks_ c)) - brickSize_ c
                         | SELL => close (back (bricks_ c)) + brickSize_ c
                         end in
        let tickAdjustment := inject_Z tickBuffer * tickValue_ c in
        match side with
        | BUY => ret (stopLevel - tickAdjustment)
        | SELL => ret (stopLevel + tickAdjustment)
        end
    end).

(** [isUpBrickForming] *)
Definition isUpBrickForming : M t bool :=
  locked (gets (fun c => isUp (currentBrick_ c)
                         && Qgtb (completionPercent (currentBrick_ c)) 0)).

(** [isDownBrickForming] *)
Definition isDownBrickForming : M t bool :=
  locked (gets (fun c => negb (isUp (currentBrick_ c))
                         && Qgtb (completionPercent (currentBrick_ c)) 0)).

(** [getSymbol] *)
Definition getSymbol : M t Symbol := gets symbol_.

(** [reset] *)
Definition reset : M t unit :=
  locked (
    modify (set_bricks []) ;;
    modify (set_currentBrick RenkoBrick_default) ;;
    modify (set_currentBrickInitialized false)).

(** Feed a price stream: one [addPrice] call per tick, in order. *)
Definition feed (ticks : list (Price * TimePoint)) : M t unit :=
  seq_ (map (fun pt => addPrice (fst pt) (snd pt)) ticks).

(** [addTick] *)
Definition addTick (tick : Tick) : M t unit :=
  addPrice (tick_last tick) (tick_timestamp tick).

(** The loop shared by [hasConsecutiveDownBricks] and
    [hasConsecutiveUpBricks]: [remaining] rounds starting at [i], each reading
    [bricks_[bricks_.size() - i]] and answering [false] at the first brick
    whose [isUp] is [bad]. *)
Fixpoint scan_back (bad : bool) (l : list RenkoBrick) (i remaining : nat) : bool :=
  match remaining with
  | O => true
  | S r =>
      if Bool.eqb (isUp (nth (List.length l - i) l RenkoBrick_default)) bad then false
      else scan_back bad l (S i) r
  end.

(** [hasConsecutiveDownBricks]; the size is compared after its cast to
    [int]. *)
Definition hasConsecutiveDownBricks (count : Z) : M t bool :=
  locked (
    bs <- gets bricks_ ;;
    if (wrap_int (Z.of_nat (List.length bs)) <? count)%Z then ret false
    else ret (scan_back true bs 1 (Z.to_nat count))).

(** [hasConsecutiveUpBricks] *)
Definition hasConsecutiveUpBricks (count : Z) : M t bool :=
  locked (
    bs <- gets bricks_ ;;
    if (wrap_int (Z.of_nat (List.length bs)) <? count)%Z then ret false
    else ret (scan_back false bs 1 (Z.to_nat count))).

(** [hasGreenRedGreenPattern] *)
Definition hasGreenRedGreenPattern : M t bool :=
  locked (
    bs <- gets bricks_ ;;
    if (List.length bs <? 3)%nat then ret false
    else
      let idx := (List.length bs - 3)%nat in
      ret (isUp (nth idx bs RenkoBrick_default)
           && negb (isUp (nth (idx + 1) bs RenkoBrick_default))
           && isUp (nth (idx + 2) bs RenkoBrick_default))%bool).

(** [hasRedGreenRedPattern] *)
Definition hasRedGreenRedPattern : M t bool :=
  locked (
    bs <- gets bricks_ ;;
    if (List.length bs <? 3)%nat then ret false
    else
      let idx := (List.length bs - 3)%nat in
      ret (negb (isUp (nth idx bs RenkoBrick_default))
           && isUp (nth (idx + 1) bs RenkoBrick_default)
           && negb (isUp (nth (idx + 2) bs RenkoBrick_default)))%bool).

(** The number of leading bricks of [l] whose [isUp] is [up]. *)
Fixpoint run_length (up : bool) (l : list RenkoBrick) : nat :=
  match l with
  | [] => O
  | x :: rest => if Bool.eqb (isUp x) up then S (run_length up rest) else O
  end.

(** [getConsecutiveUpCount]: walks the deque from the back while the bricks
    are up, counting in an [int]; it takes no lock. *)
Definition getConsecutiveUpCount : M t Z :=
  gets (fun c => wrap_int (Z.of_nat (run_length true (rev (bricks_ c))))).

(** [getConsecutiveDownCount] *)
Definition getConsecutiveDownCount : M t Z :=
  gets (fun c => wrap_int (Z.of_nat (run_length false (rev (bricks_ c))))).

(** [isBrickComplete] *)
Definition isBrickComplete (completionThreshold : Q) : M t bool :=
  locked (gets (fun c => Qgeb (completionPercent (currentBrick_ c)) completionThreshold)).

(** [clearOldBricks] *)
Definition clearOldBricks (keepCount : nat) : M t unit :=
  locked (modify (fun c => set_bricks (pop_front_while_over keepCount (bricks_ c)) c)).

(** [setMaxBricks]; it takes no lock and evicts nothing. *)
Definition setMaxBricks (maxBricks : nat) : M t unit := modify (set_maxBricks maxBricks).

(** [setTickValue] *)
Definition setTickValue (tickValue : Q) : M t unit := modify (set_tickValue tickValue).

(** [getTickValue] *)
Definition getTickValue : M t Q := gets tickValue_.

(** [getLastUpdateTime] *)
Definition getLastUpdateTime : M t TimePoint := gets lastUpdate_.

End RenkoChart.

(** ** The brick formation in binary64

    [RenkoChart::addPrice] and the functions it calls once more, with
    [double] as the IEEE 754 binary64 numbers of [PrimFloat]: every sum,
    difference and quotient is rounded as in the program.  The structure is
    that of [RenkoChart] above, line for line; only the number type differs.
    A decimal literal denotes the nearest binary64 number, as it does in the
    program.  This module decides the statements in which rounding
    matters. *)

Module Binary64.

Record RenkoBrick : Type := mkRenkoBrick {
  open : float;
  close : float;
  high : float;
  low : float;
  timestamp : TimePoint;
  isUp : bool;
  completionPercent : float
}.

(** [std::max(a, b)] is [(a < b) ? b : a]; [std::min(a, b)] is
    [(b < a) ? b : a]. *)
Definition std_max (a b : float) : float := if (a <? b)%float then b else a.
Definition std_min (a b : float) : float := if (b <? a)%float then b else a.

(** [RenkoBrick()] *)
Definition RenkoBrick_default : RenkoBrick :=
  mkRenkoBrick 0 0 0 0 0%Z true 0.

(** [RenkoBrick(o, c, ts, up)] *)
Definition RenkoBrick_make (o c : float) (ts : TimePoint) (up : bool) : RenkoBrick :=
  mkRenkoBrick o c (std_max o c) (std_min o c) ts up 1.

Definition set_open (v : float) (b : RenkoBrick) : RenkoBrick :=
  mkRenkoBrick v (close b) (high b) (low b) (timestamp b) (isUp b) (completionPercent b).
Definition set_close (v : float) (b : RenkoBrick) : RenkoBrick :=
  mkRenkoBrick (open b) v (high b) (low b) (timestamp b) (isUp b) (completionPercent b).
Definition set_high (v : float) (b : RenkoBrick) : RenkoBrick :=
  mkRenkoBrick (open b) (close b) v (low b) (timestamp b) (isUp b) (completionPercent b).
Definition set_low (v : float) (b : RenkoBrick) : RenkoBrick :=
  mkRenkoBrick (open b) (close b) (high b) v (timestamp b) (isUp b) (completionPercent b).
Definition set_timestamp (v : TimePoint) (b : RenkoBrick) : RenkoBrick :=
  mkRenkoBrick (open b) (close b) (high b) (low b) v (isUp b) (completionPercent b).
Definition set_isUp (v : bool) (b : RenkoBrick) : RenkoBrick :=
  mkRenkoBrick (open b) (close b) (high b) (low b) (timestamp b) v (completionPercent b).
Definition set_completionPercent (v : float) (b : RenkoBrick) : RenkoBrick :=
  mkRenkoBrick (open b) (close b) (high b) (low b) (timestamp b) (isUp b) v.

(** The data members of [class RenkoChart]. *)
Record t : Type := mk {
  symbol_ : Symbol;
  brickSize_ : float;
  tickValue_ : float;
  maxBricks_ : nat;
  bricks_ : list RenkoBrick;
  currentBrick_ : RenkoBrick;
  currentBrickInitialized_ : bool;
  lastPrice_ : float;
  highestPrice_ : float;
  lowestPrice_ : float;
  lastUpdate_ : TimePoint;
  dataMutex_ : bool
}.

Definition set_bricks (v : list RenkoBrick) (c : t) : t :=
  mk (symbol_ c) (brickSize_ c) (tickValue_ c) (maxBricks_ c) v (currentBrick_ c)
     (currentBrickInitialized_ c) (lastPrice_ c) (highestPrice_ c) (lowestPrice_ c)
     (lastUpdate_ c) (dataMutex_ c).
Definition set_currentBrick (v : RenkoBrick) (c : t) : t :=
  mk (symbol_ c) (brickSize_ c) (tickValue_ c) (maxBricks_ c) (bricks_ c) v
     (currentBrickInitialized_ c) (lastPrice_ c) (highestPrice_ c) (lowestPrice_ c)
     (lastUpdate_ c) (dataMutex_ c).
Definition set_currentBrickInitialized (v : bool) (c : t) : t :=
  mk (symbol_ c) (brickSize_ c) (tickValue_ c) (maxBricks_ c) (bricks_ c) (currentBrick_ c)
     v (lastPrice_ c) (highestPrice_ c) (lowestPrice_ c)
     (lastUpdate_ c) (dataMutex_ c).
Definition set_lastPrice (v : float) (c : t) : t :=
  mk (symbol_ c) (brickSize_ c) (tickValue_ c) (maxBricks_ c) (bricks_ c) (currentBrick_ c)
     (currentBrickInitialized_ c) v (highestPrice_ c) (lowestPrice_ c)
     (lastUpdate_ c) (dataMutex_ c).
Definition set_highestPrice (v : float) (c : t) : t :=
  mk (symbol_ c) (brickSize_ c) (tickValue_ c) (maxBricks_ c) (bricks_ c) (currentBrick_ c)
     (currentBrickInitialized_ c) (lastPrice_ c) v (lowestPrice_ c)
     (lastUpdate_ c) (dataMutex_ c).
Definition set_lowestPrice (v : float) (c : t) : t :=
  mk (symbol_ c) (brickSize_ c) (tickValue_ c) (maxBricks_ c) (bricks_ c) (currentBrick_ c)
     (currentBrickInitialized_ c) (lastPrice_ c) (highestPrice_ c) v
     (lastUpdate_ c) (dataMutex_ c).
Definition set_lastUpdate (v : TimePoint) (c : t) : t :=
  mk (symbol_ c) (brickSize_ c) (tickValue_ c) (maxBricks_ c) (bricks_ c) (currentBrick_ c)
     (currentBrickInitialized_ c) (lastPrice_ c) (highestPrice_ c) (lowestPrice_ c)
     v (dataMutex_ c).
Definition set_dataMutex (v : bool) (c : t) : t :=
  mk (symbol_ c) (brickSize_ c) (tickValue_ c) (maxBricks_ c) (bricks_ c) (currentBrick_ c)
     (currentBrickInitialized_ c) (lastPrice_ c) (highestPrice_ c) (lowestPrice_ c)
     (lastUpdate_ c) v.

(** [std::lock_guard<std::mutex> lock(dataMutex_);] *)
Definition locked {A : Type} (body : M t A) : M t A :=
  lock_guard dataMutex_ set_dataMutex body.

(** [RenkoChart::RenkoChart(symbol, brickSize, maxBricks)] *)
Definition create (symbol : Symbol) (brickSize : float) (maxBricks : nat) : t :=
  mk symbol brickSize 0.0001 maxBricks [] RenkoBrick_default false 0 0 0 0%Z false.

(** [bricks_.back()], read only where the deque is not empty. *)
Definition back (l : list RenkoBrick) : RenkoBrick := last l RenkoBrick_default.

(** [maintainMaxBricks]: [while (bricks_.size() > maxBricks_) bricks_.pop_front();] *)
Fixpoint pop_front_while_over (maxBricks : nat) (l : list RenkoBrick) : list RenkoBrick :=
  match l with
  | [] => []
  | _ :: rest =>
      if (maxBricks <? List.length l)%nat then pop_front_while_over maxBricks rest else l
  end.

Definition maintainMaxBricks (c : t) : t :=
  set_bricks (pop_front_while_over (maxBricks_ c) (bricks_ c)) c.

(** [initializeCurrentBrick] *)
Definition initializeCurrentBrick (price : float) (ts : TimePoint) (c : t) : t :=
  let cur := currentBrick_ c in
  let cur := set_open price cur in
  let cur := set_close price cur in
  let cur := set_high price cur in
  let cur := set_low price cur in
  let cur := set_timestamp ts cur in
  let cur := set_isUp true cur in
  let cur := set_completionPercent 0 cur in
  let c := set_currentBrick cur c in
  let c := set_highestPrice price c in
  let c := set_lowestPrice price c in
  set_currentBrickInitialized true c.

(** [finalizeBrick] *)
Definition finalizeBrick (brick : RenkoBrick) (c : t) : t :=
  let c := set_bricks (bricks_ c ++ [brick]) c in
  let cur := RenkoBrick_default in
  let cur := set_open (close brick) cur in
  let cur := set_close (close brick) cur in
  let cur := set_timestamp (timestamp brick) cur in
  let cur := set_completionPercent 0 cur in
  let c := set_currentBrick cur c in
  let c := set_highestPrice (close brick) c in
  let c := set_lowestPrice (close brick) c in
  maintainMaxBricks c.

(** [updateCurrentBrick]; [x >= y] is [y <= x]. *)
Definition updateCurrentBrick (price : float) (ts : TimePoint) (c : t) : t :=
  match bricks_ c with
  | [] =>
      let o := open (currentBrick_ c) in
      if (o + brickSize_ c <=? price)%float then
        finalizeBrick (RenkoBrick_make o (o + brickSize_ c)%float ts true) c
      else if (price <=? o - brickSize_ c)%float then
        finalizeBrick (RenkoBrick_make o (o - brickSize_ c)%float ts false) c
      else
        let upDistance := (price - o)%float in
        let downDistance := (o - price)%float in
        if (downDistance <? upDistance)%float then
          set_currentBrick
            (set_completionPercent (upDistance / brickSize_ c)%float
               (set_isUp true (currentBrick_ c))) c
        else
          set_currentBrick
            (set_completionPercent (downDistance / brickSize_ c)%float
               (set_isUp false (currentBrick_ c))) c
  | _ :: _ =>
      let lastClose := close (back (bricks_ c)) in
      if (lastClose + brickSize_ c <=? price)%float then
        finalizeBrick (RenkoBrick_make lastClose (lastClose + brickSize_ c)%float ts true) c
      else if (price <=? lastClose - brickSize_ c)%float then
        finalizeBrick (RenkoBrick_make lastClose (lastClose - brickSize_ c)%float ts false) c
      else
        let upDistance := (price - lastClose)%float in
        let downDistance := (lastClose - price)%float in
        let cur :=
          if (PrimFloat.abs downDistance <? PrimFloat.abs upDistance)%float then
            set_completionPercent (upDistance / brickSize_ c)%float
              (set_isUp true (currentBrick_ c))
          else
            set_completionPercent (PrimFloat.abs downDistance / brickSize_ c)%float
              (set_isUp false (currentBrick_ c)) in
        set_currentBrick
          (set_completionPercent
             (std_max 0 (std_min 1 (completionPercent cur))) cur) c
  end.

(** [addPrice] *)
Definition addPrice (price : float) (ts : TimePoint) : M t unit :=
  locked (
    if (price <=? 0)%float then ret tt
    else
      modify (set_lastPrice price) ;;
      modify (set_lastUpdate ts) ;;
      initialized <- gets currentBrickInitialized_ ;;
      if negb initialized then modify (initializeCurrentBrick price ts)
      else
        modify (fun c => set_highestPrice (std_max (highestPrice_ c) price) c) ;;
        modify (fun c => set_lowestPrice (std_min (lowestPrice_ c) price) c) ;;
        modify (updateCurrentBrick price ts)).

(** Feed a price stream: one [addPrice] call per tick, in order. *)
Definition feed (ticks : list (float * TimePoint)) : M t unit :=
  seq_ (map (fun pt => addPrice (fst pt) (snd pt)) ticks).

(** The span [|close - open|] of a brick, as the program would compute it. *)
Definition span (x : RenkoBrick) : float := PrimFloat.abs (close x - open x)%float.

End Binary64.

(** ** PatternDetector.h / PatternDetector.cpp *)

Module PatternDetector.

(** The configuration members of [class PatternDetector]; the per-symbol and
    per-pattern statistics maps are not read by the detection methods. *)
Record t : Type := mk {
  minConfidence_ : Q;
  partialBrickThreshold_ : Q;
  tickBuffer_ : Z;
  setup1Enabled_ : bool;
  setup2Enabled_ : bool
}.

(** [PatternDetector::PatternDetector()] *)
Definition create : t := mk (7 # 10) (75 # 100) 2 true true.

(** [setPartialBrickThreshold] *)
Definition setPartialBrickThreshold (threshold : Q) (d : t) : t :=
  mk (minConfidence_ d) (std_max (5 # 10) (std_min 1 threshold)) (tickBuffer_ d)
     (setup1Enabled_ d) (setup2Enabled_ d).

(** [recentBricks[i]], read only at indices below the size. *)
Definition at_ (l : list RenkoBrick) (i : nat) : RenkoBrick := nth i l RenkoBrick_default.

(** [detectSetup1Pattern]; [now] is the clock reading stored as
    [detectionTime]. *)
Definition detectSetup1Pattern (d : t) (now : TimePoint) : M RenkoChart.t PatternResult :=
  sym <- RenkoChart.getSymbol ;;
  let result := mkPatternResult NONE sym [] 0 now 0 0 None in
  recentBricks <- RenkoChart.getLastNBricks 5 ;;
  let size := List.length recentBricks in
  if (size <? 3)%nat then ret result
  else if (3 <=? size)%nat then
    let hasConsecutiveDown :=
      (negb (isUp (at_ recentBricks (size - 3)))
       && negb (isUp (at_ recentBricks (size - 2))))%bool in
    currentBrick <- RenkoChart.getCurrentBrick ;;
    let hasPartialUp :=
      (isUp currentBrick
       && Qgeb (completionPercent currentBrick) (partialBrickThreshold_ d))%bool in
    if (hasConsecutiveDown && hasPartialUp)%bool then
      entry <- RenkoChart.calculateSetup1EntryPrice BUY (tickBuffer_ d) ;;
      stop <- RenkoChart.calculateStopLoss BUY (tickBuffer_ d) ;;
      ret (mkPatternResult SETUP_1_CONSECUTIVE sym recentBricks (8 # 10) now
             entry stop (Some BUY))
    else ret result
  else ret result.

(** [detectSetup2Pattern] *)
Definition detectSetup2Pattern (d : t) (now : TimePoint) : M RenkoChart.t PatternResult :=
  sym <- RenkoChart.getSymbol ;;
  let result := mkPatternResult NONE sym [] 0 now 0 0 None in
  recentBricks <- RenkoChart.getLastNBricks 5 ;;
  let size := List.length recentBricks in
  if (size <? 3)%nat then ret result
  else if (3 <=? size)%nat then
    let hasGreenRedGreen :=
      (isUp (at_ recentBricks (size - 3))
       && negb (isUp (at_ recentBricks (size - 2)))
       && isUp (at_ recentBricks (size - 1)))%bool in
    currentBrick <- RenkoChart.getCurrentBrick ;;
    let isPartiallyFormed :=
      Qgeb (completionPercent currentBrick) (partialBrickThreshold_ d) in
    if (hasGreenRedGreen && isPartiallyFormed)%bool then
      entry <- RenkoChart.calculateSetup2EntryPrice BUY (tickBuffer_ d) ;;
      stop <- RenkoChart.calculateStopLoss BUY (tickBuffer_ d) ;;
      ret (mkPatternResult SETUP_2_GREEN_RED_GREEN sym recentBricks (75 # 100) now
             entry stop (Some BUY))
    else ret result
  else ret result.

(** [detectPatterns] *)
Definition detectPatterns (d : t) (now : TimePoint) : M RenkoChart.t (list PatternResult) :=
  results1 <-
    (if setup1Enabled_ d then
       setup1Result <- detectSetup1Pattern d now ;;
       if negb (PatternType_eqb (type setup1Result) NONE) then ret [setup1Result]
       else ret []
     else ret []) ;;
  results2 <-
    (if setup2Enabled_ d then
       setup2Result <- detectSetup2Pattern d now ;;
       if negb (PatternType_eqb (type setup2Result) NONE) then ret [setup2Result]
       else ret []
     else ret []) ;;
  ret (results1 ++ results2).

(** [isSetup1Triggered]: the returned flag, and the side written through the
    reference argument when the flag is set. *)
Definition isSetup1Triggered (d : t) (now : TimePoint)
    : M RenkoChart.t (bool * option OrderSide) :=
  result <- detectSetup1Pattern d now ;;
  if negb (PatternType_eqb (type result) NONE) then ret (true, suggestedSide result)
  else ret (false, None).

(** [setMinConfidence] *)
Definition setMinConfidence (confidence : Q) (d : t) : t :=
  mk (std_max 0 (std_min 1 confidence)) (partialBrickThreshold_ d) (tickBuffer_ d)
     (setup1Enabled_ d) (setup2Enabled_ d).

(** [setTickBuffer] *)
Definition setTickBuffer (ticks : Z) (d : t) : t :=
  mk (minConfidence_ d) (partialBrickThreshold_ d) (std_max_int 1 ticks)
     (setup1Enabled_ d) (setup2Enabled_ d).

(** [enableSetup1] *)
Definition enableSetup1 (enable : bool) (d : t) : t :=
  mk (minConfidence_ d) (partialBrickThreshold_ d) (tickBuffer_ d) enable (setup2Enabled_ d).

(** [enableSetup2] *)
Definition enableSetup2 (enable : bool) (d : t) : t :=
  mk (minConfidence_ d) (partialBrickThreshold_ d) (tickBuffer_ d) (setup1Enabled_ d) enable.

(** [isSetup2Triggered] *)
Definition isSetup2Triggered (d : t) (now : TimePoint)
    : M RenkoChart.t (bool * option OrderSide) :=
  result <- detectSetup2Pattern d now ;;
  if negb (PatternType_eqb (type result) NONE) then ret (true, suggestedSide result)
  else ret (false, None).

(** [generateSignalFromPattern]; it reads neither the detector nor the chart.
    [side0] is the value the default-constructed signal holds in [side], which
    is also what a pattern without a suggested side copies into it. *)
Definition generateSignalFromPattern (side0 : OrderSide) (p : PatternResult)
    (chart : RenkoChart.t) (config : SymbolConfig) : TradingSignal :=
  if PatternType_eqb (type p) NONE then TradingSignal_default side0
  else
    let sd := match suggestedSide p with
              | Some v => v
              | None => side0
              end in
    let riskDistance := Qabs (suggestedEntry p - suggestedStop p) in
    let tp := match sd with
              | BUY => suggestedEntry p + riskDistance * 2
              | SELL => suggestedEntry p - riskDistance * 2
              end in
    mkTradingSignal (result_symbol p) (type p) sd (suggestedEntry p) (suggestedStop p)
      tp (minLotSize (riskParams config)) (detectionTime p) (confidence p).

(** [calculateTakeProfit] *)
Definition calculateTakeProfit (p : PatternResult) (chart : RenkoChart.t)
    (sd : OrderSide) (riskRewardRatio : Q) : Price :=
  let risk := Qabs (suggestedEntry p - suggestedStop p) in
  match sd with
  | BUY => suggestedEntry p + risk * riskRewardRatio
  | SELL => suggestedEntry p - risk * riskRewardRatio
  end.

(** [validateSetup1] *)
Definition validateSetup1 (d : t) (bs : list RenkoBrick) (partialCompletion : Q) : bool :=
  ((3 <=? List.length bs)%nat && Qgeb partialCompletion (partialBrickThreshold_ d))%bool.

End PatternDetector.

(** ** PatternDetector: pattern statistics *)

Module PatternStatistics.

(** [struct PatternStats] *)
Record PatternStats : Type := mkPatternStats {
  totalCount : Z;
  successCount : Z;
  successRate : Q;
  lastUpdate : TimePoint
}.

(** [PatternStats()] *)
Definition PatternStats_default : PatternStats := mkPatternStats 0 0 0 0%Z.

(** The member [patternStats_] of [class PatternDetector], an
    [unordered_map] keyed by the three pattern types: [None] is a missing
    key. *)
Definition t : Type := PatternType -> option PatternStats.

(** The map of a newly constructed detector. *)
Definition empty : t := fun _ => None.

(** [patternStats_[key] = v] *)
Definition insert (key : PatternType) (v : PatternStats) (m : t) : t :=
  fun k => if PatternType_eqb k key then Some v else m k.

(** [updatePatternStats]; [operator[]] creates a default entry for a missing
    key. *)
Definition updatePatternStats (p : PatternResult) (successful : bool) (now : TimePoint)
    : M t unit :=
  modify (fun m =>
    let stats := match m (type p) with
                 | Some s => s
                 | None => PatternStats_default
                 end in
    let total := int_incr (totalCount stats) in
    let success := if successful then int_incr (successCount stats)
                   else successCount stats in
    let rate := if (0 <? total)%Z then inject_Z success / inject_Z total else 0 in
    insert (type p) (mkPatternStats total success rate now) m).

(** [getPatternSuccessRate] *)
Definition getPatternSuccessRate (ty : PatternType) : M t Q :=
  gets (fun m => match m ty with
                 | Some s => successRate s
                 | None => 0
                 end).

(** [getPatternCount] *)
Definition getPatternCount (ty : PatternType) : M t Z :=
  gets (fun m => match m ty with
                 | Some s => totalCount s
                 | None => 0%Z
                 end).

End PatternStatistics.

(** ** Logger.h / Logger.cpp *)

Module Logger.

Inductive LogLevel : Type := DEBUG | INFO | WARNING | ERROR | CRITICAL.

(** The enumerator values. *)
Definition level_value (l : LogLevel) : Z :=
  match l with
  | DEBUG => 0
  | INFO => 1
  | WARNING => 2
  | ERROR => 3
  | CRITICAL => 4
  end.

(** [struct LogEntry] *)
Record LogEntry : Type := mkLogEntry {
  level : LogLevel;
  category : string;
  message : string;
  entry_timestamp : string
}.

(** The data members of [class Logger]; [mutex_] is [true] while held. *)
Record t : Type := mk {
  logLevel_ : LogLevel;
  logEntries_ : list LogEntry;
  mutex_ : bool
}.

Definition set_logLevel (v : LogLevel) (g : t) : t := mk v (logEntries_ g) (mutex_ g).
Definition set_logEntries (v : list LogEntry) (g : t) : t := mk (logLevel_ g) v (mutex_ g).
Definition set_mutex (v : bool) (g : t) : t := mk (logLevel_ g) (logEntries_ g) v.

(** [std::lock_guard<std::mutex> lock(mutex_);] *)
Definition locked {A : Type} (body : M t A) : M t A := lock_guard mutex_ set_mutex body.

(** [Logger::Logger()] *)
Definition create : t := mk INFO [] false.

(** [setLogLevel] *)
Definition setLogLevel (l : LogLevel) : M t unit := modify (set_logLevel l).

(** [log]; [stamp] is the formatted reading of the clock.  The level test
    comes before the lock. *)
Definition log (l : LogLevel) (msg cat stamp : string) : M t unit :=
  current <- gets logLevel_ ;;
  if (level_value l <? level_value current)%Z then ret tt
  else
    locked (
      modify (fun g => set_logEntries (logEntries_ g ++ [mkLogEntry l cat msg stamp]) g) ;;
      entries <- gets logEntries_ ;;
      if (1000 <? List.length entries)%nat then
        modify (fun g => set_logEntries (tl (logEntries_ g)) g)
      else ret tt).

(** [debug], [info], [warning], [error], [critical] *)
Definition debug (msg cat stamp : string) : M t unit := log DEBUG msg cat stamp.
Definition info (msg cat stamp : string) : M t unit := log INFO msg cat stamp.
Definition warning (msg cat stamp : string) : M t unit := log WARNING msg cat stamp.
Definition error (msg cat stamp : string) : M t unit := log ERROR msg cat stamp.
Definition critical (msg cat stamp : string) : M t unit := log CRITICAL msg cat stamp.

(** [getRecentEntries] *)
Definition getRecentEntries (count : nat) : M t (list LogEntry) :=
  locked (
    entries <- gets logEntries_ ;;
    if (List.length entries <=? count)%nat then ret entries
    else ret (skipn (List.length entries - count) entries)).

(** [clearEntries] *)
Definition clearEntries : M t unit := locked (modify (set_logEntries [])).

(** One request to write a line: level, message, category, time stamp. *)
Definition Request : Type := (LogLevel * string * string * string)%type.

Definition log_request (r : Request) : M t unit :=
  match r with
  | (l, msg, cat, stamp) => log l msg cat stamp
  end.

Definition log_all (rs : list Request) : M t unit := seq_ (map log_request rs).

End Logger.

(** ** RiskManager.h / RiskManager.cpp *)

Module RiskManager.

(** [struct TradingCounter] *)
Record TradingCounter : Type := mkTradingCounter {
  counterNumber : Z;
  ordersCount : Z;
  orders : list Order;
  initialCapital : Q;
  currentCapital : Q;
  totalPnL : Q;
  totalCharges : Q;
  startTime : TimePoint;
  endTime : TimePoint;
  isComplete : bool
}.

(** [TradingCounter()] *)
Definition TradingCounter_default : TradingCounter :=
  mkTradingCounter 0 0 [] 0 0 0 0 0%Z 0%Z false.

Definition set_counterNumber (v : Z) (k : TradingCounter) : TradingCounter :=
  mkTradingCounter v (ordersCount k) (orders k) (initialCapital k) (currentCapital k)
    (totalPnL k) (totalCharges k) (startTime k) (endTime k) (isComplete k).
Definition set_ordersCount (v : Z) (k : TradingCounter) : TradingCounter :=
  mkTradingCounter (counterNumber k) v (orders k) (initialCapital k) (currentCapital k)
    (totalPnL k) (totalCharges k) (startTime k) (endTime k) (isComplete k).
Definition set_orders (v : list Order) (k : TradingCounter) : TradingCounter :=
  mkTradingCounter (counterNumber k) (ordersCount k) v (initialCapital k) (currentCapital k)
    (totalPnL k) (totalCharges k) (startTime k) (endTime k) (isComplete k).
Definition set_startTime (v : TimePoint) (k : TradingCounter) : TradingCounter :=
  mkTradingCounter (counterNumber k) (ordersCount k) (orders k) (initialCapital k)
    (currentCapital k) (totalPnL k) (totalCharges k) v (endTime k) (isComplete k).
Definition set_endTime (v : TimePoint) (k : TradingCounter) : TradingCounter :=
  mkTradingCounter (counterNumber k) (ordersCount k) (orders k) (initialCapital k)
    (currentCapital k) (totalPnL k) (totalCharges k) (startTime k) v (isComplete k).
Definition set_isComplete (v : bool) (k : TradingCounter) : TradingCounter :=
  mkTradingCounter (counterNumber k) (ordersCount k) (orders k) (initialCapital k)
    (currentCapital k) (totalPnL k) (totalCharges k) (startTime k) (endTime k) v.

(** The data members of [class RiskManager]; the two mutex flags are [true]
    while the mutex is held.  The three [std::atomic] members are plain
    values: one call runs at a time. *)
Record t : Type := mk {
  params_ : RiskParameters;
  paramsMutex_ : bool;
  currentStatus_ : RiskStatus;
  paperMode_ : bool;
  emergencyStop_ : bool;
  equityHighWaterMark_ : Q;
  currentDrawdown_ : Q;
  maxDrawdown_ : Q;
  highWaterMarkTime_ : TimePoint;
  dailyStartBalance_ : Q;
  dailyPnL_ : Q;
  dailyRiskUsed_ : Q;
  lastDailyReset_ : TimePoint;
  currentCounter_ : TradingCounter;
  completedCounters_ : list TradingCounter;
  counterMutex_ : bool;
  consecutiveLosses_ : Z;
  consecutiveWins_ : Z;
  maxConsecutiveLosses_ : Z;
  totalTrades_ : Q;
  profitableTrades_ : Q
}.

Definition set_params (v : RiskParameters) (s : t) : t :=
  mk v (paramsMutex_ s) (currentStatus_ s) (paperMode_ s) (emergencyStop_ s)
     (equityHighWaterMark_ s) (currentDrawdown_ s) (maxDrawdown_ s) (highWaterMarkTime_ s)
     (dailyStartBalance_ s) (dailyPnL_ s) (dailyRiskUsed_ s) (lastDailyReset_ s)
     (currentCounter_ s) (completedCounters_ s) (counterMutex_ s) (consecutiveLosses_ s)
     (consecutiveWins_ s) (maxConsecutiveLosses_ s) (totalTrades_ s) (profitableTrades_ s).
Definition set_paramsMutex (v : bool) (s : t) : t :=
  mk (params_ s) v (currentStatus_ s) (paperMode_ s) (emergencyStop_ s)
     (equityHighWaterMark_ s) (currentDrawdown_ s) (maxDrawdown_ s) (highWaterMarkTime_ s)
     (dailyStartBalance_ s) (dailyPnL_ s) (dailyRiskUsed_ s) (lastDailyReset_ s)
     (currentCounter_ s) (completedCounters_ s) (counterMutex_ s) (consecutiveLosses_ s)
     (consecutiveWins_ s) (maxConsecutiveLosses_ s) (totalTrades_ s) (profitableTrades_ s).
Definition set_currentStatus (v : RiskStatus) (s : t) : t :=
  mk (params_ s) (paramsMutex_ s) v (paperMode_ s) (emergencyStop_ s)
     (equityHighWaterMark_ s) (currentDrawdown_ s) (maxDrawdown_ s) (highWaterMarkTime_ s)
     (dailyStartBalance_ s) (dailyPnL_ s) (dailyRiskUsed_ s) (lastDailyReset_ s)
     (currentCounter_ s) (completedCounters_ s) (counterMutex_ s) (consecutiveLosses_ s)
     (consecutiveWins_ s) (maxConsecutiveLosses_ s) (totalTrades_ s) (profitableTrades_ s).
Definition set_paperMode (v : bool) (s : t) : t :=
  mk (params_ s) (paramsMutex_ s) (currentStatus_ s) v (emergencyStop_ s)
     (equityHighWaterMark_ s) (currentDrawdown_ s) (maxDrawdown_ s) (highWaterMarkTime_ s)
     (dailyStartBalance_ s) (dailyPnL_ s) (dailyRiskUsed_ s) (lastDailyReset_ s)
     (currentCounter_ s) (completedCounters_ s) (counterMutex_ s) (consecutiveLosses_ s)
     (consecutiveWins_ s) (maxConsecutiveLosses_ s) (totalTrades_ s) (profitableTrades_ s).
Definition set_emergencyStop (v : bool) (s : t) : t :=
  mk (params_ s) (paramsMutex_ s) (currentStatus_ s) (paperMode_ s) v
     (equityHighWaterMark_ s) (currentDrawdown_ s) (maxDrawdown_ s) (highWaterMarkTime_ s)
     (dailyStartBalance_ s) (dailyPnL_ s) (dailyRiskUsed_ s) (lastDailyReset_ s)
     (currentCounter_ s) (completedCounters_ s) (counterMutex_ s) (consecutiveLosses_ s)
     (consecutiveWins_ s) (maxConsecutiveLosses_ s) (totalTrades_ s) (profitableTrades_ s).
Definition set_equityHighWaterMark (v : Q) (s : t) : t :=
  mk (params_ s) (paramsMutex_ s) (currentStatus_ s) (paperMode_ s) (emergencyStop_ s) v
     (currentDrawdown_ s) (maxDrawdown_ s) (highWaterMarkTime_ s) (dailyStartBalance_ s)
     (dailyPnL_ s) (dailyRiskUsed_ s) (lastDailyReset_ s) (currentCounter_ s)
     (completedCounters_ s) (counterMutex_ s) (consecutiveLosses_ s) (consecutiveWins_ s)
     (maxConsecutiveLosses_ s) (totalTrades_ s) (profitableTrades_ s).
Definition set_currentDrawdown (v : Q) (s : t) : t :=
  mk (params_ s) (paramsMutex_ s) (currentStatus_ s) (paperMode_ s) (emergencyStop_ s)
     (equityHighWaterMark_ s) v (maxDrawdown_ s) (highWaterMarkTime_ s)
     (dailyStartBalance_ s) (dailyPnL_ s) (dailyRiskUsed_ s) (lastDailyReset_ s)
     (currentCounter_ s) (completedCounters_ s) (counterMutex_ s) (consecutiveLosses_ s)
     (consecutiveWins_ s) (maxConsecutiveLosses_ s) (totalTrades_ s) (profitableTrades_ s).
Definition set_maxDrawdown (v : Q) (s : t) : t :=
  mk (params_ s) (paramsMutex_ s) (currentStatus_ s) (paperMode_ s) (emergencyStop_ s)
     (equityHighWaterMark_ s) (currentDrawdown_ s) v (highWaterMarkTime_ s)
     (dailyStartBalance_ s) (dailyPnL_ s) (dailyRiskUsed_ s) (lastDailyReset_ s)
     (currentCounter_ s) (completedCounters_ s) (counterMutex_ s) (consecutiveLosses_ s)
     (consecutiveWins_ s) (maxConsecutiveLosses_ s) (totalTrades_ s) (profitableTrades_ s).
Definition set_highWaterMarkTime (v : TimePoint) (s : t) : t :=
  mk (params_ s) (paramsMutex_ s) (currentStatus_ s) (paperMode_ s) (emergencyStop_ s)
     (equityHighWaterMark_ s) (currentDrawdown_ s) (maxDrawdown_ s) v (dailyStartBalance_ s)
     (dailyPnL_ s) (dailyRiskUsed_ s) (lastDailyReset_ s) (currentCounter_ s)
     (completedCounters_ s) (counterMutex_ s) (consecutiveLosses_ s) (consecutiveWins_ s)
     (maxConsecutiveLosses_ s) (totalTrades_ s) (profitableTrades_ s).
Definition set_dailyStartBalance (v : Q) (s : t) : t :=
  mk (params_ s) (paramsMutex_ s) (currentStatus_ s) (paperMode_ s) (emergencyStop_ s)
     (equityHighWaterMark_ s) (currentDrawdown_ s) (maxDrawdown_ s) (highWaterMarkTime_ s) v
     (dailyPnL_ s) (dailyRiskUsed_ s) (lastDailyReset_ s) (currentCounter_ s)
     (completedCounters_ s) (counterMutex_ s) (consecutiveLosses_ s) (consecutiveWins_ s)
     (maxConsecutiveLosses_ s) (totalTrades_ s) (profitableTrades_ s).
Definition set_dailyPnL (v : Q) (s : t) : t :=
  mk (params_ s) (paramsMutex_ s) (currentStatus_ s) (paperMode_ s) (emergencyStop_ s)
     (equityHighWaterMark_ s) (currentDrawdown_ s) (maxDrawdown_ s) (highWaterMarkTime_ s)
     (dailyStartBalance_ s) v (dailyRiskUsed_ s) (lastDailyReset_ s) (currentCounter_ s)
     (completedCounters_ s) (counterMutex_ s) (consecutiveLosses_ s) (consecutiveWins_ s)
     (maxConsecutiveLosses_ s) (totalTrades_ s) (profitableTrades_ s).
Definition set_dailyRiskUsed (v : Q) (s : t) : t :=
  mk (params_ s) (paramsMutex_ s) (currentStatus_ s) (paperMode_ s) (emergencyStop_ s)
     (equityHighWaterMark_ s) (currentDrawdown_ s) (maxDrawdown_ s) (highWaterMarkTime_ s)
     (dailyStartBalance_ s) (dailyPnL_ s) v (lastDailyReset_ s) (currentCounter_ s)
     (completedCounters_ s) (counterMutex_ s) (consecutiveLosses_ s) (consecutiveWins_ s)
     (maxConsecutiveLosses_ s) (totalTrades_ s) (profitableTrades_ s).
Definition set_lastDailyReset (v : TimePoint) (s : t) : t :=
  mk (params_ s) (paramsMutex_ s) (currentStatus_ s) (paperMode_ s) (emergencyStop_ s)
     (equityHighWaterMark_ s) (currentDrawdown_ s) (maxDrawdown_ s) (highWaterMarkTime_ s)
     (dailyStartBalance_ s) (dailyPnL_ s) (dailyRiskUsed_ s) v (currentCounter_ s)
     (completedCounters_ s) (counterMutex_ s) (consecutiveLosses_ s) (consecutiveWins_ s)
     (maxConsecutiveLosses_ s) (totalTrades_ s) (profitableTrades_ s).
Definition set_currentCounter (v : TradingCounter) (s : t) : t :=
  mk (params_ s) (paramsMutex_ s) (currentStatus_ s) (paperMode_ s) (emergencyStop_ s)
     (equityHighWaterMark_ s) (currentDrawdown_ s) (maxDrawdown_ s) (highWaterMarkTime_ s)
     (dailyStartBalance_ s) (dailyPnL_ s) (dailyRiskUsed_ s) (lastDailyReset_ s) v
     (completedCounters_ s) (counterMutex_ s) (consecutiveLosses_ s) (consecutiveWins_ s)
     (maxConsecutiveLosses_ s) (totalTrades_ s) (profitableTrades_ s).
Definition set_completedCounters (v : list TradingCounter) (s : t) : t :=
  mk (params_ s) (paramsMutex_ s) (currentStatus_ s) (paperMode_ s) (emergencyStop_ s)
     (equityHighWaterMark_ s) (currentDrawdown_ s) (maxDrawdown_ s) (highWaterMarkTime_ s)
     (dailyStartBalance_ s) (dailyPnL_ s) (dailyRiskUsed_ s) (lastDailyReset_ s)
     (currentCounter_ s) v (counterMutex_ s) (consecutiveLosses_ s) (consecutiveWins_ s)
     (maxConsecutiveLosses_ s) (totalTrades_ s) (profitableTrades_ s).
Definition set_counterMutex (v : bool) (s : t) : t :=
  mk (params_ s) (paramsMutex_ s) (currentStatus_ s) (paperMode_ s) (emergencyStop_ s)
     (equityHighWaterMark_ s) (currentDrawdown_ s) (maxDrawdown_ s) (highWaterMarkTime_ s)
     (dailyStartBalance_ s) (dailyPnL_ s) (dailyRiskUsed_ s) (lastDailyReset_ s)
     (currentCounter_ s) (completedCounters_ s) v (consecutiveLosses_ s)
     (consecutiveWins_ s) (maxConsecutiveLosses_ s) (totalTrades_ s) (profitableTrades_ s).
Definition set_consecutiveLosses (v : Z) (s : t) : t :=
  mk (params_ s) (paramsMutex_ s) (currentStatus_ s) (paperMode_ s) (emergencyStop_ s)
     (equityHighWaterMark_ s) (currentDrawdown_ s) (maxDrawdown_ s) (highWaterMarkTime_ s)
     (dailyStartBalance_ s) (dailyPnL_ s) (dailyRiskUsed_ s) (lastDailyReset_ s)
     (currentCounter_ s) (completedCounters_ s) (counterMutex_ s) v (consecutiveWins_ s)
     (maxConsecutiveLosses_ s) (totalTrades_ s) (profitableTrades_ s).
Definition set_consecutiveWins (v : Z) (s : t) : t :=
  mk (params_ s) (paramsMutex_ s) (currentStatus_ s) (paperMode_ s) (emergencyStop_ s)
     (equityHighWaterMark_ s) (currentDrawdown_ s) (maxDrawdown_ s) (highWaterMarkTime_ s)
     (dailyStartBalance_ s) (dailyPnL_ s) (dailyRiskUsed_ s) (lastDailyReset_ s)
     (currentCounter_ s) (completedCounters_ s) (counterMutex_ s) (consecutiveLosses_ s) v
     (maxConsecutiveLosses_ s) (totalTrades_ s) (profitableTrades_ s).
Definition set_maxConsecutiveLosses (v : Z) (s : t) : t :=
  mk (params_ s) (paramsMutex_ s) (currentStatus_ s) (paperMode_ s) (emergencyStop_ s)
     (equityHighWaterMark_ s) (currentDrawdown_ s) (maxDrawdown_ s) (highWaterMarkTime_ s)
     (dailyStartBalance_ s) (dailyPnL_ s) (dailyRiskUsed_ s) (lastDailyReset_ s)
     (currentCounter_ s) (completedCounters_ s) (counterMutex_ s) (consecutiveLosses_ s)
     (consecutiveWins_ s) v (totalTrades_ s) (profitableTrades_ s).
Definition set_totalTrades (v : Q) (s : t) : t :=
  mk (params_ s) (paramsMutex_ s) (currentStatus_ s) (paperMode_ s) (emergencyStop_ s)
     (equityHighWaterMark_ s) (currentDrawdown_ s) (maxDrawdown_ s) (highWaterMarkTime_ s)
     (dailyStartBalance_ s) (dailyPnL_ s) (dailyRiskUsed_ s) (lastDailyReset_ s)
     (currentCounter_ s) (completedCounters_ s) (counterMutex_ s) (consecutiveLosses_ s)
     (consecutiveWins_ s) (maxConsecutiveLosses_ s) v (profitableTrades_ s).
Definition set_profitableTrades (v : Q) (s : t) : t :=
  mk (params_ s) (paramsMutex_ s) (currentStatus_ s) (paperMode_ s) (emergencyStop_ s)
     (equityHighWaterMark_ s) (currentDrawdown_ s) (maxDrawdown_ s) (highWaterMarkTime_ s)
     (dailyStartBalance_ s) (dailyPnL_ s) (dailyRiskUsed_ s) (lastDailyReset_ s)
     (currentCounter_ s) (completedCounters_ s) (counterMutex_ s) (consecutiveLosses_ s)
     (consecutiveWins_ s) (maxConsecutiveLosses_ s) (totalTrades_ s) v.

(** [std::lock_guard<std::mutex> lock(paramsMutex_);] *)
Definition params_locked {A : Type} (body : M t A) : M t A :=
  lock_guard paramsMutex_ set_paramsMutex body.

(** [std::lock_guard<std::mutex> lock(counterMutex_);] *)
Definition counter_locked {A : Type} (body : M t A) : M t A :=
  lock_guard counterMutex_ set_counterMutex body.

(** [RiskManager::RiskManager()] *)
Definition create : t :=
  mk RiskParameters_default false NORMAL false false 0 0 0 0%Z 0 0 0 0%Z
     TradingCounter_default [] false 0%Z 0%Z 0%Z 0 0.

(** [initialize] *)
Definition initialize (params : RiskParameters) : M t bool :=
  params_locked (
    modify (set_params params) ;;
    modify (set_paperMode (paperTradingMode params)) ;;
    ret true).

(** [updateRiskParameters] *)
Definition updateRiskParameters (params : RiskParameters) : M t unit :=
  params_locked (modify (set_params params)).

(** [getRiskParameters] *)
Definition getRiskParameters : M t RiskParameters := params_locked (gets params_).

(** [calculatePositionSize].  The quotient is the program's where
    [stopDistance * tickValue] is not zero; dividing by zero the program
    returns an infinity or NaN, which [Q] does not have, and the statements
    about the result leave that case out. *)
Definition calculatePositionSize (symbol : Symbol) (signal : TradingSignal)
    (account : AccountInfo) (instrument : InstrumentSpec) : M t Q :=
  params <- gets params_ ;;
  let riskAmount := equity account * dailyRiskPercent params in
  let stopDistance := Qabs (entryPrice signal - stopLoss signal) in
  if Qleb stopDistance 0 then ret 0
  else
    let positionSize := riskAmount / (stopDistance * tickValue instrument) in
    let positionSize := std_max positionSize (minLotSize params) in
    let positionSize := std_min positionSize (equity account * (1 # 10)) in
    ret positionSize.

(** [calculateLotSize]; the quotient as in [calculatePositionSize]. *)
Definition calculateLotSize (symbol : Symbol) (entry stop : Price) (riskAmount : Q)
    (instrument : InstrumentSpec) : M t Volume :=
  params <- gets params_ ;;
  let stopDistance := Qabs (entry - stop) in
  if Qleb stopDistance 0 then ret 0
  else
    let lotSize := riskAmount / (stopDistance * tickValue instrument) in
    ret (std_max lotSize (minLotSize params)).

(** [isWithinDailyRiskLimit] *)
Definition isWithinDailyRiskLimit (order : Order) (account : AccountInfo) : M t bool :=
  s <- get ;;
  let maxDailyRisk := equity account * dailyRiskPercent (params_ s) in
  ret (Qltb (dailyRiskUsed_ s) maxDailyRisk).

(** [isWithinDrawdownLimit] *)
Definition isWithinDrawdownLimit (account : AccountInfo) : M t bool :=
  s <- get ;;
  ret (Qltb (currentDrawdown_ s) (maxDrawdownPercent (params_ s))).

(** [isPositionSizeValid] *)
Definition isPositionSizeValid (order : Order) (instrument : InstrumentSpec) : M t bool :=
  s <- get ;;
  ret (Qgeb (quantity order) (minLotSize (params_ s))).

(** [validateOrder] *)
Definition validateOrder (order : Order) (account : AccountInfo)
    (positions : list Position) : M t bool :=
  stopped <- gets emergencyStop_ ;;
  if stopped then ret false
  else
    withinDaily <- isWithinDailyRiskLimit order account ;;
    if negb withinDaily then ret false
    else
      withinDrawdown <- isWithinDrawdownLimit account ;;
      if negb withinDrawdown then ret false
      else ret true.

(** [getCurrentRiskStatus] *)
Definition getCurrentRiskStatus : M t RiskStatus := gets currentStatus_.

(** [calculateDrawdown]; [now] stamps a new high-water mark. *)
Definition calculateDrawdown (currentEquity : Q) (now : TimePoint) : M t unit :=
  hwm <- gets equityHighWaterMark_ ;;
  (if Qgtb currentEquity hwm then
     modify (set_equityHighWaterMark currentEquity) ;;
     modify (set_highWaterMarkTime now)
   else ret tt) ;;
  hwm <- gets equityHighWaterMark_ ;;
  if Qgtb hwm 0 then
    modify (set_currentDrawdown ((hwm - currentEquity) / hwm)) ;;
    modify (fun s => set_maxDrawdown (std_max (maxDrawdown_ s) (currentDrawdown_ s)) s)
  else ret tt.

(** [updateRiskStatus] *)
Definition updateRiskStatus (account : AccountInfo) (positions : list Position)
    (now : TimePoint) : M t unit :=
  calculateDrawdown (equity account) now ;;
  s <- get ;;
  if emergencyStop_ s then modify (set_currentStatus LIMIT_REACHED)
  else if paperMode_ s then modify (set_currentStatus PAPER_MODE)
  else if Qgtb (currentDrawdown_ s) (maxDrawdownPercent (params_ s) * (8 # 10)) then
    modify (set_currentStatus WARNING)
  else modify (set_currentStatus NORMAL).

(** [shouldSwitchToPaperMode] *)
Definition shouldSwitchToPaperMode : M t bool :=
  gets (fun s => (consecutiveLossLimit (params_ s) <=? consecutiveLosses_ s)%Z).

(** [shouldSwitchToLiveMode] *)
Definition shouldSwitchToLiveMode : M t bool :=
  gets (fun s => (paperMode_ s && (3 <=? consecutiveWins_ s)%Z)%bool).

(** [switchToPaperMode] *)
Definition switchToPaperMode : M t unit :=
  modify (set_paperMode true) ;;
  modify (set_currentStatus PAPER_MODE).

(** [switchToLiveMode] *)
Definition switchToLiveMode : M t unit := modify (set_paperMode false).

(** [isPaperMode] *)
Definition isPaperMode : M t bool := gets paperMode_.

(** [recordTrade] *)
Definition recordTrade (order : Order) (profitable : bool) : M t unit :=
  modify (fun s => set_totalTrades (totalTrades_ s + 1) s) ;;
  if profitable then
    modify (fun s => set_consecutiveWins (int_incr (consecutiveWins_ s)) s) ;;
    modify (set_consecutiveLosses 0%Z) ;;
    modify (fun s => set_profitableTrades (profitableTrades_ s + 1) s)
  else
    modify (fun s => set_consecutiveLosses (int_incr (consecutiveLosses_ s)) s) ;;
    modify (set_consecutiveWins 0%Z) ;;
    modify (fun s => set_maxConsecutiveLosses
                       (std_max_int (maxConsecutiveLosses_ s) (consecutiveLosses_ s)) s) ;;
    should <- shouldSwitchToPaperMode ;;
    paper <- gets paperMode_ ;;
    if (should && negb paper)%bool then switchToPaperMode else ret tt.

(** [getConsecutiveLosses] *)
Definition getConsecutiveLosses : M t Z := gets consecutiveLosses_.

(** [getConsecutiveWins] *)
Definition getConsecutiveWins : M t Z := gets consecutiveWins_.

(** [resetConsecutiveCount] *)
Definition resetConsecutiveCount : M t unit :=
  modify (set_consecutiveLosses 0%Z) ;;
  modify (set_consecutiveWins 0%Z).

(** [performDailyReset] *)
Definition performDailyReset (now : TimePoint) : M t unit :=
  modify (set_dailyPnL 0) ;;
  modify (set_dailyRiskUsed 0) ;;
  modify (set_lastDailyReset now).

(** [resetDailyCounters] *)
Definition resetDailyCounters (now : TimePoint) : M t unit := performDailyReset now.

(** [enableEmergencyStop] *)
Definition enableEmergencyStop : M t unit :=
  modify (set_emergencyStop true) ;;
  modify (set_currentStatus LIMIT_REACHED).

(** [disableEmergencyStop] *)
Definition disableEmergencyStop : M t unit := modify (set_emergencyStop false).

(** [isEmergencyStopActive] *)
Definition isEmergencyStopActive : M t bool := gets emergencyStop_.

(** [closeAllPositions] only prints. *)
Definition closeAllPositions : M t unit := ret tt.

(** [startNewCounter]; the counter number is the [size_t] sum converted to
    [int]. *)
Definition startNewCounter (now : TimePoint) : M t unit :=
  counter_locked (
    cur <- gets currentCounter_ ;;
    if (isComplete cur || (ordersCount cur =? 0)%Z)%bool then
      modify (set_currentCounter TradingCounter_default) ;;
      modify (fun s => set_currentCounter
                         (set_counterNumber
                            (wrap_int (Z.of_nat (List.length (completedCounters_ s)) + 1))
                            (currentCounter_ s)) s) ;;
      modify (fun s => set_currentCounter (set_startTime now (currentCounter_ s)) s)
    else ret tt).

(** [completeCounter] *)
Definition completeCounter (now : TimePoint) : M t unit :=
  counter_locked (
    modify (fun s => set_currentCounter (set_isComplete true (currentCounter_ s)) s) ;;
    modify (fun s => set_currentCounter (set_endTime now (currentCounter_ s)) s) ;;
    modify (fun s => set_completedCounters (completedCounters_ s ++ [currentCounter_ s]) s)).

(** [addOrderToCounter]: holds [counterMutex_] while it calls the public
    [completeCounter], which takes the same mutex. *)
Definition addOrderToCounter (order : Order) (now : TimePoint) : M t unit :=
  counter_locked (
    modify (fun s => set_currentCounter
                       (set_orders (orders (currentCounter_ s) ++ [order])
                          (currentCounter_ s)) s) ;;
    modify (fun s => set_currentCounter
                       (set_ordersCount (int_incr (ordersCount (currentCounter_ s)))
                          (currentCounter_ s)) s) ;;
    s <- get ;;
    if (ordersPerCounter (params_ s) <=? ordersCount (currentCounter_ s))%Z then
      completeCounter now
    else ret tt).

(** [isCounterComplete] *)
Definition isCounterComplete : M t bool :=
  counter_locked (gets (fun s => isComplete (currentCounter_ s))).

(** [getCurrentCounterSize] *)
Definition getCurrentCounterSize : M t Z := gets (fun s => ordersPerCounter (params_ s)).

(** [getOrdersInCurrentCounter] *)
Definition getOrdersInCurrentCounter : M t Z :=
  counter_locked (gets (fun s => ordersCount (currentCounter_ s))).

(** [getCounterPnL] *)
Definition getCounterPnL : M t Q :=
  counter_locked (gets (fun s => totalPnL (currentCounter_ s))).

(** [getCapitalAfterCounter] *)
Definition getCapitalAfterCounter (initial : Q) : M t Q :=
  pnl <- getCounterPnL ;;
  charges <- gets (fun s => totalCharges (currentCounter_ s)) ;;
  ret (initial + pnl - charges).

(** The state-changing public methods, as the calls a client can make. *)
Inductive Call : Type :=
| CallInitialize (params : RiskParameters)
| CallUpdateRiskParameters (params : RiskParameters)
| CallUpdateRiskStatus (account : AccountInfo) (positions : list Position) (now : TimePoint)
| CallSwitchToPaperMode
| CallSwitchToLiveMode
| CallRecordTrade (order : Order) (profitable : bool)
| CallResetConsecutiveCount
| CallPerformDailyReset (now : TimePoint)
| CallEnableEmergencyStop
| CallDisableEmergencyStop
| CallCloseAllPositions
| CallStartNewCounter (now : TimePoint)
| CallAddOrderToCounter (order : Order) (now : TimePoint)
| CallCompleteCounter (now : TimePoint).

Definition perform (c : Call) : M t unit :=
  match c with
  | CallInitialize params => initialize params ;; ret tt
  | CallUpdateRiskParameters params => updateRiskParameters params
  | CallUpdateRiskStatus account positions now => updateRiskStatus account positions now
  | CallSwitchToPaperMode => switchToPaperMode
  | CallSwitchToLiveMode => switchToLiveMode
  | CallRecordTrade order profitable => recordTrade order profitable
  | CallResetConsecutiveCount => resetConsecutiveCount
  | CallPerformDailyReset now => performDailyReset now
  | CallEnableEmergencyStop => enableEmergencyStop
  | CallDisableEmergencyStop => disableEmergencyStop
  | CallCloseAllPositions => closeAllPositions
  | CallStartNewCounter now => startNewCounter now
  | CallAddOrderToCounter order now => addOrderToCounter order now
  | CallCompleteCounter now => completeCounter now
  end.

Definition is_disable (c : Call) : bool :=
  match c with
  | CallDisableEmergencyStop => true
  | _ => false
  end.

Definition perform_all (cs : list Call) : M t unit := seq_ (map perform cs).

End RiskManager.

(** * Properties *)

(** ** Vocabulary of the properties *)

Module Props.

(** The level the next brick is measured from: the close of the last
    finalized brick, or the open of the seeded partial brick while the
    series is empty. *)
Definition reference (c : RenkoChart.t) : Price :=
  match RenkoChart.bricks_ c with
  | [] => open (RenkoChart.currentBrick_ c)
  | _ :: _ => close (RenkoChart.back (RenkoChart.bricks_ c))
  end.

(** Each brick opens where the one before it closed. *)
Fixpoint contiguous (l : list RenkoBrick) : Prop :=
  match l with
  | [] => True
  | x :: rest =>
      match rest with
      | [] => True
      | y :: _ => open y = close x /\ contiguous rest
      end
  end.

(** A chart between two calls: the mutex is free. *)
Definition idle (c : RenkoChart.t) : Prop := RenkoChart.dataMutex_ c = false.

(** The partial brick [finalizeBrick] leaves behind a brick closed at [p]. *)
Definition fresh_partial (p : Price) (ts : TimePoint) : RenkoBrick :=
  mkRenkoBrick p p 0 0 ts true 0.

(** The direction sequence of a series, oldest first. *)
Definition directions (l : list RenkoBrick) : list bool := map isUp l.


(** The state an idle chart is left in by [addPrice price ts]. *)
Definition addPrice_effect (price : Price) (ts : TimePoint) (c : RenkoChart.t)
    : RenkoChart.t :=
  if Qleb price 0 then c
  else
    let c := RenkoChart.set_lastUpdate ts (RenkoChart.set_lastPrice price c) in
    if RenkoChart.currentBrickInitialized_ c then
      let c := RenkoChart.set_highestPrice (std_max (RenkoChart.highestPrice_ c) price) c in
      let c := RenkoChart.set_lowestPrice (std_min (RenkoChart.lowestPrice_ c) price) c in
      RenkoChart.updateCurrentBrick price ts c
    else RenkoChart.initializeCurrentBrick price ts c.

(** The five ways one tick can change a chart. *)
Inductive tick_outcome (price : Price) (ts : TimePoint) (c c' : RenkoChart.t) : Prop :=
| tick_dropped :
    price <= 0 -> c' = c -> tick_outcome price ts c c'
| tick_seeded :
    0 < price ->
    RenkoChart.currentBrickInitialized_ c = false ->
    RenkoChart.currentBrickInitialized_ c' = true ->
    RenkoChart.bricks_ c' = RenkoChart.bricks_ c ->
    RenkoChart.currentBrick_ c' = mkRenkoBrick price price price price ts true 0 ->
    tick_outcome price ts c c'
| tick_up :
    0 < price ->
    RenkoChart.currentBrickInitialized_ c = true ->
    RenkoChart.currentBrickInitialized_ c' = true ->
    reference c + RenkoChart.brickSize_ c <= price ->
    RenkoChart.bricks_ c' =
      RenkoChart.pop_front_while_over (RenkoChart.maxBricks_ c)
        (RenkoChart.bricks_ c ++
         [RenkoBrick_make (reference c) (reference c + RenkoChart.brickSize_ c) ts true]) ->
    RenkoChart.currentBrick_ c' = fresh_partial (reference c + RenkoChart.brickSize_ c) ts ->
    tick_outcome price ts c c'
| tick_down :
    0 < price ->
    RenkoChart.currentBrickInitialized_ c = true ->
    RenkoChart.currentBrickInitialized_ c' = true ->
    price < reference c + RenkoChart.brickSize_ c ->
    price <= reference c - RenkoChart.brickSize_ c ->
    RenkoChart.bricks_ c' =
      RenkoChart.pop_front_while_over (RenkoChart.maxBricks_ c)
        (RenkoChart.bricks_ c ++
         [RenkoBrick_make (reference c) (reference c - RenkoChart.brickSize_ c) ts false]) ->
    RenkoChart.currentBrick_ c' = fresh_partial (reference c - RenkoChart.brickSize_ c) ts ->
    tick_outcome price ts c c'
| tick_partial :
    0 < price ->
    RenkoChart.currentBrickInitialized_ c = true ->
    RenkoChart.currentBrickInitialized_ c' = true ->
    price < reference c + RenkoChart.brickSize_ c ->
    reference c - RenkoChart.brickSize_ c < price ->
    RenkoChart.bricks_ c' = RenkoChart.bricks_ c ->
    open (RenkoChart.currentBrick_ c') = open (RenkoChart.currentBrick_ c) ->
    (RenkoChart.bricks_ c <> [] ->
     isUp (RenkoChart.currentBrick_ c') = false /\
     completionPercent (RenkoChart.currentBrick_ c') =
       std_max 0 (std_min 1 (Qabs (reference c - price) / RenkoChart.brickSize_ c))) ->
    (RenkoChart.bricks_ c = [] ->
     isUp (RenkoChart.currentBrick_ c') = Qgtb (price - reference c) (reference c - price) /\
     completionPercent (RenkoChart.currentBrick_ c') =
       (if Qgtb (price - reference c) (reference c - price)
        then (price - reference c) / RenkoChart.brickSize_ c
        else (reference c - price) / RenkoChart.brickSize_ c)) ->
    tick_outcome price ts c c'.

(** The test [detectSetup1Pattern] applies before it builds a Setup-1
    result: at least three of the last five bricks present, the bricks at
    [size-3] and [size-2] down, the partial brick up at or above the
    threshold. *)
Definition setup1_code_test (threshold : Q) (c : RenkoChart.t) : bool :=
  let all := RenkoChart.bricks_ c in
  let recent :=
    if (List.length all <=? 5)%nat then all else skipn (List.length all - 5) all in
  let size := List.length recent in
  ((3 <=? size)%nat
   && (negb (isUp (PatternDetector.at_ recent (size - 3)))
       && negb (isUp (PatternDetector.at_ recent (size - 2))))
   && (isUp (RenkoChart.currentBrick_ c)
       && Qgeb (completionPercent (RenkoChart.currentBrick_ c)) threshold))%bool.

(** [recordTrade(order, false)] once for every order of the list. *)
Definition record_losses (orders : list Order) : M RiskManager.t unit :=
  seq_ (map (fun o => RiskManager.recordTrade o false) orders).

(** [addOrderToCounter] once for every order of the list. *)
Definition add_orders (orders : list Order) (now : TimePoint) : M RiskManager.t unit :=
  seq_ (map (fun o => RiskManager.addOrderToCounter o now) orders).

End Props.

Import Props.

(** ** Concrete charts, orders and accounts used by the examples *)

Module Scenario.

(** A fresh EURUSD chart with one-pip bricks and the default capacity. *)
Definition eurusd : RenkoChart.t := RenkoChart.create "EURUSD"%string 0.001 1000.

(** A chart whose series is up, down, down and whose partial brick is up at
    80 percent. *)
Definition up_down_down : RenkoChart.t :=
  RenkoChart.mk "EURUSD"%string 0.001 0.0001 1000
    [ RenkoBrick_make 1.1000 1.1010 1%Z true;
      RenkoBrick_make 1.1010 1.1000 2%Z false;
      RenkoBrick_make 1.1000 1.0990 3%Z false ]
    (mkRenkoBrick 1.0990 1.0990 0 0 3%Z true 0.8)
    true 1.0998 1.0998 1.0990 4%Z false.

Definition sample_order : Order :=
  mkOrder "TEST-0"%string "EURUSD"%string BUY 1.1000 0.01 1.0990 1.1020.

Definition sample_account : AccountInfo := mkAccountInfo 10000 10000 0 10000.

(** An account holding five hundredths of a unit of equity. *)
Definition small_account : AccountInfo := mkAccountInfo 0.05 0.05 0 0.05.

(** A buy signal entered at 1.1 with its stop one tenth below. *)
Definition sample_signal : TradingSignal :=
  mkTradingSignal "EURUSD"%string SETUP_1_CONSECUTIVE BUY 1.1 1.0 1.3 0.01 0%Z 0.8.

End Scenario.

(** ** Vocabulary of the further properties *)

Module More.

(** The ticks [addPrice] does not drop. *)
Definition positive_ticks (ticks : list (Price * TimePoint)) : list (Price * TimePoint) :=
  filter (fun pt => Qgtb (fst pt) 0) ticks.

(** The shape [RenkoBrick(o, c, ts, up)] gives a finalized brick of size
    [b]. *)
Definition formed (b : Q) (x : RenkoBrick) : Prop :=
  completionPercent x = 1 /\
  high x = std_max (open x) (close x) /\
  low x = std_min (open x) (close x) /\
  close x = (if isUp x then open x + b else open x - b).

(** Two charts that agree on everything the brick formation reads and
    writes, apart from the price trackers and the tick value. *)
Definition same_series (c1 c2 : RenkoChart.t) : Prop :=
  RenkoChart.brickSize_ c1 = RenkoChart.brickSize_ c2 /\
  RenkoChart.maxBricks_ c1 = RenkoChart.maxBricks_ c2 /\
  RenkoChart.bricks_ c1 = RenkoChart.bricks_ c2 /\
  RenkoChart.currentBrick_ c1 = RenkoChart.currentBrick_ c2 /\
  RenkoChart.currentBrickInitialized_ c1 = RenkoChart.currentBrickInitialized_ c2 /\
  RenkoChart.dataMutex_ c1 = RenkoChart.dataMutex_ c2.

(** The test [detectSetup2Pattern] applies before it builds a Setup-2
    result. *)
Definition setup2_code_test (threshold : Q) (c : RenkoChart.t) : bool :=
  let all := RenkoChart.bricks_ c in
  let recent :=
    if (List.length all <=? 5)%nat then all else skipn (List.length all - 5) all in
  let size := List.length recent in
  ((3 <=? size)%nat
   && (isUp (PatternDetector.at_ recent (size - 3))
       && negb (isUp (PatternDetector.at_ recent (size - 2)))
       && isUp (PatternDetector.at_ recent (size - 1)))
   && Qgeb (completionPercent (RenkoChart.currentBrick_ c)) threshold)%bool.

(** The ticks of the repository's Setup-2 test: green, red, green, then 80
    percent of a brick. *)
Definition green_red_green_ticks : list (Price * TimePoint) :=
  [(1.1000, 1%Z); (1.1010, 2%Z); (1.1000, 3%Z); (1.1010, 4%Z); (1.1018, 5%Z)].

(** [recordTrade(order, outcome)] for every outcome of the list, [true] being
    a profitable trade. *)
Definition record_trades (order : Order) (outcomes : list bool) : M RiskManager.t unit :=
  seq_ (map (fun won => RiskManager.recordTrade order won) outcomes).

(** The number of losses an outcome list starts with, and the number it ends
    with. *)
Fixpoint leading_losses (outcomes : list bool) : nat :=
  match outcomes with
  | false :: rest => S (leading_losses rest)
  | _ => O
  end.

Definition trailing_losses (outcomes : list bool) : nat := leading_losses (rev outcomes).

(** A manager in which no order has been added to the current counter
    beyond what its [orders] list holds, and whose figures nothing has
    written yet. *)
Definition untouched_figures (s : RiskManager.t) : Prop :=
  RiskManager.dailyRiskUsed_ s = 0 /\
  RiskManager.dailyPnL_ s = 0 /\
  RiskManager.totalPnL (RiskManager.currentCounter_ s) = 0 /\
  RiskManager.totalCharges (RiskManager.currentCounter_ s) = 0.

(** The drawdown figures are consistent: the high-water mark and the current
    drawdown are not negative and the maximum drawdown is not below the
    current one. *)
Definition drawdown_consistent (s : RiskManager.t) : Prop :=
  0 <= RiskManager.equityHighWaterMark_ s /\
  0 <= RiskManager.currentDrawdown_ s /\
  RiskManager.currentDrawdown_ s <= RiskManager.maxDrawdown_ s.

(** The requests [log] keeps at level [min]. *)
Definition kept (min : Logger.LogLevel) (rs : list Logger.Request) : list Logger.LogEntry :=
  map (fun r => match r with
                | (l, msg, cat, stamp) => Logger.mkLogEntry l cat msg stamp
                end)
    (filter (fun r => match r with
                      | (l, _, _, _) =>
                          negb (Logger.level_value l <? Logger.level_value min)%Z
                      end) rs).

(** The last [n] elements of a list. *)
Definition last_n {A : Type} (n : nat) (l : list A) : list A :=
  skipn (List.length l - n) l.

(** One call of [updatePatternStats]: the pattern, its outcome, the clock. *)
Definition StatUpdate : Type := (PatternResult * bool * TimePoint)%type.

Definition apply_updates (us : list StatUpdate) : M PatternStatistics.t unit :=
  seq_ (map (fun u => match u with
                      | (p, ok, now) => PatternStatistics.updatePatternStats p ok now
                      end) us).

(** How many of the updates concern pattern type [ty], and how many of those
    were successful. *)
Definition updates_of (ty : PatternType) (us : list StatUpdate) : nat :=
  List.length (filter (fun u => match u with
                                | (p, _, _) => PatternType_eqb (type p) ty
                                end) us).

Definition successes_of (ty : PatternType) (us : list StatUpdate) : nat :=
  List.length (filter (fun u => match u with
                                | (p, ok, _) => (PatternType_eqb (type p) ty && ok)%bool
                                end) us).

(** A brick that closes on the side of its open its direction names. *)
Definition directed (x : RenkoBrick) : Prop :=
  if isUp x then open x <= close x else close x <= open x.

(** One call of a public method of [RenkoChart] that writes to the chart. *)
Inductive ChartCall : Type :=
| CallAddPrice (price : Price) (ts : TimePoint)
| CallAddTick (tick : Tick)
| CallSetBrickSize (brickSize : Q)
| CallSetMaxBricks (maxBricks : nat)
| CallSetTickValue (tickValue : Q)
| CallClearOldBricks (keepCount : nat)
| CallReset.

Definition perform_chart (call : ChartCall) : M RenkoChart.t unit :=
  match call with
  | CallAddPrice price ts => RenkoChart.addPrice price ts
  | CallAddTick tick => RenkoChart.addTick tick
  | CallSetBrickSize brickSize => RenkoChart.setBrickSize brickSize
  | CallSetMaxBricks maxBricks => RenkoChart.setMaxBricks maxBricks
  | CallSetTickValue tickValue => RenkoChart.setTickValue tickValue
  | CallClearOldBricks keepCount => RenkoChart.clearOldBricks keepCount
  | CallReset => RenkoChart.reset
  end.


Definition perform_chart_all (calls : list ChartCall) : M RenkoChart.t unit :=
  seq_ (map perform_chart calls).

End More.

Import More.

(** ** Comparisons, clamps and wrap-around *)

Lemma Qleb_true (x y : Q) : Qleb x y = true <-> x <= y.
Proof. unfold Qleb. apply Qle_bool_iff. Qed.

Lemma Qleb_false (x y : Q) : Qleb x y = false <-> y < x.
Proof.
  unfold Qleb. split; intro H.
  - apply Qnot_le_lt. intro Hle. apply Qle_bool_iff in Hle. congruence.
  - destruct (Qle_bool x y) eqn:E; [|reflexivity].
    apply Qle_bool_iff in E. exfalso. apply (Qlt_not_le _ _ H E).
Qed.

Lemma Qgeb_true (x y : Q) : Qgeb x y = true <-> y <= x.
Proof. apply Qleb_true. Qed.

Lemma Qgeb_false (x y : Q) : Qgeb x y = false <-> x < y.
Proof. apply Qleb_false. Qed.

Lemma Qltb_true (x y : Q) : Qltb x y = true <-> x < y.
Proof.
  unfold Qltb. rewrite negb_true_iff. apply (Qleb_false y x).
Qed.

Lemma Qltb_false (x y : Q) : Qltb x y = false <-> y <= x.
Proof.
  unfold Qltb. rewrite negb_false_iff. apply (Qleb_true y x).
Qed.

Lemma Qgtb_true (x y : Q) : Qgtb x y = true <-> y < x.
Proof. apply (Qltb_true y x). Qed.

Lemma Qgtb_false (x y : Q) : Qgtb x y = false <-> x <= y.
Proof. apply (Qltb_false y x). Qed.

Lemma std_max_spec (a b : Q) : a <= std_max a b /\ b <= std_max a b.
Proof.
  unfold std_max. destruct (Qltb a b) eqn:E.
  - apply Qltb_true in E. split; lra.
  - apply Qltb_false in E. split; lra.
Qed.

Lemma std_min_spec (a b : Q) : std_min a b <= a /\ std_min a b <= b.
Proof.
  unfold std_min. destruct (Qltb b a) eqn:E.
  - apply Qltb_true in E. split; lra.
  - apply Qltb_false in E. split; lra.
Qed.

Lemma std_min_glb (a b m : Q) : m <= a -> m <= b -> m <= std_min a b.
Proof. unfold std_min. destruct (Qltb b a); auto. Qed.

Lemma clamp_unit_interval (x : Q) :
  0 <= std_max 0 (std_min 1 x) /\ std_max 0 (std_min 1 x) <= 1.
Proof.
  split; [apply std_max_spec|].
  unfold std_max. destruct (Qltb 0 (std_min 1 x)) eqn:E.
  - apply std_min_spec.
  - lra.
Qed.

Lemma wrap_int_id (z : Z) : int_range z -> wrap_int z = z.
Proof.
  unfold int_range, INT_MIN, INT_MAX, wrap_int. intros H.
  rewrite Z.mod_small; lia.
Qed.

(** The two distances compared by the partial-brick update after the first
    brick have the same magnitude. *)
Lemma Qabs_distances_equal (price lastClose : Q) :
  Qgtb (Qabs (price - lastClose)) (Qabs (lastClose - price)) = false.
Proof.
  apply Qgtb_false. rewrite (Qabs_Qminus price lastClose). apply Qle_refl.
Qed.

(** ** The brick series *)

Lemma pop_front_is_suffix (m : nat) (l : list RenkoBrick) :
  exists dropped, l = dropped ++ RenkoChart.pop_front_while_over m l.
Proof.
  induction l as [|x l IH].
  - exists []. reflexivity.
  - cbn [RenkoChart.pop_front_while_over].
    destruct (m <? List.length (x :: l))%nat.
    + destruct IH as [d Hd]. exists (x :: d). cbn. now rewrite <- Hd.
    + exists []. reflexivity.
Qed.

Lemma pop_front_length (m : nat) (l : list RenkoBrick) :
  (List.length (RenkoChart.pop_front_while_over m l) <= List.length l)%nat.
Proof.
  destruct (pop_front_is_suffix m l) as [d Hd].
  rewrite Hd at 2. rewrite length_app. lia.
Qed.

Lemma pop_front_fits (m : nat) (l : list RenkoBrick) :
  (List.length l <= m)%nat -> RenkoChart.pop_front_while_over m l = l.
Proof.
  intros H. destruct l as [|x l]; [reflexivity|].
  cbn [RenkoChart.pop_front_while_over].
  destruct (Nat.ltb_spec m (List.length (x :: l))); [lia | reflexivity].
Qed.

Lemma contiguous_suffix (d l : list RenkoBrick) : contiguous (d ++ l) -> contiguous l.
Proof.
  induction d as [|x d IH]; [auto|].
  intros H. apply IH. cbn in H.
  destruct (d ++ l) eqn:E; [exact I | apply H].
Qed.

Lemma contiguous_snoc (l : list RenkoBrick) (x : RenkoBrick) :
  contiguous l ->
  (l <> [] -> open x = close (RenkoChart.back l)) ->
  contiguous (l ++ [x]).
Proof.
  induction l as [|a l IH]; intros Hc Hx; [exact I|].
  destruct l as [|b l].
  - cbn. split; [|exact I]. apply Hx. discriminate.
  - cbn in Hc. destruct Hc as [Hab Hc].
    change ((a :: b :: l) ++ [x]) with (a :: ((b :: l) ++ [x])).
    cbn [contiguous]. cbn [app]. split; [exact Hab|].
    apply (IH Hc). intros _. apply Hx. discriminate.
Qed.

Lemma contiguous_nth (l : list RenkoBrick) (i : nat) :
  contiguous l -> (S i < List.length l)%nat ->
  open (nth (S i) l RenkoBrick_default) = close (nth i l RenkoBrick_default).
Proof.
  revert i. induction l as [|a l IH]; intros i Hc Hi; [cbn in Hi; lia|].
  destruct l as [|b l]; [cbn in Hi; lia|].
  destruct Hc as [Hab Hc]. destruct i as [|i].
  - exact Hab.
  - change (nth (S (S i)) (a :: b :: l) RenkoBrick_default)
      with (nth (S i) (b :: l) RenkoBrick_default).
    change (nth (S i) (a :: b :: l) RenkoBrick_default)
      with (nth i (b :: l) RenkoBrick_default).
    apply IH; [exact Hc | cbn in Hi |- *; lia].
Qed.

Lemma Forall_suffix (P : RenkoBrick -> Prop) (d l : list RenkoBrick) :
  Forall P (d ++ l) -> Forall P l.
Proof. intros H. apply Forall_app in H. apply H. Qed.

(** ** One price tick *)

Ltac split_ifs :=
  repeat match goal with
         | |- context [if ?b then _ else _] => destruct b
         end.

Ltac chart_cbn :=
  cbn -[Qabs RenkoChart.back Qplus Qminus Qdiv Qmult Qopp std_max std_min
        Qleb Qgeb Qgtb RenkoChart.pop_front_while_over].

Lemma addPrice_idle (price : Price) (ts : TimePoint) (c : RenkoChart.t) :
  idle c -> RenkoChart.addPrice price ts c = Some (tt, addPrice_effect price ts c).
Proof.
  unfold idle. destruct c as [sym b tv mx bs cur init lp hp lo lu mtx].
  cbn [RenkoChart.dataMutex_]. intros ->.
  unfold RenkoChart.addPrice, addPrice_effect, RenkoChart.locked, lock_guard,
    bind, ret, modify, gets, RenkoChart.updateCurrentBrick.
  chart_cbn.
  destruct (Qleb price 0); [reflexivity|].
  destruct init; [|reflexivity].
  chart_cbn.
  destruct bs as [|b0 bs']; split_ifs; reflexivity.
Qed.

Lemma addPrice_effect_frame (price : Price) (ts : TimePoint) (c : RenkoChart.t) :
  RenkoChart.dataMutex_ (addPrice_effect price ts c) = RenkoChart.dataMutex_ c /\
  RenkoChart.brickSize_ (addPrice_effect price ts c) = RenkoChart.brickSize_ c /\
  RenkoChart.maxBricks_ (addPrice_effect price ts c) = RenkoChart.maxBricks_ c /\
  RenkoChart.tickValue_ (addPrice_effect price ts c) = RenkoChart.tickValue_ c /\
  RenkoChart.symbol_ (addPrice_effect price ts c) = RenkoChart.symbol_ c.
Proof.
  unfold addPrice_effect, RenkoChart.updateCurrentBrick. chart_cbn.
  destruct (Qleb price 0); [repeat split|].
  destruct (RenkoChart.currentBrickInitialized_ c); [|repeat split].
  destruct (RenkoChart.bricks_ c); split_ifs; repeat split.
Qed.

Lemma addPrice_effect_outcome (price : Price) (ts : TimePoint) (c : RenkoChart.t) :
  tick_outcome price ts c (addPrice_effect price ts c).
Proof.
  unfold addPrice_effect.
  destruct (Qleb price 0) eqn:Hdrop.
  { apply tick_dropped; [now apply Qleb_true | reflexivity]. }
  apply Qleb_false in Hdrop. chart_cbn.
  destruct (RenkoChart.currentBrickInitialized_ c) eqn:Hinit.
  2:{ apply tick_seeded; auto. }
  unfold RenkoChart.updateCurrentBrick. chart_cbn.
  assert (Href : reference c =
                 match RenkoChart.bricks_ c with
                 | [] => open (RenkoChart.currentBrick_ c)
                 | _ :: _ => close (RenkoChart.back (RenkoChart.bricks_ c))
                 end) by reflexivity.
  destruct (RenkoChart.bricks_ c) as [|b0 bs'] eqn:Hbs; rewrite <- Href.
  - destruct (Qgeb price (reference c + RenkoChart.brickSize_ c)) eqn:Hup.
    { apply Qgeb_true in Hup. apply tick_up; auto; try (chart_cbn; now rewrite Hbs). }
    apply Qgeb_false in Hup.
    destruct (Qleb price (reference c - RenkoChart.brickSize_ c)) eqn:Hdown.
    { apply Qleb_true in Hdown. apply tick_down; auto; try (chart_cbn; now rewrite Hbs). }
    apply Qleb_false in Hdown.
    apply tick_partial; auto;
      try (destruct (Qgtb (price - reference c) (reference c - price));
           chart_cbn; auto; fail).
    intros Hne. congruence.
  - destruct (Qgeb price (reference c + RenkoChart.brickSize_ c)) eqn:Hup.
    { apply Qgeb_true in Hup. apply tick_up; auto; try (chart_cbn; now rewrite Hbs). }
    apply Qgeb_false in Hup.
    destruct (Qleb price (reference c - RenkoChart.brickSize_ c)) eqn:Hdown.
    { apply Qleb_true in Hdown. apply tick_down; auto; try (chart_cbn; now rewrite Hbs). }
    apply Qleb_false in Hdown.
    rewrite Qabs_distances_equal.
    apply tick_partial; auto; intros Hcase;
      first [congruence | chart_cbn; split; reflexivity].
Qed.

(** A tick on an idle chart returns and leaves the chart idle. *)
Lemma addPrice_step (price : Price) (ts : TimePoint) (c : RenkoChart.t) :
  idle c ->
  exists c',
    RenkoChart.addPrice price ts c = Some (tt, c') /\
    idle c' /\
    RenkoChart.brickSize_ c' = RenkoChart.brickSize_ c /\
    RenkoChart.maxBricks_ c' = RenkoChart.maxBricks_ c /\
    tick_outcome price ts c c'.
Proof.
  intros Hidle. exists (addPrice_effect price ts c).
  destruct (addPrice_effect_frame price ts c) as (Hm & Hb & Hx & _).
  split; [now apply addPrice_idle|].
  unfold idle in *. rewrite Hm. repeat split; auto.
  apply addPrice_effect_outcome.
Qed.

(** One call finalizes at most one brick, however far the price jumped. *)
Lemma addPrice_at_most_one_brick (price : Price) (ts : TimePoint) (c : RenkoChart.t) :
  idle c ->
  exists c',
    RenkoChart.addPrice price ts c = Some (tt, c') /\
    (List.length (RenkoChart.bricks_ c') <= S (List.length (RenkoChart.bricks_ c)))%nat.
Proof.
  intros Hidle. destruct (addPrice_step price ts c Hidle) as (c' & Hrun & _ & _ & _ & Hout).
  exists c'. split; [exact Hrun|].
  destruct Hout as [_ ->|_ _ _ -> _|_ _ _ _ -> _|_ _ _ _ _ -> _|_ _ _ _ _ -> _ _ _];
    try lia;
    (eapply Nat.le_trans; [apply pop_front_length|]; rewrite length_app; cbn; lia).
Qed.

(** Feeding any tick list to an idle chart returns, provided every state on
    the way satisfies an invariant kept by [addPrice]. *)
Lemma feed_invariant (Inv : RenkoChart.t -> Prop) :
  (forall price ts c c',
      Inv c -> idle c -> RenkoChart.addPrice price ts c = Some (tt, c') -> Inv c') ->
  forall ticks c,
    Inv c -> idle c ->
    exists c', RenkoChart.feed ticks c = Some (tt, c') /\ Inv c' /\ idle c'.
Proof.
  intros Hkeep ticks. induction ticks as [|[price ts] ticks IH]; intros c HI Hidle.
  - exists c. repeat split; auto.
  - destruct (addPrice_step price ts c Hidle) as (c1 & Hrun & Hidle1 & _).
    destruct (IH c1 (Hkeep _ _ _ _ HI Hidle Hrun) Hidle1) as (c' & Hfeed & HI' & Hidle').
    exists c'. repeat split; auto.
    unfold RenkoChart.feed in *. cbn [map seq_ fst snd]. unfold bind at 1.
    now rewrite Hrun.
Qed.

(** ** The series is a chain of bricks *)

Lemma chain_kept_by_push (P : RenkoBrick -> Prop) (m : nat) (l : list RenkoBrick)
    (x : RenkoBrick) :
  Forall P l -> contiguous l ->
  P x -> (l <> [] -> open x = close (RenkoChart.back l)) ->
  Forall P (RenkoChart.pop_front_while_over m (l ++ [x])) /\
  contiguous (RenkoChart.pop_front_while_over m (l ++ [x])).
Proof.
  intros Hall Hc Hx Hopen.
  destruct (pop_front_is_suffix m (l ++ [x])) as [d Hd].
  split.
  - apply (Forall_suffix _ d). rewrite <- Hd. apply Forall_app. auto.
  - apply (contiguous_suffix d). rewrite <- Hd. now apply contiguous_snoc.
Qed.

(** A tick keeps the series contiguous, and keeps every property of its
    bricks that the two bricks a tick can finalize have. *)
Lemma chain_kept_by_tick (P : RenkoBrick -> Prop) (price : Price) (ts : TimePoint)
    (c c' : RenkoChart.t) :
  tick_outcome price ts c c' ->
  P (RenkoBrick_make (reference c) (reference c + RenkoChart.brickSize_ c) ts true) ->
  P (RenkoBrick_make (reference c) (reference c - RenkoChart.brickSize_ c) ts false) ->
  Forall P (RenkoChart.bricks_ c) /\ contiguous (RenkoChart.bricks_ c) ->
  Forall P (RenkoChart.bricks_ c') /\ contiguous (RenkoChart.bricks_ c').
Proof.
  intros Hout Hup Hdown [Hall Hc].
  assert (Href : RenkoChart.bricks_ c <> [] ->
                 reference c = close (RenkoChart.back (RenkoChart.bricks_ c))).
  { unfold reference. destruct (RenkoChart.bricks_ c); [congruence | reflexivity]. }
  destruct Hout as [_ ->|_ _ _ -> _|_ _ _ _ -> _|_ _ _ _ _ -> _|_ _ _ _ _ -> _ _ _];
    auto; apply chain_kept_by_push; auto.
Qed.

(** C9, as amended. Feeding any tick sequence to a fresh chart of brick size
    [b] returns, and in the resulting series every brick opens exactly at the
    close of the brick before it, while the close of every brick is the value
    the program computes as [open + b] for an up brick and as [open - b] for
    a down brick. *)
Theorem feed_bricks_contiguous_and_one_step
    (symbol : Symbol) (b : Q) (maxBricks : nat) (ticks : list (Price * TimePoint)) :
  exists c,
    RenkoChart.feed ticks (RenkoChart.create symbol b maxBricks) = Some (tt, c) /\
    (forall x, In x (RenkoChart.bricks_ c) ->
       close x = (if isUp x then open x + b else open x - b)) /\
    (forall i, (S i < List.length (RenkoChart.bricks_ c))%nat ->
       open (nth (S i) (RenkoChart.bricks_ c) RenkoBrick_default) =
       close (nth i (RenkoChart.bricks_ c) RenkoBrick_default)).
Proof.
  pose (P := fun x : RenkoBrick => close x = (if isUp x then open x + b else open x - b)).
  pose (Inv := fun c : RenkoChart.t =>
                 RenkoChart.brickSize_ c = b /\
                 Forall P (RenkoChart.bricks_ c) /\
                 contiguous (RenkoChart.bricks_ c)).
  assert (Hkeep : forall price ts c c',
             Inv c -> idle c -> RenkoChart.addPrice price ts c = Some (tt, c') -> Inv c').
  { intros price ts c c' (Hsize & Hchain) Hidle Hrun.
    destruct (addPrice_step price ts c Hidle) as (c1 & Hrun1 & _ & Hsize1 & _ & Hout).
    rewrite Hrun in Hrun1. injection Hrun1 as <-.
    split; [congruence|].
    apply (chain_kept_by_tick P price ts c c' Hout); [| |exact Hchain];
      rewrite Hsize; reflexivity. }
  destruct (feed_invariant Inv Hkeep ticks (RenkoChart.create symbol b maxBricks))
    as (c & Hfeed & (_ & Hall & Hc) & _).
  - repeat split; constructor.
  - reflexivity.
  - exists c. split; [exact Hfeed|]. split.
    + intros x Hx. rewrite Forall_forall in Hall. now apply Hall.
    + intros i Hi. now apply contiguous_nth.
Qed.

(** C9, as stated, fails in the arithmetic of the program. With one-pip
    bricks the ticks 1.1000, 1.0990, 1.0980, 1.0987 finalize two down bricks;
    in binary64 the first one closes at [1.1 - 0.001], and its span
    [|close - open|] is not the brick size but a value below it. *)
Lemma binary64_span_is_not_brick_size :
  exists c x y,
    Binary64.feed
      [(1.1000%float, 1%Z); (1.0990%float, 2%Z); (1.0980%float, 3%Z); (1.0987%float, 4%Z)]
      (Binary64.create "EURUSD"%string 0.001 1000) = Some (tt, c) /\
    Binary64.bricks_ c = [x; y] /\
    Binary64.brickSize_ c = 0.001%float /\
    Binary64.open y = Binary64.close x /\
    PrimFloat.eqb (Binary64.span x) 0.001 = false /\
    PrimFloat.ltb (Binary64.span x) 0.001 = true /\
    PrimFloat.eqb (Binary64.span y) 0.001 = false.
Proof.
  eexists. eexists. eexists.
  split; [vm_compute; reflexivity|].
  split; [reflexivity|].
  repeat split; vm_compute; reflexivity.
Qed.

(** C1 (the code departs from the claim). A chart seeded at 1.1000 with
    one-pip bricks receives the single price 1.1020, exactly two brick widths
    above the reference: the call finalizes one up brick, from 1.1000 to
    1.1010, and not two. *)
Theorem addPrice_two_widths_away_finalizes_one_brick :
  exists c0 c1,
    RenkoChart.feed [(1.1000, 1%Z)] Scenario.eurusd = Some (tt, c0) /\
    RenkoChart.bricks_ c0 = [] /\
    reference c0 == 1.1000 /\
    1.1020 - reference c0 == 2 * RenkoChart.brickSize_ c0 /\
    RenkoChart.addPrice 1.1020 2%Z c0 = Some (tt, c1) /\
    RenkoChart.bricks_ c1 = [RenkoBrick_make 1.1000 (1.1000 + 0.001) 2%Z true] /\
    List.length (RenkoChart.bricks_ c1) = 1%nat.
Proof.
  eexists. eexists.
  split; [vm_compute; reflexivity|].
  split; [reflexivity|].
  split; [reflexivity|].
  split; [reflexivity|].
  split; [vm_compute; reflexivity|].
  split; reflexivity.
Qed.

(** ** The direction of the partial brick *)

(** Once a finalized brick exists, the partial brick is never both up and
    started: an invariant of every chart reached by [addPrice] alone. *)
Lemma partial_never_up_kept (price : Price) (ts : TimePoint) (c c' : RenkoChart.t) :
  tick_outcome price ts c c' ->
  (RenkoChart.currentBrickInitialized_ c = false -> RenkoChart.bricks_ c = []) /\
  (RenkoChart.bricks_ c <> [] ->
   isUp (RenkoChart.currentBrick_ c) = false \/
   completionPercent (RenkoChart.currentBrick_ c) = 0) ->
  (RenkoChart.currentBrickInitialized_ c' = false -> RenkoChart.bricks_ c' = []) /\
  (RenkoChart.bricks_ c' <> [] ->
   isUp (RenkoChart.currentBrick_ c') = false \/
   completionPercent (RenkoChart.currentBrick_ c') = 0).
Proof.
  intros Hout [Hseed Hdown].
  destruct Hout as [_ ->|_ Hinit Hinit' Hbs Hcur|_ _ Hinit' _ _ Hcur
                   |_ _ Hinit' _ _ _ Hcur|_ _ Hinit' _ _ Hbs _ Hne _]; auto.
  - split; [congruence|]. rewrite Hbs, (Hseed Hinit). congruence.
  - split; [congruence|]. intros _. right. now rewrite Hcur.
  - split; [congruence|]. intros _. right. now rewrite Hcur.
  - split; [congruence|]. rewrite Hbs. intros H. left. now apply Hne.
Qed.

(** C10, as amended. (1) On an idle chart holding a finalized brick and a
    seeded partial brick, [addPrice] with a positive price strictly within one
    brick size of the last close finalizes nothing and leaves the partial
    brick with [isUp == false].  (2) In every chart reached by feeding ticks
    to a fresh chart, [isUpBrickForming()] is false once a finalized brick
    exists. *)
Theorem partial_brick_not_up_after_first_brick :
  (forall (price : Price) (ts : TimePoint) (c : RenkoChart.t),
      idle c ->
      RenkoChart.bricks_ c <> [] ->
      RenkoChart.currentBrickInitialized_ c = true ->
      0 < price ->
      price < reference c + RenkoChart.brickSize_ c ->
      reference c - RenkoChart.brickSize_ c < price ->
      exists c',
        RenkoChart.addPrice price ts c = Some (tt, c') /\
        RenkoChart.bricks_ c' = RenkoChart.bricks_ c /\
        isUp (RenkoChart.currentBrick_ c') = false) /\
  (forall (symbol : Symbol) (b : Q) (maxBricks : nat) (ticks : list (Price * TimePoint)),
      exists c,
        RenkoChart.feed ticks (RenkoChart.create symbol b maxBricks) = Some (tt, c) /\
        (RenkoChart.bricks_ c <> [] ->
         RenkoChart.isUpBrickForming c = Some (false, c))).
Proof.
  split.
  - intros price ts c Hidle Hne Hinit Hpos Hlt Hgt.
    destruct (addPrice_step price ts c Hidle) as (c' & Hrun & _ & _ & _ & Hout).
    exists c'. split; [exact Hrun|].
    destruct Hout as [Hle _|_ Hinit0 _ _ _|_ _ _ Hup _ _
                     |_ _ _ _ Hdown _ _|_ _ _ _ _ Hbs _ Hdir _].
    + lra.
    + congruence.
    + lra.
    + lra.
    + split; [exact Hbs | now apply Hdir].
  - intros symbol b maxBricks ticks.
    pose (Inv := fun c : RenkoChart.t =>
            (RenkoChart.currentBrickInitialized_ c = false -> RenkoChart.bricks_ c = []) /\
            (RenkoChart.bricks_ c <> [] ->
             isUp (RenkoChart.currentBrick_ c) = false \/
             completionPercent (RenkoChart.currentBrick_ c) = 0)).
    assert (Hkeep : forall price ts c c',
               Inv c -> idle c -> RenkoChart.addPrice price ts c = Some (tt, c') -> Inv c').
    { intros price ts c c' HI Hidle Hrun.
      destruct (addPrice_step price ts c Hidle) as (c1 & Hrun1 & _ & _ & _ & Hout).
      rewrite Hrun in Hrun1. injection Hrun1 as <-.
      now apply (partial_never_up_kept price ts c c'). }
    destruct (feed_invariant Inv Hkeep ticks (RenkoChart.create symbol b maxBricks))
      as (c & Hfeed & (_ & Hdown) & Hidle).
    + split; [reflexivity | intros H; now elim H].
    + reflexivity.
    + exists c. split; [exact Hfeed|]. intros Hne.
      unfold idle in Hidle.
      unfold RenkoChart.isUpBrickForming, RenkoChart.locked, lock_guard, gets.
      rewrite Hidle.
      destruct c as [sym bs tv mx l cur init lp hp lo lu mtx].
      cbn in Hidle, Hne, Hdown |- *. subst mtx.
      destruct (Hdown Hne) as [-> | ->]; [reflexivity|].
      now rewrite andb_false_r.
Qed.

Lemma partial_brick_not_up_after_first_brick_witness :
  (exists c',
      RenkoChart.addPrice 1.0998 4%Z Scenario.up_down_down = Some (tt, c') /\
      RenkoChart.bricks_ c' = RenkoChart.bricks_ Scenario.up_down_down /\
      isUp (RenkoChart.currentBrick_ c') = false) /\
  (exists c,
      RenkoChart.feed [(1.1000, 1%Z); (1.0990, 2%Z); (1.0980, 3%Z); (1.0987, 4%Z)]
        (RenkoChart.create "EURUSD"%string 0.001 1000) = Some (tt, c) /\
      (RenkoChart.bricks_ c <> [] ->
       RenkoChart.isUpBrickForming c = Some (false, c))).
Proof.
  split.
  - apply (proj1 partial_brick_not_up_after_first_brick 1.0998 4%Z Scenario.up_down_down).
    + reflexivity.
    + discriminate.
    + reflexivity.
    + reflexivity.
    + reflexivity.
    + reflexivity.
  - apply (proj2 partial_brick_not_up_after_first_brick).
Defined.

(** C10, as stated, fails on a dropped tick. After the ticks 1.1000 and
    1.0990 the series holds one finalized brick and the fresh partial brick
    carries the constructor default [isUp == true]; [addPrice(0)] finalizes no
    brick and leaves that partial brick, still up, in place. *)
Lemma dropped_tick_leaves_partial_up :
  exists c c',
    RenkoChart.feed [(1.1000, 1%Z); (1.0990, 2%Z)] Scenario.eurusd = Some (tt, c) /\
    List.length (RenkoChart.bricks_ c) = 1%nat /\
    RenkoChart.addPrice 0 3%Z c = Some (tt, c') /\
    RenkoChart.bricks_ c' = RenkoChart.bricks_ c /\
    isUp (RenkoChart.currentBrick_ c') = true.
Proof.
  eexists. eexists.
  split; [vm_compute; reflexivity|].
  split; [reflexivity|].
  split; [vm_compute; reflexivity|].
  split; reflexivity.
Qed.

(** ** Pattern detection *)

(** [calculateSetup1EntryPrice] holds [dataMutex_] when it calls
    [getNextUpBrickLevel] or [getNextDownBrickLevel], which lock it again: the
    call never returns. *)
Lemma calculateSetup1EntryPrice_never_returns
    (side : OrderSide) (tickBuffer : Z) (c : RenkoChart.t) :
  RenkoChart.calculateSetup1EntryPrice side tickBuffer c = None.
Proof.
  unfold RenkoChart.calculateSetup1EntryPrice, RenkoChart.locked, lock_guard.
  destruct (RenkoChart.dataMutex_ c) eqn:Hm; [reflexivity|].
  unfold bind, RenkoChart.getNextUpBrickLevel, RenkoChart.getNextDownBrickLevel,
    RenkoChart.locked, lock_guard.
  destruct side; reflexivity.
Qed.

(** The queries used by the detector return on an idle chart and leave it as
    it was. *)
Lemma getBricks_idle (count : nat) (c : RenkoChart.t) :
  idle c ->
  exists bs, RenkoChart.getBricks count c = Some (bs, c) /\
             bs = (if ((count =? 0)%nat || (List.length (RenkoChart.bricks_ c) <=? count)%nat)%bool
                   then RenkoChart.bricks_ c
                   else skipn (List.length (RenkoChart.bricks_ c) - count)
                          (RenkoChart.bricks_ c)).
Proof.
  unfold idle. destruct c as [sym b tv mx bs cur init lp hp lo lu mtx].
  cbn [RenkoChart.dataMutex_]. intros ->.
  unfold RenkoChart.getBricks, RenkoChart.locked, lock_guard, bind, gets, ret.
  cbn [RenkoChart.dataMutex_ RenkoChart.set_dataMutex RenkoChart.bricks_].
  destruct ((count =? 0)%nat || (List.length bs <=? count)%nat)%bool;
    eexists; split; reflexivity.
Qed.

Lemma getCurrentBrick_idle (c : RenkoChart.t) :
  idle c -> RenkoChart.getCurrentBrick c = Some (RenkoChart.currentBrick_ c, c).
Proof.
  unfold idle. destruct c as [sym b tv mx bs cur init lp hp lo lu mtx].
  cbn [RenkoChart.dataMutex_]. intros ->. reflexivity.
Qed.

(** Whatever [detectSetup1Pattern] returns has type [NONE]: on the branch
    that builds a Setup-1 result the entry-price call does not return. *)
Lemma detectSetup1Pattern_returns_only_none
    (d : PatternDetector.t) (now : TimePoint) (c c' : RenkoChart.t) (r : PatternResult) :
  PatternDetector.detectSetup1Pattern d now c = Some (r, c') -> type r = NONE.
Proof.
  unfold PatternDetector.detectSetup1Pattern, bind at 1, RenkoChart.getSymbol, gets.
  unfold bind at 1.
  destruct (RenkoChart.getLastNBricks 5 c) as [[recent c1]|]; [|discriminate].
  unfold ret.
  destruct (List.length recent <? 3)%nat; [intros [= <- _]; reflexivity|].
  destruct (3 <=? List.length recent)%nat; [|intros [= <- _]; reflexivity].
  unfold bind at 1.
  destruct (RenkoChart.getCurrentBrick c1) as [[cur c2]|]; [|discriminate].
  match goal with
  | |- context [if ?b then _ else _] => destruct b
  end; [|intros [= <- _]; reflexivity].
  unfold bind at 1. rewrite calculateSetup1EntryPrice_never_returns. discriminate.
Qed.

(** On an idle chart the detector returns [NONE] and leaves the chart as it
    was when its test fails, and does not return when its test succeeds. *)
Lemma detectSetup1Pattern_idle (d : PatternDetector.t) (now : TimePoint) (c : RenkoChart.t) :
  idle c ->
  PatternDetector.detectSetup1Pattern d now c =
    if setup1_code_test (PatternDetector.partialBrickThreshold_ d) c then None
    else Some (mkPatternResult NONE (RenkoChart.symbol_ c) [] 0 now 0 0 None, c).
Proof.
  intros Hidle.
  unfold PatternDetector.detectSetup1Pattern, bind at 1, RenkoChart.getSymbol, gets.
  unfold bind at 1, RenkoChart.getLastNBricks.
  destruct (getBricks_idle 5 c Hidle) as (recent & -> & Hrecent).
  unfold setup1_code_test.
  change ((5 =? 0)%nat || (List.length (RenkoChart.bricks_ c) <=? 5)%nat)%bool
    with (List.length (RenkoChart.bricks_ c) <=? 5)%nat in Hrecent.
  rewrite <- Hrecent. unfold ret.
  destruct (Nat.ltb_spec (List.length recent) 3) as [Hlt|Hge].
  - destruct (Nat.leb_spec 3 (List.length recent)); [lia | reflexivity].
  - destruct (Nat.leb_spec 3 (List.length recent)); [|lia].
    unfold bind at 1. rewrite (getCurrentBrick_idle c Hidle).
    cbn [andb].
    match goal with
    | |- context [if ?b then _ else _] => destruct b
    end; [|reflexivity].
    unfold bind at 1. now rewrite calculateSetup1EntryPrice_never_returns.
Qed.

(** ** Order validation *)

(** C6. [validateOrder] returns on every state, for every order, account and
    position list; it returns [false] exactly when the emergency stop is
    active, or [dailyRiskUsed_ >= equity * dailyRiskPercent], or
    [currentDrawdown_ >= maxDrawdownPercent], and [true] otherwise; the
    manager it returns is the manager it was given. *)
Theorem validateOrder_gate
    (order : Order) (account : AccountInfo) (positions : list Position)
    (s : RiskManager.t) :
  exists ok,
    RiskManager.validateOrder order account positions s = Some (ok, s) /\
    (ok = false <->
     RiskManager.emergencyStop_ s = true \/
     equity account * dailyRiskPercent (RiskManager.params_ s)
       <= RiskManager.dailyRiskUsed_ s \/
     maxDrawdownPercent (RiskManager.params_ s) <= RiskManager.currentDrawdown_ s).
Proof.
  unfold RiskManager.validateOrder, RiskManager.isWithinDailyRiskLimit,
    RiskManager.isWithinDrawdownLimit, bind, ret, gets, get.
  destruct (RiskManager.emergencyStop_ s) eqn:Hstop.
  { exists false. split; [reflexivity|]. split; auto. }
  destruct (Qltb (RiskManager.dailyRiskUsed_ s)
              (equity account * dailyRiskPercent (RiskManager.params_ s))) eqn:Hdaily;
    cbn [negb].
  2:{ exists false. split; [reflexivity|]. apply Qltb_false in Hdaily.
      split; auto. }
  apply Qltb_true in Hdaily.
  destruct (Qltb (RiskManager.currentDrawdown_ s)
              (maxDrawdownPercent (RiskManager.params_ s))) eqn:Hdd; cbn [negb].
  2:{ exists false. split; [reflexivity|]. apply Qltb_false in Hdd.
      split; auto. }
  apply Qltb_true in Hdd.
  exists true. split; [reflexivity|]. split; [discriminate|].
  intros [H|[H|H]]; [discriminate | lra | lra].
Qed.

Lemma validateOrder_gate_witness :
  exists ok,
    RiskManager.validateOrder Scenario.sample_order Scenario.sample_account []
      RiskManager.create = Some (ok, RiskManager.create) /\
    (ok = false <->
     RiskManager.emergencyStop_ RiskManager.create = true \/
     equity Scenario.sample_account * dailyRiskPercent (RiskManager.params_ RiskManager.create)
       <= RiskManager.dailyRiskUsed_ RiskManager.create \/
     maxDrawdownPercent (RiskManager.params_ RiskManager.create)
       <= RiskManager.currentDrawdown_ RiskManager.create).
Proof.
  apply (validateOrder_gate Scenario.sample_order Scenario.sample_account []
           RiskManager.create).
Defined.

(** ** Position sizing *)

(** C7, as amended. [calculatePositionSize] returns on every state and leaves
    it as it was.  It returns 0 when [|entry - stop| <= 0].  When the stop
    distance is positive and the tick value is not zero it returns
    [min(max(riskAmount / (stopDistance * tickValue), minLotSize), 0.1 * equity)]:
    the result never exceeds [0.1 * equity], and it is at least [minLotSize]
    whenever [minLotSize <= 0.1 * equity]. *)
Theorem calculatePositionSize_bounds
    (symbol : Symbol) (signal : TradingSignal) (account : AccountInfo)
    (instrument : InstrumentSpec) (s : RiskManager.t) :
  exists size,
    RiskManager.calculatePositionSize symbol signal account instrument s = Some (size, s) /\
    (Qabs (entryPrice signal - stopLoss signal) <= 0 -> size = 0) /\
    (0 < Qabs (entryPrice signal - stopLoss signal) ->
     ~ tickValue instrument == 0 ->
     size =
       std_min
         (std_max
            (equity account * dailyRiskPercent (RiskManager.params_ s)
             / (Qabs (entryPrice signal - stopLoss signal) * tickValue instrument))
            (minLotSize (RiskManager.params_ s)))
         (equity account * (1 # 10)) /\
     size <= equity account * (1 # 10) /\
     (minLotSize (RiskManager.params_ s) <= equity account * (1 # 10) ->
      minLotSize (RiskManager.params_ s) <= size)).
Proof.
  unfold RiskManager.calculatePositionSize, bind, ret, gets.
  destruct (Qleb (Qabs (entryPrice signal - stopLoss signal)) 0) eqn:Hzero.
  - apply Qleb_true in Hzero. exists 0. split; [reflexivity|]. split; [auto|].
    intros Hpos. lra.
  - apply Qleb_false in Hzero. eexists. split; [reflexivity|]. split.
    + intros Hle. lra.
    + intros _ _. split; [reflexivity|]. split.
      * apply std_min_spec.
      * intros Hcap. apply std_min_glb; [apply std_max_spec | exact Hcap].
Qed.

Lemma calculatePositionSize_bounds_witness :
  exists size,
    RiskManager.calculatePositionSize "EURUSD"%string Scenario.sample_signal
      Scenario.sample_account InstrumentSpec_default RiskManager.create
      = Some (size, RiskManager.create) /\
    size <= equity Scenario.sample_account * (1 # 10) /\
    minLotSize (RiskManager.params_ RiskManager.create) <= size.
Proof.
  destruct (calculatePositionSize_bounds "EURUSD"%string Scenario.sample_signal
              Scenario.sample_account InstrumentSpec_default RiskManager.create)
    as (size & Hrun & _ & Hpos).
  exists size. split; [exact Hrun|].
  assert (Hd : 0 < Qabs (entryPrice Scenario.sample_signal - stopLoss Scenario.sample_signal))
    by reflexivity.
  assert (Ht : ~ tickValue InstrumentSpec_default == 0) by discriminate.
  destruct (Hpos Hd Ht) as (_ & Hcap & Hfloor).
  split; [exact Hcap|]. apply Hfloor. vm_compute. discriminate.
Defined.

(** C7, as stated, fails when the cap lies below the floor. With the default
    parameters ([minLotSize] 0.01, [dailyRiskPercent] 0.01), an account
    holding 0.05 of equity, a stop distance of 0.1 and a tick value of 1, the
    size returned is 0.005: the cap [0.1 * equity] is applied last and wins
    over [minLotSize]. *)
Lemma position_size_below_min_lot :
  exists size,
    RiskManager.calculatePositionSize "EURUSD"%string Scenario.sample_signal
      Scenario.small_account InstrumentSpec_default RiskManager.create
      = Some (size, RiskManager.create) /\
    0 < Qabs (entryPrice Scenario.sample_signal - stopLoss Scenario.sample_signal) /\
    size == 0.005 /\
    ~ minLotSize (RiskManager.params_ RiskManager.create) <= size.
Proof.
  eexists. split; [vm_compute; reflexivity|].
  split; [reflexivity|]. split; [reflexivity|].
  intros H. vm_compute in H. now apply H.
Qed.

(** ** Consecutive losses *)

Lemma std_max_int_is_max (a b : Z) : std_max_int a b = Z.max a b.
Proof. unfold std_max_int. destruct (Z.ltb_spec a b); lia. Qed.

(** One losing trade, on any state. *)
Lemma recordTrade_loss (order : Order) (s : RiskManager.t) :
  exists s',
    RiskManager.recordTrade order false s = Some (tt, s') /\
    RiskManager.consecutiveLosses_ s' = int_incr (RiskManager.consecutiveLosses_ s) /\
    RiskManager.consecutiveWins_ s' = 0%Z /\
    RiskManager.maxConsecutiveLosses_ s' =
      Z.max (RiskManager.maxConsecutiveLosses_ s)
        (int_incr (RiskManager.consecutiveLosses_ s)) /\
    RiskManager.params_ s' = RiskManager.params_ s /\
    RiskManager.emergencyStop_ s' = RiskManager.emergencyStop_ s /\
    RiskManager.paperMode_ s' =
      (RiskManager.paperMode_ s
       || (consecutiveLossLimit (RiskManager.params_ s)
             <=? int_incr (RiskManager.consecutiveLosses_ s))%Z)%bool.
Proof.
  destruct s as [params pm status paper stop hwm dd mdd hwmt dsb dpnl dru ldr
                 cur done cm losses wins maxl total profit].
  unfold RiskManager.recordTrade, RiskManager.shouldSwitchToPaperMode,
    RiskManager.switchToPaperMode, bind, ret, gets, modify.
  cbn -[int_incr std_max_int Qplus].
  destruct (consecutiveLossLimit params <=? int_incr losses)%Z; destruct paper;
    cbn -[int_incr std_max_int Qplus];
    eexists; (split; [reflexivity|]); cbn -[int_incr std_max_int Qplus];
    rewrite std_max_int_is_max; repeat split.
Qed.

(** A run of losing trades that does not overflow the loss counter. *)
Lemma record_losses_run (orders : list Order) :
  forall s : RiskManager.t,
    (0 <= RiskManager.consecutiveLosses_ s)%Z ->
    (RiskManager.consecutiveLosses_ s + Z.of_nat (List.length orders) <= INT_MAX)%Z ->
    exists s',
      record_losses orders s = Some (tt, s') /\
      RiskManager.consecutiveLosses_ s' =
        (RiskManager.consecutiveLosses_ s + Z.of_nat (List.length orders))%Z /\
      RiskManager.params_ s' = RiskManager.params_ s /\
      (orders <> [] ->
       RiskManager.consecutiveWins_ s' = 0%Z /\
       RiskManager.maxConsecutiveLosses_ s' =
         Z.max (RiskManager.maxConsecutiveLosses_ s) (RiskManager.consecutiveLosses_ s')) /\
      RiskManager.paperMode_ s' =
        (RiskManager.paperMode_ s
         || (negb (List.length orders =? 0)%nat
             && (consecutiveLossLimit (RiskManager.params_ s)
                   <=? RiskManager.consecutiveLosses_ s')%Z))%bool.
Proof.
  induction orders as [|o orders IH]; intros s Hnonneg Hfit.
  - exists s. cbn. repeat split; try lia; try congruence.
    now rewrite orb_false_r.
  - destruct (recordTrade_loss o s) as (s1 & Hrun1 & Hl1 & Hw1 & Hm1 & Hp1 & _ & Hpaper1).
    assert (Hincr : int_incr (RiskManager.consecutiveLosses_ s)
                    = (RiskManager.consecutiveLosses_ s + 1)%Z).
    { unfold int_incr. apply wrap_int_id. unfold int_range, INT_MIN, INT_MAX in *.
      cbn [List.length] in Hfit. lia. }
    rewrite Hincr in *.
    cbn [List.length] in Hfit.
    destruct (IH s1) as (s' & Hrun & Hl & Hp & Hrest & Hpaper); [lia | lia |].
    exists s'. split.
    { unfold record_losses in *. cbn [map seq_]. unfold bind at 1. now rewrite Hrun1. }
    cbn [List.length]. split; [lia|]. split; [congruence|]. split.
    + intros _. destruct orders as [|o' orders'].
      * cbn in Hrun. injection Hrun as <-. split; [exact Hw1|]. rewrite Hm1, Hl1. lia.
      * destruct Hrest as [Hw Hm]; [discriminate|]. split; [exact Hw|].
        rewrite Hm, Hm1, Hl, Hl1. cbn [List.length]. lia.
    + rewrite Hpaper, Hpaper1, Hp1. cbn [Nat.eqb negb andb].
      destruct (RiskManager.paperMode_ s); [reflexivity|]. cbn [orb].
      destruct orders as [|o' orders'].
      * cbn in Hrun. injection Hrun as <-. cbn. rewrite Hl1. now rewrite orb_false_r.
      * cbn [List.length Nat.eqb negb andb].
        destruct (Z.leb_spec (consecutiveLossLimit (RiskManager.params_ s))
                    (RiskManager.consecutiveLosses_ s + 1)) as [Hle|Hgt];
          [|reflexivity].
        cbn [orb]. symmetry. apply Z.leb_le. rewrite Hl, Hl1. cbn [List.length]. lia.
Qed.

(** C5. From any state with [paperMode_ == false] and
    [consecutiveLosses_ == 0], and a loss limit between 1 and [INT_MAX],
    exactly [consecutiveLossLimit] losing [recordTrade] calls return and leave
    [isPaperMode() == true].  After the first [k] of them (1 <= k <= limit)
    [consecutiveLosses_] is [k], [consecutiveWins_] is 0,
    [maxConsecutiveLosses_] is the maximum of its initial value and [k], and
    paper mode is on exactly when [k] has reached the limit. *)
Theorem consecutive_losses_switch_to_paper_mode
    (s : RiskManager.t) (orders : list Order) :
  RiskManager.paperMode_ s = false ->
  RiskManager.consecutiveLosses_ s = 0%Z ->
  (1 <= consecutiveLossLimit (RiskManager.params_ s) <= INT_MAX)%Z ->
  Z.of_nat (List.length orders) = consecutiveLossLimit (RiskManager.params_ s) ->
  (exists s',
      record_losses orders s = Some (tt, s') /\
      RiskManager.isPaperMode s' = Some (true, s')) /\
  (forall k : nat,
      (1 <= k <= List.length orders)%nat ->
      exists sk,
        record_losses (firstn k orders) s = Some (tt, sk) /\
        RiskManager.consecutiveLosses_ sk = Z.of_nat k /\
        RiskManager.consecutiveWins_ sk = 0%Z /\
        RiskManager.maxConsecutiveLosses_ sk =
          Z.max (RiskManager.maxConsecutiveLosses_ s) (Z.of_nat k) /\
        (RiskManager.paperMode_ sk = true <-> k = List.length orders)).
Proof.
  intros Hpaper Hzero Hlimit Hlen.
  assert (Hprefix : forall k : nat,
             (1 <= k <= List.length orders)%nat ->
             exists sk,
               record_losses (firstn k orders) s = Some (tt, sk) /\
               RiskManager.consecutiveLosses_ sk = Z.of_nat k /\
               RiskManager.consecutiveWins_ sk = 0%Z /\
               RiskManager.maxConsecutiveLosses_ sk =
                 Z.max (RiskManager.maxConsecutiveLosses_ s) (Z.of_nat k) /\
               (RiskManager.paperMode_ sk = true <-> k = List.length orders)).
  { intros k Hk.
    assert (Hlenk : List.length (firstn k orders) = k) by (rewrite length_firstn; lia).
    destruct (record_losses_run (firstn k orders) s) as (sk & Hrun & Hl & Hp & Hrest & Hpm).
    - lia.
    - rewrite Hlenk, Hzero. lia.
    - rewrite Hlenk, Hzero in Hl. cbn in Hl.
      assert (Hne : firstn k orders <> []).
      { intros E. rewrite E in Hlenk. cbn in Hlenk. lia. }
      destruct (Hrest Hne) as [Hw Hm].
      exists sk. split; [exact Hrun|]. split; [exact Hl|]. split; [exact Hw|].
      split; [now rewrite Hm, Hl|].
      rewrite Hpm, Hpaper, Hlenk, Hl. cbn [orb].
      destruct (Nat.eqb_spec k 0) as [|_]; [lia|]. cbn [negb andb].
      rewrite Z.leb_le. lia. }
  split; [|exact Hprefix].
  destruct (Hprefix (List.length orders)) as (s' & Hrun & _ & _ & _ & Hpm); [lia|].
  rewrite firstn_all in Hrun.
  exists s'. split; [exact Hrun|].
  unfold RiskManager.isPaperMode, gets. now rewrite (proj2 Hpm eq_refl).
Qed.

Lemma consecutive_losses_switch_to_paper_mode_witness :
  (exists s',
      record_losses [Scenario.sample_order; Scenario.sample_order] RiskManager.create
        = Some (tt, s') /\
      RiskManager.isPaperMode s' = Some (true, s')) /\
  (forall k : nat,
      (1 <= k <= 2)%nat ->
      exists sk,
        record_losses (firstn k [Scenario.sample_order; Scenario.sample_order])
          RiskManager.create = Some (tt, sk) /\
        RiskManager.consecutiveLosses_ sk = Z.of_nat k /\
        RiskManager.consecutiveWins_ sk = 0%Z /\
        RiskManager.maxConsecutiveLosses_ sk = Z.max 0 (Z.of_nat k) /\
        (RiskManager.paperMode_ sk = true <-> k = 2%nat)).
Proof.
  apply (consecutive_losses_switch_to_paper_mode RiskManager.create
           [Scenario.sample_order; Scenario.sample_order]).
  - reflexivity.
  - reflexivity.
  - cbn. unfold INT_MAX. lia.
  - reflexivity.
Defined.

(** ** Emergency stop *)

Ltac risk_unfold :=
  unfold RiskManager.perform, RiskManager.initialize, RiskManager.updateRiskParameters,
    RiskManager.updateRiskStatus, RiskManager.calculateDrawdown,
    RiskManager.switchToPaperMode, RiskManager.switchToLiveMode,
    RiskManager.recordTrade, RiskManager.shouldSwitchToPaperMode,
    RiskManager.resetConsecutiveCount, RiskManager.performDailyReset,
    RiskManager.enableEmergencyStop, RiskManager.disableEmergencyStop,
    RiskManager.closeAllPositions, RiskManager.startNewCounter,
    RiskManager.addOrderToCounter, RiskManager.completeCounter,
    RiskManager.params_locked, RiskManager.counter_locked, lock_guard,
    bind, ret, get, gets, modify in *.

Ltac risk_cbn :=
  cbn -[Qplus Qminus Qmult Qdiv Qgtb Qltb Qleb Qgeb std_max std_min int_incr wrap_int
        std_max_int Z.leb Z.eqb] in *.

Ltac split_ifs_in H :=
  repeat match type of H with
         | context [if ?b then _ else _] => destruct b
         end.

(** No call other than [disableEmergencyStop] clears the emergency stop. *)
Lemma perform_keeps_emergency_stop (c : RiskManager.Call) (s s' : RiskManager.t) :
  RiskManager.is_disable c = false ->
  RiskManager.perform c s = Some (tt, s') ->
  RiskManager.emergencyStop_ s = true ->
  RiskManager.emergencyStop_ s' = true.
Proof.
  intros Hcall Hrun Hstop.
  destruct s as [params pm status paper stop hwm dd mdd hwmt dsb dpnl dru ldr
                 cur done cm losses wins maxl total profit].
  cbn [RiskManager.emergencyStop_] in Hstop. subst stop.
  destruct c; try discriminate Hcall; risk_unfold; risk_cbn;
    split_ifs_in Hrun; risk_cbn; try discriminate Hrun;
    injection Hrun as <-; reflexivity.
Qed.

Lemma perform_all_keeps_emergency_stop (cs : list RiskManager.Call) :
  forall s s' : RiskManager.t,
    forallb (fun c => negb (RiskManager.is_disable c)) cs = true ->
    RiskManager.perform_all cs s = Some (tt, s') ->
    RiskManager.emergencyStop_ s = true ->
    RiskManager.emergencyStop_ s' = true.
Proof.
  induction cs as [|c cs IH]; intros s s' Hcs Hrun Hstop.
  - cbn in Hrun. injection Hrun as <-. exact Hstop.
  - cbn [forallb] in Hcs. apply andb_true_iff in Hcs. destruct Hcs as [Hc Hcs].
    apply negb_true_iff in Hc.
    unfold RiskManager.perform_all in *. cbn [map seq_] in Hrun. unfold bind at 1 in Hrun.
    destruct (RiskManager.perform c s) as [[[] s1]|] eqn:Hstep; [|discriminate].
    apply (IH s1 s' Hcs Hrun). now apply (perform_keeps_emergency_stop c s s1).
Qed.

(** The half of C4 that holds: after [enableEmergencyStop], and through any
    returning sequence of calls without [disableEmergencyStop],
    [validateOrder] returns [false] for every order, account and position
    list. *)
Lemma emergency_stop_rejects_every_order
    (s : RiskManager.t) (cs : list RiskManager.Call) (s1 s2 : RiskManager.t)
    (order : Order) (account : AccountInfo) (positions : list Position) :
  RiskManager.enableEmergencyStop s = Some (tt, s1) ->
  forallb (fun c => negb (RiskManager.is_disable c)) cs = true ->
  RiskManager.perform_all cs s1 = Some (tt, s2) ->
  RiskManager.validateOrder order account positions s2 = Some (false, s2).
Proof.
  intros Henable Hcs Hrun.
  assert (Hstop1 : RiskManager.emergencyStop_ s1 = true).
  { unfold RiskManager.enableEmergencyStop, bind, modify in Henable.
    injection Henable as <-. reflexivity. }
  pose proof (perform_all_keeps_emergency_stop cs s1 s2 Hcs Hrun Hstop1) as Hstop2.
  unfold RiskManager.validateOrder, bind, gets. now rewrite Hstop2.
Qed.

(** C4 (the code departs from the claim). On a fresh manager (loss limit 2),
    [enableEmergencyStop] followed by two losing [recordTrade] calls, with no
    [disableEmergencyStop] in between, leaves the emergency stop active and
    [validateOrder] returning [false], but [getCurrentRiskStatus()] returns
    [PAPER_MODE]: [switchToPaperMode] overwrites the status. *)
Theorem paper_switch_overwrites_limit_reached :
  exists s,
    RiskManager.perform_all
      [ RiskManager.CallEnableEmergencyStop;
        RiskManager.CallRecordTrade Scenario.sample_order false;
        RiskManager.CallRecordTrade Scenario.sample_order false ]
      RiskManager.create = Some (tt, s) /\
    RiskManager.isEmergencyStopActive s = Some (true, s) /\
    RiskManager.validateOrder Scenario.sample_order Scenario.sample_account [] s
      = Some (false, s) /\
    RiskManager.getCurrentRiskStatus s = Some (PAPER_MODE, s).
Proof.
  eexists. split; [vm_compute; reflexivity|].
  split; [reflexivity|]. split; reflexivity.
Qed.

(** ** Counters *)

(** The call of [addOrderToCounter] that fills the counter reaches
    [completeCounter] with [counterMutex_] held, and [completeCounter] locks
    it again: the call never returns. *)
Lemma addOrderToCounter_filling_never_returns
    (order : Order) (now : TimePoint) (s : RiskManager.t) :
  (ordersPerCounter (RiskManager.params_ s)
     <= int_incr (RiskManager.ordersCount (RiskManager.currentCounter_ s)))%Z ->
  RiskManager.addOrderToCounter order now s = None.
Proof.
  intros Hfull. apply Z.leb_le in Hfull.
  destruct s as [params pm status paper stop hwm dd mdd hwmt dsb dpnl dru ldr
                 cur done cm losses wins maxl total profit].
  risk_unfold. risk_cbn. destruct cm; [reflexivity|].
  risk_cbn. rewrite Hfull. reflexivity.
Qed.

(** Below the limit the call returns with one more order in the counter. *)
Lemma addOrderToCounter_below_limit
    (order : Order) (now : TimePoint) (s : RiskManager.t) :
  RiskManager.counterMutex_ s = false ->
  (int_incr (RiskManager.ordersCount (RiskManager.currentCounter_ s))
     < ordersPerCounter (RiskManager.params_ s))%Z ->
  exists s',
    RiskManager.addOrderToCounter order now s = Some (tt, s') /\
    RiskManager.counterMutex_ s' = false /\
    RiskManager.params_ s' = RiskManager.params_ s /\
    RiskManager.completedCounters_ s' = RiskManager.completedCounters_ s /\
    RiskManager.ordersCount (RiskManager.currentCounter_ s') =
      int_incr (RiskManager.ordersCount (RiskManager.currentCounter_ s)) /\
    RiskManager.isComplete (RiskManager.currentCounter_ s') =
      RiskManager.isComplete (RiskManager.currentCounter_ s).
Proof.
  intros Hfree Hbelow. apply Z.leb_gt in Hbelow.
  destruct s as [params pm status paper stop hwm dd mdd hwmt dsb dpnl dru ldr
                 cur done cm losses wins maxl total profit].
  cbn [RiskManager.counterMutex_] in Hfree. subst cm.
  risk_unfold. risk_cbn. rewrite Hbelow.
  eexists. split; [reflexivity|]. repeat split.
Qed.

(** Called directly with [counterMutex_] free, [completeCounter] marks the current
    counter complete and archives it, and the [startNewCounter] that follows
    numbers the new counter one above the count of archived counters. *)
Lemma completeCounter_then_startNewCounter
    (now later : TimePoint) (s : RiskManager.t) :
  RiskManager.counterMutex_ s = false ->
  exists s1 s2,
    RiskManager.completeCounter now s = Some (tt, s1) /\
    RiskManager.isCounterComplete s1 = Some (true, s1) /\
    RiskManager.completedCounters_ s1 =
      RiskManager.completedCounters_ s ++ [RiskManager.currentCounter_ s1] /\
    RiskManager.startNewCounter later s1 = Some (tt, s2) /\
    RiskManager.counterNumber (RiskManager.currentCounter_ s2) =
      wrap_int (Z.of_nat (List.length (RiskManager.completedCounters_ s1)) + 1) /\
    RiskManager.ordersCount (RiskManager.currentCounter_ s2) = 0%Z /\
    RiskManager.isComplete (RiskManager.currentCounter_ s2) = false.
Proof.
  intros Hfree.
  destruct s as [params pm status paper stop hwm dd mdd hwmt dsb dpnl dru ldr
                 cur done cm losses wins maxl total profit].
  cbn [RiskManager.counterMutex_] in Hfree. subst cm.
  eexists. eexists.
  split; [reflexivity|]. split; [reflexivity|]. split; [reflexivity|].
  split; [reflexivity|]. repeat split.
Qed.

(** C8 (the code departs from the claim). On a fresh manager (ten orders per
    counter) [startNewCounter] and nine [addOrderToCounter] calls return,
    leaving nine orders in an open counter and nothing archived; the tenth
    [addOrderToCounter] call does not return, so the counter is never seen
    complete. *)
Theorem tenth_addOrderToCounter_never_returns :
  exists s0 s9,
    RiskManager.startNewCounter 0%Z RiskManager.create = Some (tt, s0) /\
    add_orders (repeat Scenario.sample_order 9) 1%Z s0 = Some (tt, s9) /\
    RiskManager.getOrdersInCurrentCounter s9 = Some (9%Z, s9) /\
    RiskManager.isCounterComplete s9 = Some (false, s9) /\
    RiskManager.completedCounters_ s9 = [] /\
    RiskManager.addOrderToCounter Scenario.sample_order 1%Z s9 = None /\
    add_orders (repeat Scenario.sample_order 10) 1%Z s0 = None.
Proof.
  eexists. eexists.
  split; [vm_compute; reflexivity|].
  split; [vm_compute; reflexivity|].
  split; [reflexivity|]. split; [reflexivity|]. split; [reflexivity|].
  split; vm_compute; reflexivity.
Qed.

(** ** The end-to-end scenario *)

(** With fewer than three finalized bricks the detector returns [NONE],
    whatever its threshold and whatever the partial brick. *)
Lemma detectSetup1Pattern_needs_three_bricks
    (d : PatternDetector.t) (now : TimePoint) (c : RenkoChart.t) :
  idle c ->
  (List.length (RenkoChart.bricks_ c) < 3)%nat ->
  PatternDetector.detectSetup1Pattern d now c =
    Some (mkPatternResult NONE (RenkoChart.symbol_ c) [] 0 now 0 0 None, c).
Proof.
  intros Hidle Hfew. rewrite (detectSetup1Pattern_idle d now c Hidle).
  unfold setup1_code_test.
  destruct (Nat.leb_spec (List.length (RenkoChart.bricks_ c)) 5); [|lia].
  destruct (Nat.leb_spec 3 (List.length (RenkoChart.bricks_ c))); [lia|].
  reflexivity.
Qed.

(** C3 (the code departs from the claim). With one-pip bricks the ticks
    1.1000, 1.0990, 1.0980, 1.0987 fed to a fresh chart give two finalized
    bricks, both down, and a partial brick below the threshold 0.75 whose
    [isUp] is false, not an up brick.  After the fifth tick 1.0988 the
    partial brick has reached the threshold, still with [isUp] false over the
    same two bricks, and the default detector (threshold 0.75) returns [NONE]
    with no suggested side; [detectPatterns] returns the empty list.  Setup 1
    does not fire.  The brick formation gives the same directions and the
    same side of the threshold in binary64. *)
Theorem end_to_end_setup1_does_not_fire :
  exists c4 c5 r5 f4 f5,
    RenkoChart.feed [(1.1000, 1%Z); (1.0990, 2%Z); (1.0980, 3%Z); (1.0987, 4%Z)]
      Scenario.eurusd = Some (tt, c4) /\
    directions (RenkoChart.bricks_ c4) = [false; false] /\
    isUp (RenkoChart.currentBrick_ c4) = false /\
    completionPercent (RenkoChart.currentBrick_ c4) < 0.75 /\
    RenkoChart.addPrice 1.0988 5%Z c4 = Some (tt, c5) /\
    directions (RenkoChart.bricks_ c5) = [false; false] /\
    isUp (RenkoChart.currentBrick_ c5) = false /\
    0.75 <= completionPercent (RenkoChart.currentBrick_ c5) /\
    PatternDetector.detectSetup1Pattern PatternDetector.create 6%Z c5 = Some (r5, c5) /\
    type r5 = NONE /\
    suggestedSide r5 <> Some BUY /\
    PatternDetector.detectPatterns PatternDetector.create 6%Z c5 = Some ([], c5) /\
    Binary64.feed
      [(1.1000%float, 1%Z); (1.0990%float, 2%Z); (1.0980%float, 3%Z); (1.0987%float, 4%Z)]
      (Binary64.create "EURUSD"%string 0.001 1000) = Some (tt, f4) /\
    map Binary64.isUp (Binary64.bricks_ f4) = [false; false] /\
    Binary64.isUp (Binary64.currentBrick_ f4) = false /\
    PrimFloat.ltb (Binary64.completionPercent (Binary64.currentBrick_ f4)) 0.75 = true /\
    Binary64.addPrice 1.0988 5%Z f4 = Some (tt, f5) /\
    map Binary64.isUp (Binary64.bricks_ f5) = [false; false] /\
    Binary64.isUp (Binary64.currentBrick_ f5) = false /\
    PrimFloat.leb 0.75 (Binary64.completionPercent (Binary64.currentBrick_ f5)) = true.
Proof.
  eexists. eexists. eexists. eexists. eexists.
  split; [vm_compute; reflexivity|].
  split; [reflexivity|].
  split; [reflexivity|].
  split; [reflexivity|].
  split; [vm_compute; reflexivity|].
  split; [reflexivity|].
  split; [reflexivity|].
  split; [vm_compute; discriminate|].
  split; [vm_compute; reflexivity|].
  split; [reflexivity|].
  split; [discriminate|].
  split; [vm_compute; reflexivity|].
  split; [vm_compute; reflexivity|].
  split; [reflexivity|].
  split; [reflexivity|].
  split; [vm_compute; reflexivity|].
  split; [vm_compute; reflexivity|].
  split; [reflexivity|].
  split; [reflexivity|].
  vm_compute; reflexivity.
Qed.

(** * Further properties of the chart *)

Lemma pop_front_is_skipn (m : nat) (l : list RenkoBrick) :
  RenkoChart.pop_front_while_over m l = skipn (List.length l - m) l.
Proof.
  induction l as [|x l IH]; [reflexivity|].
  cbn [RenkoChart.pop_front_while_over].
  destruct (Nat.ltb_spec m (List.length (x :: l))) as [Hlt|Hge].
  - cbn [List.length] in Hlt |- *. rewrite IH.
    replace (S (List.length l) - m)%nat with (S (List.length l - m)) by lia.
    reflexivity.
  - replace (List.length (x :: l) - m)%nat with O by lia. reflexivity.
Qed.

Lemma pop_front_within (m : nat) (l : list RenkoBrick) :
  (List.length (RenkoChart.pop_front_while_over m l) <= m)%nat.
Proof. rewrite pop_front_is_skipn, length_skipn. lia. Qed.

Lemma addPrice_dropped (price : Price) (ts : TimePoint) (c : RenkoChart.t) :
  idle c -> price <= 0 -> RenkoChart.addPrice price ts c = Some (tt, c).
Proof.
  intros Hidle Hle. rewrite (addPrice_idle price ts c Hidle).
  unfold addPrice_effect. apply Qleb_true in Hle. now rewrite Hle.
Qed.

Lemma feed_cons (price : Price) (ts : TimePoint) (ticks : list (Price * TimePoint))
    (c : RenkoChart.t) :
  RenkoChart.feed ((price, ts) :: ticks) c =
    match RenkoChart.addPrice price ts c with
    | Some (_, c') => RenkoChart.feed ticks c'
    | None => None
    end.
Proof.
  unfold RenkoChart.feed. cbn [map seq_ fst snd]. unfold bind at 1.
  destruct (RenkoChart.addPrice price ts c) as [[[] c']|]; reflexivity.
Qed.

(** X1. However many ticks a fresh chart is fed, the series never holds more
    than [maxBricks] bricks. *)
Theorem series_within_capacity
    (symbol : Symbol) (b : Q) (maxBricks : nat) (ticks : list (Price * TimePoint)) :
  exists c,
    RenkoChart.feed ticks (RenkoChart.create symbol b maxBricks) = Some (tt, c) /\
    (List.length (RenkoChart.bricks_ c) <= maxBricks)%nat.
Proof.
  pose (Inv := fun c : RenkoChart.t =>
                 RenkoChart.maxBricks_ c = maxBricks /\
                 (List.length (RenkoChart.bricks_ c) <= maxBricks)%nat).
  assert (Hkeep : forall price ts c c',
             Inv c -> idle c -> RenkoChart.addPrice price ts c = Some (tt, c') -> Inv c').
  { intros price ts c c' [Hmax Hlen] Hidle Hrun.
    destruct (addPrice_step price ts c Hidle) as (c1 & Hrun1 & _ & _ & Hmax1 & Hout).
    rewrite Hrun in Hrun1. injection Hrun1 as <-.
    split; [congruence|].
    destruct Hout as [_ ->|_ _ _ -> _|_ _ _ _ -> _|_ _ _ _ _ -> _|_ _ _ _ _ -> _ _ _];
      auto; rewrite Hmax; apply pop_front_within. }
  destruct (feed_invariant Inv Hkeep ticks (RenkoChart.create symbol b maxBricks))
    as (c & Hfeed & (_ & Hlen) & _).
  - split; [reflexivity | cbn; lia].
  - reflexivity.
  - exists c. split; assumption.
Qed.

(** X2. However many ticks a fresh chart is fed, whatever its brick size, the
    completion of the partial brick stays between 0 and 1. *)
Theorem completion_within_unit_interval
    (symbol : Symbol) (b : Q) (maxBricks : nat) (ticks : list (Price * TimePoint)) :
  exists c,
    RenkoChart.feed ticks (RenkoChart.create symbol b maxBricks) = Some (tt, c) /\
    0 <= completionPercent (RenkoChart.currentBrick_ c) <= 1.
Proof.
  pose (Inv := fun c : RenkoChart.t =>
                 0 <= completionPercent (RenkoChart.currentBrick_ c) <= 1).
  assert (Hkeep : forall price ts c c',
             Inv c -> idle c -> RenkoChart.addPrice price ts c = Some (tt, c') -> Inv c').
  { intros price ts c c' HI Hidle Hrun.
    destruct (addPrice_step price ts c Hidle) as (c1 & Hrun1 & _ & _ & _ & Hout).
    rewrite Hrun in Hrun1. injection Hrun1 as <-. unfold Inv in *.
    destruct Hout as [_ ->|_ _ _ _ Hcur|_ _ _ _ _ Hcur|_ _ _ _ _ _ Hcur
                     |_ _ _ Hup Hdown _ _ Hfull Hfirst]; auto.
    - rewrite Hcur. cbn. lra.
    - rewrite Hcur. cbn. lra.
    - rewrite Hcur. cbn. lra.
    - assert (Hb : 0 < RenkoChart.brickSize_ c) by lra.
      destruct (RenkoChart.bricks_ c) as [|x l] eqn:Hbs.
      + destruct (Hfirst eq_refl) as [_ ->].
        destruct (Qgtb (price - reference c) (reference c - price)) eqn:Hdir.
        * apply Qgtb_true in Hdir. split.
          -- apply Qle_shift_div_l; [exact Hb | lra].
          -- apply Qle_shift_div_r; [exact Hb | lra].
        * apply Qgtb_false in Hdir. split.
          -- apply Qle_shift_div_l; [exact Hb | lra].
          -- apply Qle_shift_div_r; [exact Hb | lra].
      + destruct Hfull as [_ ->]; [discriminate|]. apply clamp_unit_interval. }
  destruct (feed_invariant Inv Hkeep ticks (RenkoChart.create symbol b maxBricks))
    as (c & Hfeed & HI & _).
  - unfold Inv. cbn. lra.
  - reflexivity.
  - exists c. split; assumption.
Qed.

(** X3. On an idle chart the non-positive ticks of a feed have no effect: the
    feed and the feed of its positive ticks alone leave the same chart. *)
Theorem feed_ignores_nonpositive_ticks
    (ticks : list (Price * TimePoint)) (c : RenkoChart.t) :
  idle c ->
  RenkoChart.feed ticks c = RenkoChart.feed (positive_ticks ticks) c.
Proof.
  revert c. induction ticks as [|[price ts] ticks IH]; intros c Hidle; [reflexivity|].
  unfold positive_ticks. cbn [filter fst]. fold (positive_ticks ticks).
  destruct (Qgtb price 0) eqn:Hpos.
  - rewrite !feed_cons.
    destruct (addPrice_step price ts c Hidle) as (c1 & -> & Hidle1 & _).
    now apply IH.
  - apply Qgtb_false in Hpos. rewrite feed_cons, (addPrice_dropped price ts c Hidle Hpos).
    now apply IH.
Qed.

Lemma feed_ignores_nonpositive_ticks_witness :
  RenkoChart.feed [(1.1000, 1%Z); (0, 2%Z); (1.0990, 3%Z); (-(1), 4%Z)] Scenario.eurusd =
  RenkoChart.feed (positive_ticks [(1.1000, 1%Z); (0, 2%Z); (1.0990, 3%Z); (-(1), 4%Z)])
    Scenario.eurusd.
Proof.
  apply (feed_ignores_nonpositive_ticks
           [(1.1000, 1%Z); (0, 2%Z); (1.0990, 3%Z); (-(1), 4%Z)] Scenario.eurusd).
  reflexivity.
Defined.

Lemma back_snoc (l : list RenkoBrick) (x : RenkoBrick) : RenkoChart.back (l ++ [x]) = x.
Proof. unfold RenkoChart.back. apply last_last. Qed.

Lemma back_app (d l : list RenkoBrick) :
  l <> [] -> RenkoChart.back (d ++ l) = RenkoChart.back l.
Proof.
  intros Hne. unfold RenkoChart.back. induction d as [|x d IH]; [reflexivity|].
  cbn [app last]. destruct (d ++ l) eqn:E; [|exact IH].
  apply app_eq_nil in E. destruct E as [_ E]. congruence.
Qed.

Lemma back_skipn (n : nat) (l : list RenkoBrick) :
  skipn n l <> [] -> RenkoChart.back (skipn n l) = RenkoChart.back l.
Proof.
  intros Hne. rewrite <- (firstn_skipn n l) at 2. symmetry. now apply back_app.
Qed.

(** X4. In the series of a chart fed from fresh every brick has the shape its
    constructor gives it: completion 1, [high] and [low] the larger and the
    smaller of open and close, and a close exactly one brick size above the
    open for an up brick and one brick size below it for a down brick. *)
Theorem series_bricks_are_formed
    (symbol : Symbol) (b : Q) (maxBricks : nat) (ticks : list (Price * TimePoint)) :
  exists c,
    RenkoChart.feed ticks (RenkoChart.create symbol b maxBricks) = Some (tt, c) /\
    forall x, In x (RenkoChart.bricks_ c) ->
      completionPercent x = 1 /\
      high x = std_max (open x) (close x) /\
      low x = std_min (open x) (close x) /\
      close x = (if isUp x then open x + b else open x - b).
Proof.
  pose (Inv := fun c : RenkoChart.t =>
                 RenkoChart.brickSize_ c = b /\ Forall (formed b) (RenkoChart.bricks_ c)).
  assert (Hpush : forall m l x, Forall (formed b) l -> formed b x ->
                    Forall (formed b) (RenkoChart.pop_front_while_over m (l ++ [x]))).
  { intros m l x Hl Hx. destruct (pop_front_is_suffix m (l ++ [x])) as [d Hd].
    apply (Forall_suffix _ d). rewrite <- Hd. apply Forall_app. auto. }
  assert (Hkeep : forall price ts c c',
             Inv c -> idle c -> RenkoChart.addPrice price ts c = Some (tt, c') -> Inv c').
  { intros price ts c c' [Hsize Hall] Hidle Hrun.
    destruct (addPrice_step price ts c Hidle) as (c1 & Hrun1 & _ & Hsize1 & _ & Hout).
    rewrite Hrun in Hrun1. injection Hrun1 as <-.
    split; [congruence|].
    destruct Hout as [_ ->|_ _ _ -> _|_ _ _ _ -> _|_ _ _ _ _ -> _|_ _ _ _ _ -> _ _ _];
      auto; apply Hpush; auto; rewrite Hsize; repeat split. }
  destruct (feed_invariant Inv Hkeep ticks (RenkoChart.create symbol b maxBricks))
    as (c & Hfeed & (_ & Hall) & _).
  - split; [reflexivity | constructor].
  - reflexivity.
  - exists c. split; [exact Hfeed|]. intros x Hx.
    rewrite Forall_forall in Hall. exact (Hall x Hx).
Qed.

Lemma series_bricks_are_formed_witness :
  exists c x,
    RenkoChart.feed green_red_green_ticks Scenario.eurusd = Some (tt, c) /\
    In x (RenkoChart.bricks_ c) /\
    isUp x = false /\
    completionPercent x = 1 /\
    high x = std_max (open x) (close x) /\
    low x = std_min (open x) (close x) /\
    close x = open x - 0.001.
Proof.
  destruct (series_bricks_are_formed "EURUSD"%string 0.001 1000 green_red_green_ticks)
    as (c & Hrun & Hall).
  exists c, (nth 1 (RenkoChart.bricks_ c) RenkoBrick_default).
  assert (Hin : In (nth 1 (RenkoChart.bricks_ c) RenkoBrick_default) (RenkoChart.bricks_ c)
                /\ isUp (nth 1 (RenkoChart.bricks_ c) RenkoBrick_default) = false).
  { pose proof Hrun as Hc. vm_compute in Hc. injection Hc as <-.
    split; [right; left; reflexivity | reflexivity]. }
  destruct Hin as [Hin Hdown].
  destruct (Hall _ Hin) as (Hfull & Hhigh & Hlow & Hclose).
  rewrite Hdown in Hclose.
  split; [exact Hrun|]. split; [exact Hin|]. split; [exact Hdown|].
  split; [exact Hfull|]. split; [exact Hhigh|]. split; [exact Hlow|]. exact Hclose.
Defined.

(** X5. In a chart fed from fresh that holds a finalized brick, the partial
    brick opens exactly at the close of the last finalized brick. *)
Theorem partial_opens_at_last_close
    (symbol : Symbol) (b : Q) (maxBricks : nat) (ticks : list (Price * TimePoint)) :
  exists c,
    RenkoChart.feed ticks (RenkoChart.create symbol b maxBricks) = Some (tt, c) /\
    (RenkoChart.bricks_ c <> [] ->
     open (RenkoChart.currentBrick_ c) = close (RenkoChart.back (RenkoChart.bricks_ c))).
Proof.
  pose (Inv := fun c : RenkoChart.t =>
                 (RenkoChart.currentBrickInitialized_ c = false -> RenkoChart.bricks_ c = []) /\
                 (RenkoChart.bricks_ c <> [] ->
                  open (RenkoChart.currentBrick_ c)
                  = close (RenkoChart.back (RenkoChart.bricks_ c)))).
  assert (Hpush : forall m l x,
             RenkoChart.pop_front_while_over m (l ++ [x]) <> [] ->
             RenkoChart.back (RenkoChart.pop_front_while_over m (l ++ [x])) = x).
  { intros m l x Hne. rewrite pop_front_is_skipn in *.
    rewrite back_skipn by exact Hne. apply back_snoc. }
  assert (Hkeep : forall price ts c c',
             Inv c -> idle c -> RenkoChart.addPrice price ts c = Some (tt, c') -> Inv c').
  { intros price ts c c' [Hseed Hopen] Hidle Hrun.
    destruct (addPrice_step price ts c Hidle) as (c1 & Hrun1 & _ & _ & _ & Hout).
    rewrite Hrun in Hrun1. injection Hrun1 as <-. unfold Inv.
    destruct Hout as [_ ->|_ Hinit Hinit' Hbs Hcur|_ _ Hinit' _ Hbs Hcur
                     |_ _ Hinit' _ _ Hbs Hcur|_ _ Hinit' _ _ Hbs Hop _ _]; auto.
    - split; [congruence|]. rewrite Hbs, (Hseed Hinit). congruence.
    - split; [congruence|]. rewrite Hbs, Hcur. intros Hne. now rewrite (Hpush _ _ _ Hne).
    - split; [congruence|]. rewrite Hbs, Hcur. intros Hne. now rewrite (Hpush _ _ _ Hne).
    - split; [congruence|]. rewrite Hbs, Hop. exact Hopen. }
  destruct (feed_invariant Inv Hkeep ticks (RenkoChart.create symbol b maxBricks))
    as (c & Hfeed & (_ & Hopen) & _).
  - split; [reflexivity | intros H; now elim H].
  - reflexivity.
  - exists c. split; assumption.
Qed.

Lemma partial_opens_at_last_close_witness :
  exists c,
    RenkoChart.feed green_red_green_ticks Scenario.eurusd = Some (tt, c) /\
    RenkoChart.bricks_ c <> [] /\
    open (RenkoChart.currentBrick_ c) = close (RenkoChart.back (RenkoChart.bricks_ c)).
Proof.
  destruct (partial_opens_at_last_close "EURUSD"%string 0.001 1000 green_red_green_ticks)
    as (c & Hrun & Hopen).
  assert (Hseries : RenkoChart.bricks_ c <> []).
  { pose proof Hrun as Hc. vm_compute in Hc. injection Hc as <-. discriminate. }
  exists c. split; [exact Hrun|]. split; [exact Hseries|]. exact (Hopen Hseries).
Defined.

(** X6. [getBricks(count)] on an idle chart returns, leaves the chart as it
    was, and hands back the most recent bricks in series order: all of them
    when [count] is 0 or not below the size, the last [count] otherwise. *)
Theorem getBricks_returns_most_recent (count : nat) (c : RenkoChart.t) :
  idle c ->
  exists bs older,
    RenkoChart.getBricks count c = Some (bs, c) /\
    RenkoChart.bricks_ c = older ++ bs /\
    List.length bs =
      (if (count =? 0)%nat then List.length (RenkoChart.bricks_ c)
       else Nat.min count (List.length (RenkoChart.bricks_ c))).
Proof.
  intros Hidle. destruct (getBricks_idle count c Hidle) as (bs & Hrun & Hbs).
  destruct (Nat.eqb_spec count 0) as [Hzero|Hpos].
  - exists bs, []. subst count. cbn [orb] in Hbs. subst bs. repeat split. exact Hrun.
  - cbn [orb] in Hbs.
    destruct (Nat.leb_spec (List.length (RenkoChart.bricks_ c)) count) as [Hle|Hgt].
    + exists bs, []. subst bs. split; [exact Hrun|]. split; [reflexivity | lia].
    + exists bs, (firstn (List.length (RenkoChart.bricks_ c) - count) (RenkoChart.bricks_ c)).
      split; [exact Hrun|]. subst bs. split.
      * symmetry. apply firstn_skipn.
      * rewrite length_skipn. lia.
Qed.

Lemma getBricks_returns_most_recent_witness :
  exists bs older,
    RenkoChart.getBricks 2 Scenario.up_down_down = Some (bs, Scenario.up_down_down) /\
    RenkoChart.bricks_ Scenario.up_down_down = older ++ bs /\
    List.length bs = 2%nat.
Proof.
  apply (getBricks_returns_most_recent 2 Scenario.up_down_down). reflexivity.
Defined.

Lemma scan_back_spec (bad : bool) (l : list RenkoBrick) (n : nat) :
  forall i : nat,
    RenkoChart.scan_back bad l i n = true <->
    (forall k, (k < n)%nat ->
       isUp (nth (List.length l - (i + k)) l RenkoBrick_default) = negb bad).
Proof.
  induction n as [|n IH]; intros i.
  - cbn. split; [intros _ k Hk; lia | reflexivity].
  - cbn [RenkoChart.scan_back].
    destruct (Bool.eqb (isUp (nth (List.length l - i) l RenkoBrick_default)) bad) eqn:E.
    + apply eqb_prop in E. split; [discriminate|].
      intros H. specialize (H O ltac:(lia)). rewrite Nat.add_0_r, E in H.
      destruct bad; discriminate.
    + apply eqb_false_iff in E. rewrite IH. split.
      * intros H [|k] Hk.
        -- rewrite Nat.add_0_r.
           destruct (isUp (nth (List.length l - i) l RenkoBrick_default)), bad;
             try reflexivity; congruence.
        -- replace (i + S k)%nat with (S i + k)%nat by lia. apply H. lia.
      * intros H k Hk. replace (S i + k)%nat with (i + S k)%nat by lia. apply H. lia.
Qed.

Lemma run_length_spec (up : bool) (r : list RenkoBrick) :
  forall n : nat,
    (n <= RenkoChart.run_length up r)%nat <->
    ((n <= List.length r)%nat /\
     forall j, (j < n)%nat -> isUp (nth j r RenkoBrick_default) = up).
Proof.
  induction r as [|x r IH]; intros n.
  - cbn. split.
    + intros H. split; [lia | intros j Hj; lia].
    + intros [H _]. lia.
  - cbn [RenkoChart.run_length List.length].
    destruct (Bool.eqb (isUp x) up) eqn:E.
    + apply eqb_prop in E. destruct n as [|n].
      * split; [intros _; split; [lia | intros j Hj; lia] | intros _; lia].
      * rewrite <- Nat.succ_le_mono, IH. split.
        -- intros [Hlen H]. split; [lia|]. intros [|j] Hj; [exact E | apply H; lia].
        -- intros [Hlen H]. split; [lia|]. intros j Hj. apply (H (S j)). lia.
    + apply eqb_false_iff in E. split.
      * intros H. assert (n = O) by lia. subst n. split; [lia | intros j Hj; lia].
      * intros [_ H]. destruct n as [|n]; [lia|].
        exfalso. apply E. apply (H O). lia.
Qed.

Lemma scan_back_is_run (bad : bool) (l : list RenkoBrick) (n : nat) :
  (n <= List.length l)%nat ->
  (RenkoChart.scan_back bad l 1 n = true <->
   (n <= RenkoChart.run_length (negb bad) (rev l))%nat).
Proof.
  intros Hn. rewrite scan_back_spec, run_length_spec, length_rev. split.
  - intros H. split; [exact Hn|]. intros j Hj.
    rewrite rev_nth by lia. replace (List.length l - S j)%nat
      with (List.length l - (1 + j))%nat by lia. now apply H.
  - intros [_ H] k Hk.
    replace (List.length l - (1 + k))%nat with (List.length l - S k)%nat by lia.
    rewrite <- rev_nth by lia. now apply H.
Qed.

Lemma run_length_within (up : bool) (r : list RenkoBrick) :
  (RenkoChart.run_length up r <= List.length r)%nat.
Proof.
  induction r as [|x r IH]; [cbn; lia|].
  cbn [RenkoChart.run_length List.length]. destruct (Bool.eqb (isUp x) up); lia.
Qed.

Lemma consecutive_query_agrees (bad : bool) (count : Z) (l : list RenkoBrick) :
  (Z.of_nat (List.length l) <= INT_MAX)%Z ->
  ((if (wrap_int (Z.of_nat (List.length l)) <? count)%Z then false
    else RenkoChart.scan_back bad l 1 (Z.to_nat count)) = true <->
   (count <= wrap_int (Z.of_nat (RenkoChart.run_length (negb bad) (rev l))))%Z).
Proof.
  intros Hfit.
  pose proof (run_length_within (negb bad) (rev l)) as Hrun. rewrite length_rev in Hrun.
  rewrite !wrap_int_id by (unfold int_range, INT_MIN, INT_MAX in *; lia).
  destruct (Z.ltb_spec (Z.of_nat (List.length l)) count) as [Hover|Hin].
  - split; [discriminate | lia].
  - rewrite scan_back_is_run by lia. lia.
Qed.

(** X7. On an idle chart whose series fits an [int],
    [hasConsecutiveDownBricks(count)] answers [true] exactly when [count] is
    at most [getConsecutiveDownCount()], and [hasConsecutiveUpBricks(count)]
    exactly when [count] is at most [getConsecutiveUpCount()]; in particular
    both answer [true] for a [count] of zero or less.  All four calls leave
    the chart as it was. *)
Theorem consecutive_queries_agree_with_counts (count : Z) (c : RenkoChart.t) :
  idle c ->
  (Z.of_nat (List.length (RenkoChart.bricks_ c)) <= INT_MAX)%Z ->
  exists down up downs ups,
    RenkoChart.hasConsecutiveDownBricks count c = Some (down, c) /\
    RenkoChart.hasConsecutiveUpBricks count c = Some (up, c) /\
    RenkoChart.getConsecutiveDownCount c = Some (downs, c) /\
    RenkoChart.getConsecutiveUpCount c = Some (ups, c) /\
    (down = true <-> (count <= downs)%Z) /\
    (up = true <-> (count <= ups)%Z) /\
    ((count <= 0)%Z -> down = true /\ up = true).
Proof.
  unfold idle. intros Hidle Hfit.
  destruct c as [sym b tv mx bs cur init lp hp lo lu mtx].
  cbn [RenkoChart.dataMutex_ RenkoChart.bricks_] in Hidle, Hfit. subst mtx.
  exists (if (wrap_int (Z.of_nat (List.length bs)) <? count)%Z then false
          else RenkoChart.scan_back true bs 1 (Z.to_nat count)).
  exists (if (wrap_int (Z.of_nat (List.length bs)) <? count)%Z then false
          else RenkoChart.scan_back false bs 1 (Z.to_nat count)).
  eexists. eexists.
  split.
  { unfold RenkoChart.hasConsecutiveDownBricks, RenkoChart.locked, lock_guard, bind, gets, ret.
    cbn [RenkoChart.bricks_ RenkoChart.set_dataMutex RenkoChart.dataMutex_].
    destruct (wrap_int (Z.of_nat (List.length bs)) <? count)%Z; reflexivity. }
  split.
  { unfold RenkoChart.hasConsecutiveUpBricks, RenkoChart.locked, lock_guard, bind, gets, ret.
    cbn [RenkoChart.bricks_ RenkoChart.set_dataMutex RenkoChart.dataMutex_].
    destruct (wrap_int (Z.of_nat (List.length bs)) <? count)%Z; reflexivity. }
  split; [reflexivity|]. split; [reflexivity|].
  cbn [RenkoChart.bricks_ RenkoChart.set_dataMutex RenkoChart.dataMutex_].
  pose proof (consecutive_query_agrees true count bs Hfit) as Hdown.
  pose proof (consecutive_query_agrees false count bs Hfit) as Hup.
  cbn [negb] in Hdown, Hup.
  split; [exact Hdown|]. split; [exact Hup|].
  intros Hle. split.
  - apply Hdown. rewrite wrap_int_id.
    + lia.
    + pose proof (run_length_within false (rev bs)). rewrite length_rev in *.
      unfold int_range, INT_MIN, INT_MAX in *. lia.
  - apply Hup. rewrite wrap_int_id.
    + lia.
    + pose proof (run_length_within true (rev bs)). rewrite length_rev in *.
      unfold int_range, INT_MIN, INT_MAX in *. lia.
Qed.

Lemma consecutive_queries_agree_with_counts_witness :
  exists down up downs ups,
    RenkoChart.hasConsecutiveDownBricks 2 Scenario.up_down_down
      = Some (down, Scenario.up_down_down) /\
    RenkoChart.hasConsecutiveUpBricks 2 Scenario.up_down_down
      = Some (up, Scenario.up_down_down) /\
    RenkoChart.getConsecutiveDownCount Scenario.up_down_down
      = Some (downs, Scenario.up_down_down) /\
    RenkoChart.getConsecutiveUpCount Scenario.up_down_down
      = Some (ups, Scenario.up_down_down) /\
    (down = true <-> (2 <= downs)%Z) /\
    (up = true <-> (2 <= ups)%Z) /\
    ((2 <= 0)%Z -> down = true /\ up = true).
Proof.
  apply (consecutive_queries_agree_with_counts 2 Scenario.up_down_down).
  - reflexivity.
  - cbn. unfold INT_MAX. lia.
Defined.

Lemma same_series_step (price : Price) (ts : TimePoint) (c1 c2 : RenkoChart.t) :
  same_series c1 c2 ->
  same_series (addPrice_effect price ts c1) (addPrice_effect price ts c2).
Proof.
  unfold same_series.
  destruct c1 as [sym1 b1 tv1 mx1 bs1 cur1 init1 lp1 hp1 lo1 lu1 mtx1].
  destruct c2 as [sym2 b2 tv2 mx2 bs2 cur2 init2 lp2 hp2 lo2 lu2 mtx2].
  cbn. intros (-> & -> & -> & -> & -> & ->).
  unfold addPrice_effect, RenkoChart.updateCurrentBrick. chart_cbn.
  destruct (Qleb price 0); [repeat split|].
  destruct init2; [|repeat split].
  chart_cbn. destruct bs2 as [|x rest]; split_ifs; repeat split.
Qed.

Lemma same_series_feed (ticks : list (Price * TimePoint)) :
  forall c1 c2 : RenkoChart.t,
    same_series c1 c2 -> idle c1 ->
    exists r1 r2,
      RenkoChart.feed ticks c1 = Some (tt, r1) /\
      RenkoChart.feed ticks c2 = Some (tt, r2) /\
      same_series r1 r2.
Proof.
  induction ticks as [|[price ts] ticks IH]; intros c1 c2 Hsame Hidle1.
  - exists c1, c2. repeat split; apply Hsame.
  - assert (Hidle2 : idle c2).
    { unfold idle in *. destruct Hsame as (_ & _ & _ & _ & _ & Hm). congruence. }
    rewrite !feed_cons, (addPrice_idle price ts c1 Hidle1), (addPrice_idle price ts c2 Hidle2).
    apply IH.
    + now apply same_series_step.
    + unfold idle in *. destruct (addPrice_effect_frame price ts c1) as [-> _]. exact Hidle1.
Qed.

(** X8. [reset()] on an idle chart returns, and the chart it leaves forms
    bricks like a new one: fed any ticks, it ends with the same series, the
    same partial brick and the same seeding flag as a newly constructed chart
    of the same brick size and capacity fed the same ticks. *)
Theorem reset_then_feed_like_fresh
    (ticks : list (Price * TimePoint)) (c : RenkoChart.t) :
  idle c ->
  exists c0 r f,
    RenkoChart.reset c = Some (tt, c0) /\
    RenkoChart.feed ticks c0 = Some (tt, r) /\
    RenkoChart.feed ticks
      (RenkoChart.create (RenkoChart.symbol_ c) (RenkoChart.brickSize_ c)
         (RenkoChart.maxBricks_ c)) = Some (tt, f) /\
    RenkoChart.bricks_ r = RenkoChart.bricks_ f /\
    RenkoChart.currentBrick_ r = RenkoChart.currentBrick_ f /\
    RenkoChart.currentBrickInitialized_ r = RenkoChart.currentBrickInitialized_ f.
Proof.
  unfold idle. intros Hidle.
  destruct c as [sym b tv mx bs cur init lp hp lo lu mtx].
  cbn [RenkoChart.dataMutex_] in Hidle. subst mtx.
  eexists. 
  destruct (same_series_feed ticks
              (RenkoChart.mk sym b tv mx [] RenkoBrick_default false lp hp lo lu false)
              (RenkoChart.create sym b mx)) as (r & f & Hr & Hf & Hsame).
  - repeat split.
  - reflexivity.
  - exists r, f. split; [reflexivity|]. split; [exact Hr|]. split; [exact Hf|].
    destruct Hsame as (_ & _ & Hbs & Hcur & Hinit & _). auto.
Qed.

Lemma reset_then_feed_like_fresh_witness :
  exists c0 r f,
    RenkoChart.reset Scenario.up_down_down = Some (tt, c0) /\
    RenkoChart.feed [(1.1000, 1%Z); (1.0990, 2%Z)] c0 = Some (tt, r) /\
    RenkoChart.feed [(1.1000, 1%Z); (1.0990, 2%Z)]
      (RenkoChart.create (RenkoChart.symbol_ Scenario.up_down_down)
         (RenkoChart.brickSize_ Scenario.up_down_down)
         (RenkoChart.maxBricks_ Scenario.up_down_down)) = Some (tt, f) /\
    RenkoChart.bricks_ r = RenkoChart.bricks_ f /\
    RenkoChart.currentBrick_ r = RenkoChart.currentBrick_ f /\
    RenkoChart.currentBrickInitialized_ r = RenkoChart.currentBrickInitialized_ f.
Proof.
  apply (reset_then_feed_like_fresh [(1.1000, 1%Z); (1.0990, 2%Z)] Scenario.up_down_down).
  reflexivity.
Defined.

(** X9. [clearOldBricks(keepCount)] on an idle chart returns and keeps
    exactly the [min(keepCount, size)] most recent bricks, in order; it leaves
    the partial brick alone, and a contiguous series stays contiguous. *)
Theorem clearOldBricks_keeps_most_recent (keepCount : nat) (c : RenkoChart.t) :
  idle c ->
  exists c',
    RenkoChart.clearOldBricks keepCount c = Some (tt, c') /\
    RenkoChart.bricks_ c' = last_n keepCount (RenkoChart.bricks_ c) /\
    List.length (RenkoChart.bricks_ c') =
      Nat.min keepCount (List.length (RenkoChart.bricks_ c)) /\
    RenkoChart.currentBrick_ c' = RenkoChart.currentBrick_ c /\
    (contiguous (RenkoChart.bricks_ c) -> contiguous (RenkoChart.bricks_ c')).
Proof.
  unfold idle. intros Hidle.
  destruct c as [sym b tv mx bs cur init lp hp lo lu mtx].
  cbn [RenkoChart.dataMutex_] in Hidle. subst mtx.
  eexists. split; [reflexivity|].
  cbn [RenkoChart.bricks_ RenkoChart.currentBrick_ RenkoChart.set_bricks
       RenkoChart.set_dataMutex RenkoChart.symbol_ RenkoChart.brickSize_
       RenkoChart.tickValue_ RenkoChart.maxBricks_ RenkoChart.currentBrickInitialized_
       RenkoChart.lastPrice_ RenkoChart.highestPrice_ RenkoChart.lowestPrice_
       RenkoChart.lastUpdate_ RenkoChart.dataMutex_].
  rewrite pop_front_is_skipn. unfold last_n.
  split; [reflexivity|]. split; [rewrite length_skipn; lia|]. split; [reflexivity|].
  intros Hc. apply (contiguous_suffix (firstn (List.length bs - keepCount) bs)).
  now rewrite firstn_skipn.
Qed.

Lemma clearOldBricks_keeps_most_recent_witness :
  exists c',
    RenkoChart.clearOldBricks 2 Scenario.up_down_down = Some (tt, c') /\
    RenkoChart.bricks_ c' = last_n 2 (RenkoChart.bricks_ Scenario.up_down_down) /\
    List.length (RenkoChart.bricks_ c') =
      Nat.min 2 (List.length (RenkoChart.bricks_ Scenario.up_down_down)) /\
    RenkoChart.currentBrick_ c' = RenkoChart.currentBrick_ Scenario.up_down_down /\
    (contiguous (RenkoChart.bricks_ Scenario.up_down_down) ->
     contiguous (RenkoChart.bricks_ c')).
Proof.
  apply (clearOldBricks_keeps_most_recent 2 Scenario.up_down_down). reflexivity.
Defined.

(** X10. On an idle chart the four queries return and leave the chart as it
    was.  The next up level is the base level plus the brick size and the
    next down level the base level less the brick size, the base being the
    close of the last finalized brick, or the last price while the series is
    empty; with a brick size that is not negative the base lies between the
    two.  With at least one finalized brick the stop of a buy is the next
    down level less the tick buffer and the stop of a sell the next up level
    plus the tick buffer; on an empty series the stop of either side is the
    last price, with no buffer applied. *)
Theorem levels_and_stops (tickBuffer : Z) (c : RenkoChart.t) :
  idle c ->
  exists base up down buyStop sellStop,
    base = match RenkoChart.bricks_ c with
           | [] => RenkoChart.lastPrice_ c
           | _ :: _ => close (RenkoChart.back (RenkoChart.bricks_ c))
           end /\
    RenkoChart.getNextUpBrickLevel c = Some (up, c) /\
    RenkoChart.getNextDownBrickLevel c = Some (down, c) /\
    RenkoChart.calculateStopLoss BUY tickBuffer c = Some (buyStop, c) /\
    RenkoChart.calculateStopLoss SELL tickBuffer c = Some (sellStop, c) /\
    up = base + RenkoChart.brickSize_ c /\
    down = base - RenkoChart.brickSize_ c /\
    (0 <= RenkoChart.brickSize_ c -> down <= base /\ base <= up) /\
    (RenkoChart.bricks_ c <> [] ->
     buyStop = down - inject_Z tickBuffer * RenkoChart.tickValue_ c /\
     sellStop = up + inject_Z tickBuffer * RenkoChart.tickValue_ c) /\
    (RenkoChart.bricks_ c = [] ->
     buyStop = RenkoChart.lastPrice_ c /\ sellStop = RenkoChart.lastPrice_ c).
Proof.
  unfold idle. intros Hidle.
  destruct c as [sym b tv mx bs cur init lp hp lo lu mtx].
  cbn [RenkoChart.dataMutex_] in Hidle. subst mtx.
  destruct bs as [|x rest].
  - eexists. eexists. eexists. eexists. eexists.
    split; [reflexivity|].
    split; [reflexivity|]. split; [reflexivity|].
    split; [reflexivity|]. split; [reflexivity|].
    chart_cbn.
    split; [reflexivity|]. split; [reflexivity|].
    split; [intros Hb; split; lra|].
    split; [intros H; now elim H | intros _; split; reflexivity].
  - eexists. eexists. eexists. eexists. eexists.
    split; [reflexivity|].
    split; [reflexivity|]. split; [reflexivity|].
    split; [reflexivity|]. split; [reflexivity|].
    chart_cbn.
    split; [reflexivity|]. split; [reflexivity|].
    split; [intros Hb; split; lra|].
    split; [intros _; split; reflexivity | discriminate].
Qed.

Lemma levels_and_stops_witness :
  exists c up down buyStop sellStop,
    RenkoChart.feed green_red_green_ticks Scenario.eurusd = Some (tt, c) /\
    RenkoChart.getNextUpBrickLevel c = Some (up, c) /\
    RenkoChart.getNextDownBrickLevel c = Some (down, c) /\
    RenkoChart.calculateStopLoss BUY 2 c = Some (buyStop, c) /\
    RenkoChart.calculateStopLoss SELL 2 c = Some (sellStop, c) /\
    down <= close (RenkoChart.back (RenkoChart.bricks_ c)) /\
    close (RenkoChart.back (RenkoChart.bricks_ c)) <= up /\
    buyStop = down - inject_Z 2 * RenkoChart.tickValue_ c /\
    sellStop = up + inject_Z 2 * RenkoChart.tickValue_ c.
Proof.
  eexists.
  match goal with
  | |- exists up down buyStop sellStop, ?run = Some (tt, ?c) /\ _ =>
      assert (Hrun : run = Some (tt, c)) by (vm_compute; reflexivity);
      destruct (levels_and_stops 2 c)
        as (base & up & down & buyStop & sellStop & Hbase & Hup & Hdown & Hbuy & Hsell
            & _ & _ & Hbetween & Hstops & _)
  end.
  - reflexivity.
  - exists up, down, buyStop, sellStop.
    split; [exact Hrun|].
    split; [exact Hup|]. split; [exact Hdown|]. split; [exact Hbuy|]. split; [exact Hsell|].
    destruct Hbetween as [Hlow Hhigh]; [vm_compute; discriminate|].
    destruct Hstops as [Hb Hs]; [discriminate|].
    rewrite Hbase in Hlow, Hhigh.
    split; [exact Hlow|]. split; [exact Hhigh|]. split; [exact Hb | exact Hs].
Defined.

(** X11. [calculateSetup1EntryPrice] and [calculateSetup2EntryPrice] return
    on no chart, for no side and no tick buffer. *)
Theorem entry_price_queries_never_return
    (sd : OrderSide) (tickBuffer : Z) (c : RenkoChart.t) :
  RenkoChart.calculateSetup1EntryPrice sd tickBuffer c = None /\
  RenkoChart.calculateSetup2EntryPrice sd tickBuffer c = None.
Proof.
  split; apply calculateSetup1EntryPrice_never_returns.
Qed.

(** * Further properties of the detector *)

Lemma detectSetup2Pattern_idle (d : PatternDetector.t) (now : TimePoint) (c : RenkoChart.t) :
  idle c ->
  PatternDetector.detectSetup2Pattern d now c =
    if setup2_code_test (PatternDetector.partialBrickThreshold_ d) c then None
    else Some (mkPatternResult NONE (RenkoChart.symbol_ c) [] 0 now 0 0 None, c).
Proof.
  intros Hidle.
  unfold PatternDetector.detectSetup2Pattern, bind at 1, RenkoChart.getSymbol, gets.
  unfold bind at 1, RenkoChart.getLastNBricks.
  destruct (getBricks_idle 5 c Hidle) as (recent & -> & Hrecent).
  unfold setup2_code_test.
  change ((5 =? 0)%nat || (List.length (RenkoChart.bricks_ c) <=? 5)%nat)%bool
    with (List.length (RenkoChart.bricks_ c) <=? 5)%nat in Hrecent.
  rewrite <- Hrecent. unfold ret.
  destruct (Nat.ltb_spec (List.length recent) 3) as [Hlt|Hge].
  - destruct (Nat.leb_spec 3 (List.length recent)); [lia | reflexivity].
  - destruct (Nat.leb_spec 3 (List.length recent)); [|lia].
    unfold bind at 1. rewrite (getCurrentBrick_idle c Hidle).
    cbn [andb].
    match goal with
    | |- context [if ?b then _ else _] => destruct b
    end; [|reflexivity].
    unfold bind at 1, RenkoChart.calculateSetup2EntryPrice.
    now rewrite calculateSetup1EntryPrice_never_returns.
Qed.

Lemma detectSetup2Pattern_returns_only_none
    (d : PatternDetector.t) (now : TimePoint) (c c' : RenkoChart.t) (r : PatternResult) :
  PatternDetector.detectSetup2Pattern d now c = Some (r, c') -> type r = NONE.
Proof.
  unfold PatternDetector.detectSetup2Pattern, bind at 1, RenkoChart.getSymbol, gets.
  unfold bind at 1.
  destruct (RenkoChart.getLastNBricks 5 c) as [[recent c1]|]; [|discriminate].
  unfold ret.
  destruct (List.length recent <? 3)%nat; [intros [= <- _]; reflexivity|].
  destruct (3 <=? List.length recent)%nat; [|intros [= <- _]; reflexivity].
  unfold bind at 1.
  destruct (RenkoChart.getCurrentBrick c1) as [[cur c2]|]; [|discriminate].
  match goal with
  | |- context [if ?b then _ else _] => destruct b
  end; [|intros [= <- _]; reflexivity].
  unfold bind at 1, RenkoChart.calculateSetup2EntryPrice.
  rewrite calculateSetup1EntryPrice_never_returns. discriminate.
Qed.

(** The last three bricks of the detector's window of five are the last three
    bricks of the series. *)
Lemma window_last_three (l : list RenkoBrick) (k : nat) :
  (3 <= List.length l)%nat -> (1 <= k <= 3)%nat ->
  let recent := if (List.length l <=? 5)%nat then l else skipn (List.length l - 5) l in
  PatternDetector.at_ recent (List.length recent - k) =
  nth (List.length l - k) l RenkoBrick_default.
Proof.
  intros Hlen Hk. cbn zeta. unfold PatternDetector.at_.
  destruct (Nat.leb_spec (List.length l) 5) as [Hle|Hgt]; [reflexivity|].
  rewrite length_skipn, nth_skipn. f_equal. lia.
Qed.

Lemma window_length (l : list RenkoBrick) :
  let recent := if (List.length l <=? 5)%nat then l else skipn (List.length l - 5) l in
  (3 <=? List.length recent)%nat = (3 <=? List.length l)%nat.
Proof.
  cbn zeta. destruct (Nat.leb_spec (List.length l) 5) as [Hle|Hgt]; [reflexivity|].
  rewrite length_skipn.
  destruct (Nat.leb_spec 3 (List.length l - (List.length l - 5)));
    destruct (Nat.leb_spec 3 (List.length l)); try reflexivity; lia.
Qed.

(** X12. On an idle chart [detectSetup2Pattern] is decided by two public
    queries of the chart.  When [hasGreenRedGreenPattern()] and
    [isBrickComplete(threshold)] both answer [true] the detector does not
    return (it goes on to [calculateSetup2EntryPrice]); in every other case it
    returns a result of type [NONE] and leaves the chart as it was.  The
    direction of the partial brick plays no part. *)
Theorem detectSetup2Pattern_decided_by_chart_queries
    (d : PatternDetector.t) (now : TimePoint) (c : RenkoChart.t) :
  idle c ->
  exists grg full,
    RenkoChart.hasGreenRedGreenPattern c = Some (grg, c) /\
    RenkoChart.isBrickComplete (PatternDetector.partialBrickThreshold_ d) c = Some (full, c) /\
    (grg = true -> full = true -> PatternDetector.detectSetup2Pattern d now c = None) /\
    (grg = false \/ full = false ->
     PatternDetector.detectSetup2Pattern d now c =
       Some (mkPatternResult NONE (RenkoChart.symbol_ c) [] 0 now 0 0 None, c)).
Proof.
  intros Hidle. rewrite (detectSetup2Pattern_idle d now c Hidle).
  unfold setup2_code_test.
  pose proof (window_length (RenkoChart.bricks_ c)) as Hwl.
  pose proof (window_last_three (RenkoChart.bricks_ c)) as Hw3.
  cbn zeta in Hwl, Hw3. rewrite Hwl.
  unfold idle in Hidle.
  destruct c as [sym b tv mx bs cur init lp hp lo lu mtx].
  cbn [RenkoChart.dataMutex_] in Hidle. subst mtx.
  cbn [RenkoChart.bricks_ RenkoChart.currentBrick_ RenkoChart.symbol_] in *.
  exists (if (List.length bs <? 3)%nat then false
          else (isUp (nth (List.length bs - 3) bs RenkoBrick_default)
                && negb (isUp (nth (List.length bs - 3 + 1) bs RenkoBrick_default))
                && isUp (nth (List.length bs - 3 + 2) bs RenkoBrick_default))%bool).
  exists (Qgeb (completionPercent cur) (PatternDetector.partialBrickThreshold_ d)).
  split.
  { unfold RenkoChart.hasGreenRedGreenPattern, RenkoChart.locked, lock_guard, bind, gets, ret.
    cbn [RenkoChart.bricks_ RenkoChart.set_dataMutex RenkoChart.dataMutex_].
    destruct (List.length bs <? 3)%nat; reflexivity. }
  split; [reflexivity|].
  destruct (Nat.ltb_spec (List.length bs) 3) as [Hlt|Hge].
  - destruct (Nat.leb_spec 3 (List.length bs)); [lia|]. cbn [andb].
    split; [discriminate | reflexivity].
  - destruct (Nat.leb_spec 3 (List.length bs)); [|lia]. cbn [andb].
    rewrite (Hw3 3%nat), (Hw3 2%nat), (Hw3 1%nat) by lia.
    replace (List.length bs - 3 + 1)%nat with (List.length bs - 2)%nat by lia.
    replace (List.length bs - 3 + 2)%nat with (List.length bs - 1)%nat by lia.
    split.
    + intros -> ->. reflexivity.
    + intros [-> | ->]; [reflexivity|]. now rewrite andb_false_r.
Qed.

(** The chart the repository's Setup-2 test builds: the detector does not
    return on it. *)
Lemma detectSetup2Pattern_decided_by_chart_queries_witness :
  exists c,
    RenkoChart.feed green_red_green_ticks Scenario.eurusd = Some (tt, c) /\
    RenkoChart.hasGreenRedGreenPattern c = Some (true, c) /\
    RenkoChart.isBrickComplete 0.75 c = Some (true, c) /\
    PatternDetector.detectSetup2Pattern PatternDetector.create 6%Z c = None.
Proof.
  eexists. split; [vm_compute; reflexivity|].
  match goal with
  | |- RenkoChart.hasGreenRedGreenPattern ?c = _ /\ _ =>
      destruct (detectSetup2Pattern_decided_by_chart_queries PatternDetector.create 6%Z c)
        as (grg & full & Hg & Hf & Hstuck & _); [reflexivity|]
  end.
  assert (Eg : grg = true) by (vm_compute in Hg; congruence).
  assert (Ef : full = true) by (vm_compute in Hf; congruence).
  subst grg full.
  split; [vm_compute; reflexivity|]. split; [vm_compute; reflexivity|].
  now apply Hstuck.
Defined.

Lemma detectSetup2Pattern_needs_three_bricks
    (d : PatternDetector.t) (now : TimePoint) (c : RenkoChart.t) :
  idle c ->
  (List.length (RenkoChart.bricks_ c) < 3)%nat ->
  PatternDetector.detectSetup2Pattern d now c =
    Some (mkPatternResult NONE (RenkoChart.symbol_ c) [] 0 now 0 0 None, c).
Proof.
  intros Hidle Hfew. rewrite (detectSetup2Pattern_idle d now c Hidle).
  unfold setup2_code_test.
  destruct (Nat.leb_spec (List.length (RenkoChart.bricks_ c)) 5); [|lia].
  destruct (Nat.leb_spec 3 (List.length (RenkoChart.bricks_ c))); [lia|].
  reflexivity.
Qed.

(** X13. [detectPatterns], [isSetup1Triggered] and [isSetup2Triggered] never
    report a pattern: whenever [detectPatterns] returns, its list is empty,
    and whenever one of the two trigger queries returns, its answer is
    [false].  On an idle chart with fewer than three finalized bricks
    [detectPatterns] does return, with the empty list and the chart as it
    was. *)
Theorem detectPatterns_never_reports (d : PatternDetector.t) (now : TimePoint) :
  (forall c c' results,
      PatternDetector.detectPatterns d now c = Some (results, c') -> results = []) /\
  (forall c c' answer,
      PatternDetector.isSetup1Triggered d now c = Some (answer, c') ->
      answer = (false, None)) /\
  (forall c c' answer,
      PatternDetector.isSetup2Triggered d now c = Some (answer, c') ->
      answer = (false, None)) /\
  (forall c,
      idle c -> (List.length (RenkoChart.bricks_ c) < 3)%nat ->
      PatternDetector.detectPatterns d now c = Some ([], c)).
Proof.
  split; [|split; [|split]].
  - intros c c' results. unfold PatternDetector.detectPatterns, bind at 1.
    destruct (PatternDetector.setup1Enabled_ d).
    + unfold bind at 1.
      destruct (PatternDetector.detectSetup1Pattern d now c) as [[r1 c1]|] eqn:H1;
        [|discriminate].
      rewrite (detectSetup1Pattern_returns_only_none d now c c1 r1 H1).
      cbn [PatternType_eqb negb]. unfold ret at 1. unfold bind at 1.
      destruct (PatternDetector.setup2Enabled_ d).
      * unfold bind at 1.
        destruct (PatternDetector.detectSetup2Pattern d now c1) as [[r2 c2]|] eqn:H2;
          [|discriminate].
        rewrite (detectSetup2Pattern_returns_only_none d now c1 c2 r2 H2).
        cbn [PatternType_eqb negb]. unfold ret. intros [= <- _]. reflexivity.
      * unfold ret. intros [= <- _]. reflexivity.
    + unfold ret at 1. unfold bind at 1.
      destruct (PatternDetector.setup2Enabled_ d).
      * unfold bind at 1.
        destruct (PatternDetector.detectSetup2Pattern d now c) as [[r2 c2]|] eqn:H2;
          [|discriminate].
        rewrite (detectSetup2Pattern_returns_only_none d now c c2 r2 H2).
        cbn [PatternType_eqb negb]. unfold ret. intros [= <- _]. reflexivity.
      * unfold ret. intros [= <- _]. reflexivity.
  - intros c c' answer. unfold PatternDetector.isSetup1Triggered, bind.
    destruct (PatternDetector.detectSetup1Pattern d now c) as [[r1 c1]|] eqn:H1;
      [|discriminate].
    rewrite (detectSetup1Pattern_returns_only_none d now c c1 r1 H1).
    cbn [PatternType_eqb negb]. unfold ret. intros [= <- _]. reflexivity.
  - intros c c' answer. unfold PatternDetector.isSetup2Triggered, bind.
    destruct (PatternDetector.detectSetup2Pattern d now c) as [[r2 c2]|] eqn:H2;
      [|discriminate].
    rewrite (detectSetup2Pattern_returns_only_none d now c c2 r2 H2).
    cbn [PatternType_eqb negb]. unfold ret. intros [= <- _]. reflexivity.
  - intros c Hidle Hfew. unfold PatternDetector.detectPatterns, bind at 1.
    destruct (PatternDetector.setup1Enabled_ d), (PatternDetector.setup2Enabled_ d);
      unfold bind, ret;
      repeat (rewrite ?(detectSetup1Pattern_needs_three_bricks d now c Hidle Hfew),
                ?(detectSetup2Pattern_needs_three_bricks d now c Hidle Hfew);
              cbn [type PatternType_eqb negb app]);
      reflexivity.
Qed.

Lemma detectPatterns_never_reports_witness :
  exists c,
    RenkoChart.feed [(1.1000, 1%Z); (1.0990, 2%Z); (1.0980, 3%Z)] Scenario.eurusd
      = Some (tt, c) /\
    PatternDetector.detectPatterns PatternDetector.create 4%Z c = Some ([], c).
Proof.
  eexists. split; [vm_compute; reflexivity|].
  apply (proj2 (proj2 (proj2 (detectPatterns_never_reports PatternDetector.create 4%Z)))).
  - reflexivity.
  - cbn. lia.
Defined.

(** X14. For a pattern of type [NONE], [generateSignalFromPattern] returns the
    default signal.  For any other pattern with a suggested side it copies
    side, entry and stop, sets the quantity to the configured minimum lot,
    and stores as take profit the value [calculateTakeProfit] gives at ratio
    2: the entry plus twice [|entry - stop|] for a buy, which is not below
    the entry, and the entry less twice [|entry - stop|] for a sell, which is
    not above it. *)
Theorem generateSignalFromPattern_two_to_one
    (side0 sd : OrderSide) (p : PatternResult) (chart : RenkoChart.t)
    (config : SymbolConfig) :
  (type p = NONE ->
   PatternDetector.generateSignalFromPattern side0 p chart config
     = TradingSignal_default side0) /\
  (type p <> NONE -> suggestedSide p = Some sd ->
   let s := PatternDetector.generateSignalFromPattern side0 p chart config in
   side s = sd /\
   entryPrice s = suggestedEntry p /\
   stopLoss s = suggestedStop p /\
   signal_quantity s = minLotSize (riskParams config) /\
   takeProfit s = PatternDetector.calculateTakeProfit p chart sd 2 /\
   (sd = BUY ->
    takeProfit s = suggestedEntry p + Qabs (suggestedEntry p - suggestedStop p) * 2 /\
    entryPrice s <= takeProfit s) /\
   (sd = SELL ->
    takeProfit s = suggestedEntry p - Qabs (suggestedEntry p - suggestedStop p) * 2 /\
    takeProfit s <= entryPrice s)).
Proof.
  unfold PatternDetector.generateSignalFromPattern, PatternDetector.calculateTakeProfit.
  split.
  - intros ->. reflexivity.
  - intros Hty Hside. rewrite Hside.
    destruct (type p) eqn:Ety; [| |congruence]; cbn [PatternType_eqb];
      cbn [side entryPrice stopLoss signal_quantity takeProfit];
      pose proof (Qabs_nonneg (suggestedEntry p - suggestedStop p)) as Hr;
      set (r := Qabs (suggestedEntry p - suggestedStop p)) in *;
      repeat split; try reflexivity;
      destruct sd; try discriminate; try reflexivity; lra.
Qed.

Lemma generateSignalFromPattern_two_to_one_witness :
  let p := mkPatternResult SETUP_1_CONSECUTIVE "EURUSD"%string [] 0.8 0%Z 1.1012 1.0988
             (Some BUY) in
  let s := PatternDetector.generateSignalFromPattern SELL p Scenario.eurusd
             (mkSymbolConfig "EURUSD"%string 1000 0.001 RiskParameters_default true) in
  side s = BUY /\
  entryPrice s = 1.1012 /\
  stopLoss s = 1.0988 /\
  signal_quantity s = minLotSize RiskParameters_default /\
  takeProfit s = PatternDetector.calculateTakeProfit p Scenario.eurusd BUY 2 /\
  takeProfit s = 1.1012 + Qabs (1.1012 - 1.0988) * 2 /\
  entryPrice s <= takeProfit s.
Proof.
  intros p s.
  destruct (proj2 (generateSignalFromPattern_two_to_one SELL BUY p Scenario.eurusd
                     (mkSymbolConfig "EURUSD"%string 1000 0.001 RiskParameters_default true)))
    as (Hside & Hentry & Hstop & Hqty & Htp & Hbuy & _).
  - discriminate.
  - reflexivity.
  - destruct (Hbuy eq_refl) as [Hval Hle].
    split; [exact Hside|]. split; [exact Hentry|]. split; [exact Hstop|].
    split; [exact Hqty|]. split; [exact Htp|]. split; [exact Hval | exact Hle].
Defined.

(** X15. Whatever value the setters are given, the partial-brick threshold
    they store lies between 0.5 and 1, the minimum confidence between 0 and 1,
    and the tick buffer is at least 1; a value already inside its range is
    stored as it is. *)
Theorem detector_setters_clamp
    (threshold confidence : Q) (ticks : Z) (d : PatternDetector.t) :
  (0.5 <= PatternDetector.partialBrickThreshold_
            (PatternDetector.setPartialBrickThreshold threshold d) <= 1) /\
  (0 <= PatternDetector.minConfidence_ (PatternDetector.setMinConfidence confidence d) <= 1) /\
  (1 <= PatternDetector.tickBuffer_ (PatternDetector.setTickBuffer ticks d))%Z /\
  (0.5 <= threshold <= 1 ->
   PatternDetector.partialBrickThreshold_
     (PatternDetector.setPartialBrickThreshold threshold d) == threshold) /\
  (0 <= confidence <= 1 ->
   PatternDetector.minConfidence_ (PatternDetector.setMinConfidence confidence d)
     == confidence) /\
  ((1 <= ticks)%Z ->
   PatternDetector.tickBuffer_ (PatternDetector.setTickBuffer ticks d) = ticks).
Proof.
  unfold PatternDetector.setPartialBrickThreshold, PatternDetector.setMinConfidence,
    PatternDetector.setTickBuffer.
  cbn [PatternDetector.partialBrickThreshold_ PatternDetector.minConfidence_
       PatternDetector.tickBuffer_].
  unfold std_max, std_min, std_max_int.
  assert (Hcases : forall a b : Q, (Qltb a b = true /\ a < b) \/ (Qltb a b = false /\ b <= a)).
  { intros a b. destruct (Qltb a b) eqn:E.
    - left. split; [reflexivity | now apply Qltb_true].
    - right. split; [reflexivity | now apply Qltb_false]. }
  split; [|split; [|split; [|split; [|split]]]].
  - destruct (Hcases threshold 1) as [[-> H1]|[-> H1]];
      match goal with
      | |- _ <= (if Qltb ?a ?b then _ else _) <= _ =>
          destruct (Hcases a b) as [[-> H2]|[-> H2]]
      end; split; lra.
  - destruct (Hcases confidence 1) as [[-> H1]|[-> H1]];
      match goal with
      | |- _ <= (if Qltb ?a ?b then _ else _) <= _ =>
          destruct (Hcases a b) as [[-> H2]|[-> H2]]
      end; split; lra.
  - destruct (Z.ltb_spec 1 ticks); lia.
  - intros [Hlo Hhi].
    destruct (Hcases threshold 1) as [[-> H1]|[-> H1]];
      match goal with
      | |- (if Qltb ?a ?b then _ else _) == _ =>
          destruct (Hcases a b) as [[-> H2]|[-> H2]]
      end; lra.
  - intros [Hlo Hhi].
    destruct (Hcases confidence 1) as [[-> H1]|[-> H1]];
      match goal with
      | |- (if Qltb ?a ?b then _ else _) == _ =>
          destruct (Hcases a b) as [[-> H2]|[-> H2]]
      end; lra.
  - intros Hlo. destruct (Z.ltb_spec 1 ticks); lia.
Qed.

Lemma detector_setters_clamp_witness :
  (0.5 <= PatternDetector.partialBrickThreshold_
            (PatternDetector.setPartialBrickThreshold 0.8 PatternDetector.create) <= 1) /\
  (0 <= PatternDetector.minConfidence_
          (PatternDetector.setMinConfidence 0.6 PatternDetector.create) <= 1) /\
  (1 <= PatternDetector.tickBuffer_ (PatternDetector.setTickBuffer 3 PatternDetector.create))%Z /\
  PatternDetector.partialBrickThreshold_
    (PatternDetector.setPartialBrickThreshold 0.8 PatternDetector.create) == 0.8 /\
  PatternDetector.minConfidence_
    (PatternDetector.setMinConfidence 0.6 PatternDetector.create) == 0.6 /\
  PatternDetector.tickBuffer_ (PatternDetector.setTickBuffer 3 PatternDetector.create) = 3%Z.
Proof.
  destruct (detector_setters_clamp 0.8 0.6 3 PatternDetector.create)
    as (H1 & H2 & H3 & H4 & H5 & H6).
  split; [exact H1|]. split; [exact H2|]. split; [exact H3|].
  split; [apply H4; split; discriminate|].
  split; [apply H5; split; discriminate|].
  apply H6. lia.
Defined.

Lemma PatternType_eqb_eq (a b : PatternType) : PatternType_eqb a b = true <-> a = b.
Proof. destruct a, b; cbn; split; congruence. Qed.

Lemma seq_app {S : Type} (a b : list (M S unit)) (s : S) :
  seq_ (a ++ b) s = match seq_ a s with
                    | Some (_, s') => seq_ b s'
                    | None => None
                    end.
Proof.
  revert s. induction a as [|m a IH]; intros s; [reflexivity|].
  cbn [app seq_]. unfold bind. destruct (m s) as [[[] s1]|]; [apply IH | reflexivity].
Qed.

Lemma successes_within_updates (ty : PatternType) (us : list StatUpdate) :
  (successes_of ty us <= updates_of ty us <= List.length us)%nat.
Proof.
  unfold successes_of, updates_of. induction us as [|[[p ok] now] us IH]; [cbn; lia|].
  cbn [filter List.length].
  destruct (PatternType_eqb (type p) ty), ok; cbn [andb List.length]; lia.
Qed.

(** What the statistics map holds after the updates [us]. *)
Lemma apply_updates_invariant (us : list StatUpdate) :
  forall (pre : list StatUpdate) (m : PatternStatistics.t),
    (Z.of_nat (List.length (pre ++ us)) <= INT_MAX)%Z ->
    (forall ty,
        match m ty with
        | None => updates_of ty pre = O
        | Some st =>
            (0 < updates_of ty pre)%nat /\
            PatternStatistics.totalCount st = Z.of_nat (updates_of ty pre) /\
            PatternStatistics.successCount st = Z.of_nat (successes_of ty pre) /\
            PatternStatistics.successRate st =
              inject_Z (Z.of_nat (successes_of ty pre)) / inject_Z (Z.of_nat (updates_of ty pre))
        end) ->
    exists m',
      apply_updates us m = Some (tt, m') /\
      forall ty,
        match m' ty with
        | None => updates_of ty (pre ++ us) = O
        | Some st =>
            (0 < updates_of ty (pre ++ us))%nat /\
            PatternStatistics.totalCount st = Z.of_nat (updates_of ty (pre ++ us)) /\
            PatternStatistics.successCount st = Z.of_nat (successes_of ty (pre ++ us)) /\
            PatternStatistics.successRate st =
              inject_Z (Z.of_nat (successes_of ty (pre ++ us)))
              / inject_Z (Z.of_nat (updates_of ty (pre ++ us)))
        end.
Proof.
  induction us as [|[[p ok] now] us IH]; intros pre m Hfit Hinv.
  - exists m. split; [reflexivity|]. now rewrite app_nil_r.
  - pose (old := match m (type p) with
                 | Some s => s
                 | None => PatternStatistics.PatternStats_default
                 end).
    pose (m1 := PatternStatistics.insert (type p)
                  (PatternStatistics.mkPatternStats
                     (int_incr (PatternStatistics.totalCount old))
                     (if ok then int_incr (PatternStatistics.successCount old)
                      else PatternStatistics.successCount old)
                     (if (0 <? int_incr (PatternStatistics.totalCount old))%Z
                      then inject_Z (if ok then int_incr (PatternStatistics.successCount old)
                                     else PatternStatistics.successCount old)
                           / inject_Z (int_incr (PatternStatistics.totalCount old))
                      else 0)
                     now) m).
    change (apply_updates ((p, ok, now) :: us) m) with (apply_updates us m1).
    pose (u := (p, ok, now) : StatUpdate).
    change (p, ok, now) with u in Hfit |- *.
    assert (Happ : pre ++ u :: us = (pre ++ [u]) ++ us)
      by (rewrite <- app_assoc; reflexivity).
    rewrite Happ in Hfit. rewrite Happ.
    apply (IH (pre ++ [u]) m1 Hfit).
    subst m1 old.
    assert (Hlen : (Z.of_nat (List.length (pre ++ [u])) <= INT_MAX)%Z).
    { rewrite length_app in Hfit. lia. }
    intros ty. unfold PatternStatistics.insert.
    pose proof (successes_within_updates (type p) (pre ++ [u])) as Hbound.
    assert (Hup : forall k, updates_of k (pre ++ [u]) =
                            (updates_of k pre
                             + if PatternType_eqb (type p) k then 1 else 0)%nat).
    { intros k. unfold updates_of. rewrite filter_app, length_app. unfold u. cbn [filter].
      destruct (PatternType_eqb (type p) k); reflexivity. }
    assert (Hsu : forall k, successes_of k (pre ++ [u]) =
                            (successes_of k pre
                             + if (PatternType_eqb (type p) k && ok)%bool then 1 else 0)%nat).
    { intros k. unfold successes_of. rewrite filter_app, length_app. unfold u. cbn [filter].
      destruct (PatternType_eqb (type p) k && ok)%bool; reflexivity. }
    destruct (PatternType_eqb ty (type p)) eqn:Ekey.
    + apply PatternType_eqb_eq in Ekey. subst ty.
      rewrite Hup, Hsu in *.
      assert (Erefl : PatternType_eqb (type p) (type p) = true)
        by (now apply PatternType_eqb_eq).
      rewrite Erefl in *. cbn [andb] in *.
      cbn [PatternStatistics.totalCount PatternStatistics.successCount
           PatternStatistics.successRate].
      specialize (Hinv (type p)).
      assert (Htot : int_incr (PatternStatistics.totalCount
                                 match m (type p) with
                                 | Some s => s
                                 | None => PatternStatistics.PatternStats_default
                                 end)
                     = Z.of_nat (updates_of (type p) pre + 1)).
      { unfold int_incr. destruct (m (type p)) as [st|].
        - destruct Hinv as (_ & -> & _). rewrite wrap_int_id; [lia|].
          unfold int_range, INT_MIN, INT_MAX in *. lia.
        - rewrite Hinv. reflexivity. }
      assert (Hsuc : (if ok
                      then int_incr (PatternStatistics.successCount
                                       match m (type p) with
                                       | Some s => s
                                       | None => PatternStatistics.PatternStats_default
                                       end)
                      else PatternStatistics.successCount
                             match m (type p) with
                             | Some s => s
                             | None => PatternStatistics.PatternStats_default
                             end)
                     = Z.of_nat (successes_of (type p) pre + if ok then 1 else 0)).
      { assert (Hs0 : PatternStatistics.successCount
                        match m (type p) with
                        | Some s => s
                        | None => PatternStatistics.PatternStats_default
                        end = Z.of_nat (successes_of (type p) pre)).
        { destruct (m (type p)) as [st|].
          - now destruct Hinv as (_ & _ & -> & _).
          - pose proof (successes_within_updates (type p) pre). cbn. lia. }
        rewrite Hs0. destruct ok; [|f_equal; lia].
        unfold int_incr. rewrite wrap_int_id; [lia|].
        unfold int_range, INT_MIN, INT_MAX in *. lia. }
      rewrite Htot, Hsuc.
      destruct (Z.ltb_spec 0 (Z.of_nat (updates_of (type p) pre + 1))); [|lia].
      repeat split; lia.
    + assert (Eother : PatternType_eqb (type p) ty = false).
      { destruct (PatternType_eqb (type p) ty) eqn:E; [|reflexivity].
        apply PatternType_eqb_eq in E. subst ty.
        assert (PatternType_eqb (type p) (type p) = true) by (now apply PatternType_eqb_eq).
        congruence. }
      rewrite Hup, Hsu, Eother. cbn [andb]. rewrite !Nat.add_0_r. apply Hinv.
Qed.

(** X16. After any sequence of [updatePatternStats] calls on a new detector
    (no more than [INT_MAX] of them) [getPatternCount] of a pattern type is
    the number of calls made for that type, and [getPatternSuccessRate] is the
    share of those calls that were successful, a value between 0 and 1; for a
    type that was never updated both are 0.  Updates for one type do not
    disturb the figures of another. *)
Theorem pattern_statistics_count_and_rate (us : list StatUpdate) (ty : PatternType) :
  (Z.of_nat (List.length us) <= INT_MAX)%Z ->
  exists m rate,
    apply_updates us PatternStatistics.empty = Some (tt, m) /\
    PatternStatistics.getPatternCount ty m = Some (Z.of_nat (updates_of ty us), m) /\
    PatternStatistics.getPatternSuccessRate ty m = Some (rate, m) /\
    (updates_of ty us = O -> rate = 0) /\
    ((0 < updates_of ty us)%nat ->
     rate = inject_Z (Z.of_nat (successes_of ty us)) / inject_Z (Z.of_nat (updates_of ty us))) /\
    0 <= rate <= 1.
Proof.
  intros Hfit.
  destruct (apply_updates_invariant us [] PatternStatistics.empty) as (m & Hrun & Hinv).
  - exact Hfit.
  - intros k. reflexivity.
  - cbn [app] in Hinv. specialize (Hinv ty).
    unfold PatternStatistics.getPatternCount, PatternStatistics.getPatternSuccessRate, gets.
    exists m. destruct (m ty) as [st|].
    + destruct Hinv as (Hpos & Htot & Hsuc & Hrate).
      exists (PatternStatistics.successRate st).
      split; [exact Hrun|]. split; [now rewrite Htot|]. split; [reflexivity|].
      split; [lia|]. split; [intros _; exact Hrate|].
      rewrite Hrate.
      pose proof (successes_within_updates ty us) as Hb.
      assert (Hn : 0 < inject_Z (Z.of_nat (updates_of ty us))).
      { rewrite <- (Zlt_Qlt 0). lia. }
      split.
      * apply Qle_shift_div_l; [exact Hn|]. rewrite Qmult_0_l.
        rewrite <- (Zle_Qle 0). lia.
      * apply Qle_shift_div_r; [exact Hn|]. rewrite Qmult_1_l.
        rewrite <- Zle_Qle. lia.
    + exists 0. split; [exact Hrun|]. split; [now rewrite Hinv|]. split; [reflexivity|].
      split; [reflexivity|]. split; [lia|]. split; discriminate.
Qed.

Lemma pattern_statistics_count_and_rate_witness :
  let p1 := mkPatternResult SETUP_1_CONSECUTIVE "EURUSD"%string [] 0.8 0%Z 0 0 (Some BUY) in
  let p2 := mkPatternResult SETUP_2_GREEN_RED_GREEN "EURUSD"%string [] 0.75 0%Z 0 0
              (Some BUY) in
  let us := [(p1, true, 1%Z); (p2, false, 2%Z); (p1, false, 3%Z); (p1, true, 4%Z)] in
  exists m rate,
    apply_updates us PatternStatistics.empty = Some (tt, m) /\
    PatternStatistics.getPatternCount SETUP_1_CONSECUTIVE m = Some (3%Z, m) /\
    PatternStatistics.getPatternSuccessRate SETUP_1_CONSECUTIVE m = Some (rate, m) /\
    rate == 2 # 3.
Proof.
  intros p1 p2 us.
  destruct (pattern_statistics_count_and_rate us SETUP_1_CONSECUTIVE)
    as (m & rate & Hrun & Hcount & Hrate & _ & Hpos & _).
  - cbn. unfold INT_MAX. lia.
  - exists m, rate. split; [exact Hrun|]. split; [exact Hcount|]. split; [exact Hrate|].
    rewrite Hpos by (cbn; lia). reflexivity.
Defined.

(** * Further properties of the risk manager *)

(** X17. The position size is the lot size capped at a tenth of the equity.
    For the risk amount [equity * dailyRiskPercent], [calculateLotSize] and
    [calculatePositionSize] return on every state and leave it as it was;
    both return 0 when the stop distance is not positive.  When the stop
    distance is positive and the tick value is not zero, the lot size is the
    larger of [riskAmount / (stopDistance * tickValue)] and [minLotSize], so
    at least [minLotSize], and the position size is the smaller of the lot
    size and [0.1 * equity]. *)
Theorem position_size_is_capped_lot_size
    (symbol : Symbol) (signal : TradingSignal) (account : AccountInfo)
    (instrument : InstrumentSpec) (s : RiskManager.t) :
  exists lot size,
    RiskManager.calculateLotSize symbol (entryPrice signal) (stopLoss signal)
      (equity account * dailyRiskPercent (RiskManager.params_ s)) instrument s
      = Some (lot, s) /\
    RiskManager.calculatePositionSize symbol signal account instrument s = Some (size, s) /\
    (Qabs (entryPrice signal - stopLoss signal) <= 0 -> lot = 0 /\ size = 0) /\
    (0 < Qabs (entryPrice signal - stopLoss signal) ->
     ~ tickValue instrument == 0 ->
     lot =
       std_max
         (equity account * dailyRiskPercent (RiskManager.params_ s)
          / (Qabs (entryPrice signal - stopLoss signal) * tickValue instrument))
         (minLotSize (RiskManager.params_ s)) /\
     minLotSize (RiskManager.params_ s) <= lot /\
     size = std_min lot (equity account * (1 # 10))).
Proof.
  unfold RiskManager.calculateLotSize, RiskManager.calculatePositionSize, bind, ret, gets.
  destruct (Qleb (Qabs (entryPrice signal - stopLoss signal)) 0) eqn:Hzero.
  - apply Qleb_true in Hzero. exists 0, 0. repeat split; auto; lra.
  - apply Qleb_false in Hzero. eexists. eexists.
    split; [reflexivity|]. split; [reflexivity|]. split; [intros; lra|].
    intros _ _. split; [reflexivity|]. split; [apply std_max_spec | reflexivity].
Qed.

Lemma position_size_is_capped_lot_size_witness :
  exists lot size,
    RiskManager.calculateLotSize "EURUSD"%string 1.1 1.0
      (equity Scenario.sample_account * dailyRiskPercent RiskParameters_default)
      InstrumentSpec_default RiskManager.create = Some (lot, RiskManager.create) /\
    RiskManager.calculatePositionSize "EURUSD"%string Scenario.sample_signal
      Scenario.sample_account InstrumentSpec_default RiskManager.create
      = Some (size, RiskManager.create) /\
    minLotSize RiskParameters_default <= lot /\
    size = std_min lot (equity Scenario.sample_account * (1 # 10)).
Proof.
  destruct (position_size_is_capped_lot_size "EURUSD"%string Scenario.sample_signal
              Scenario.sample_account InstrumentSpec_default RiskManager.create)
    as (lot & size & Hlot & Hsize & _ & Hpos).
  exists lot, size. split; [exact Hlot|]. split; [exact Hsize|].
  assert (Hd : 0 < Qabs (entryPrice Scenario.sample_signal - stopLoss Scenario.sample_signal))
    by reflexivity.
  assert (Ht : ~ tickValue InstrumentSpec_default == 0) by discriminate.
  destruct (Hpos Hd Ht) as (_ & Hfloor & Hcap).
  split; [exact Hfloor | exact Hcap].
Defined.

(** One [calculateDrawdown] step. *)
Lemma calculateDrawdown_step (e : Q) (now : TimePoint) (s : RiskManager.t) :
  exists s',
    RiskManager.calculateDrawdown e now s = Some (tt, s') /\
    (drawdown_consistent s -> drawdown_consistent s') /\
    RiskManager.equityHighWaterMark_ s <= RiskManager.equityHighWaterMark_ s' /\
    e <= RiskManager.equityHighWaterMark_ s' /\
    (RiskManager.equityHighWaterMark_ s' <= 0 ->
     RiskManager.currentDrawdown_ s' = RiskManager.currentDrawdown_ s /\
     RiskManager.maxDrawdown_ s' = RiskManager.maxDrawdown_ s) /\
    (0 < RiskManager.equityHighWaterMark_ s' ->
     RiskManager.currentDrawdown_ s' ==
       (RiskManager.equityHighWaterMark_ s' - e) / RiskManager.equityHighWaterMark_ s' /\
     0 <= RiskManager.currentDrawdown_ s' /\
     RiskManager.currentDrawdown_ s' <= RiskManager.maxDrawdown_ s' /\
     RiskManager.maxDrawdown_ s <= RiskManager.maxDrawdown_ s') /\
    RiskManager.emergencyStop_ s' = RiskManager.emergencyStop_ s /\
    RiskManager.paperMode_ s' = RiskManager.paperMode_ s /\
    RiskManager.params_ s' = RiskManager.params_ s /\
    RiskManager.currentStatus_ s' = RiskManager.currentStatus_ s /\
    RiskManager.paramsMutex_ s' = RiskManager.paramsMutex_ s /\
    RiskManager.counterMutex_ s' = RiskManager.counterMutex_ s.
Proof.
  unfold drawdown_consistent.
  destruct s as [params pm status paper stop hwm dd mdd hwmt dsb dpnl dru ldr
                 cur done cm losses wins maxl total profit].
  cbn [RiskManager.equityHighWaterMark_ RiskManager.currentDrawdown_
       RiskManager.maxDrawdown_].
  unfold RiskManager.calculateDrawdown, bind, ret, gets, modify.
  cbn [RiskManager.equityHighWaterMark_].
  destruct (Qgtb e hwm) eqn:Hnew.
  - apply Qgtb_true in Hnew. risk_cbn.
    destruct (Qgtb e 0) eqn:Hpos.
    + apply Qgtb_true in Hpos. eexists. split; [reflexivity|]. risk_cbn.
      assert (Hzero : (e - e) / e == 0) by (field; lra).
      pose proof (std_max_spec mdd ((e - e) / e)) as [Hm1 Hm2].
      repeat split; intros; try lra; try reflexivity.
    + apply Qgtb_false in Hpos. eexists. split; [reflexivity|]. risk_cbn.
      repeat split; intros; try lra; try reflexivity.
  - apply Qgtb_false in Hnew. risk_cbn.
    destruct (Qgtb hwm 0) eqn:Hpos.
    + apply Qgtb_true in Hpos. eexists. split; [reflexivity|]. risk_cbn.
      assert (Hnonneg : 0 <= (hwm - e) / hwm).
      { apply Qle_shift_div_l; [exact Hpos | lra]. }
      pose proof (std_max_spec mdd ((hwm - e) / hwm)) as [Hm1 Hm2].
      repeat split; intros; try lra; try reflexivity.
    + apply Qgtb_false in Hpos. eexists. split; [reflexivity|]. risk_cbn.
      repeat split; intros; try lra; try reflexivity.
Qed.

Lemma updateRiskStatus_step
    (account : AccountInfo) (positions : list Position) (now : TimePoint)
    (s : RiskManager.t) :
  exists s1 s',
    RiskManager.calculateDrawdown (equity account) now s = Some (tt, s1) /\
    RiskManager.updateRiskStatus account positions now s = Some (tt, s') /\
    s' = RiskManager.set_currentStatus
           (if RiskManager.emergencyStop_ s then LIMIT_REACHED
            else if RiskManager.paperMode_ s then PAPER_MODE
            else if Qgtb (RiskManager.currentDrawdown_ s1)
                      (maxDrawdownPercent (RiskManager.params_ s) * (8 # 10))
                 then WARNING else NORMAL) s1.
Proof.
  destruct (calculateDrawdown_step (equity account) now s)
    as (s1 & Hcd & _ & _ & _ & _ & _ & Hstop & Hpaper & Hparams & _).
  exists s1.
  exists (RiskManager.set_currentStatus
            (if RiskManager.emergencyStop_ s then LIMIT_REACHED
             else if RiskManager.paperMode_ s then PAPER_MODE
             else if Qgtb (RiskManager.currentDrawdown_ s1)
                       (maxDrawdownPercent (RiskManager.params_ s) * (8 # 10))
                  then WARNING else NORMAL) s1).
  split; [exact Hcd|].
  unfold RiskManager.updateRiskStatus, bind at 1. rewrite Hcd.
  unfold bind, get, modify. rewrite Hstop, Hpaper, Hparams.
  destruct (RiskManager.emergencyStop_ s); [split; reflexivity|].
  destruct (RiskManager.paperMode_ s); [split; reflexivity|].
  destruct (Qgtb (RiskManager.currentDrawdown_ s1)
              (maxDrawdownPercent (RiskManager.params_ s) * (8 # 10))); split; reflexivity.
Qed.

Lemma perform_keeps_drawdown_consistent (c : RiskManager.Call) (s s' : RiskManager.t) :
  drawdown_consistent s ->
  RiskManager.perform c s = Some (tt, s') ->
  drawdown_consistent s'.
Proof.
  intros Hinv Hrun.
  destruct c;
    try (destruct s as [prm pm status paper stop hwm dd mdd hwmt dsb dpnl dru ldr
                        cur done cm losses wins maxl total profit];
         unfold drawdown_consistent in *; risk_unfold; risk_cbn;
         split_ifs_in Hrun; risk_cbn; try discriminate Hrun;
         injection Hrun as <-; exact Hinv).
  cbn [RiskManager.perform] in Hrun.
  destruct (updateRiskStatus_step account positions now s) as (s1 & s2 & Hcd & Hup & Hs2).
  rewrite Hup in Hrun. injection Hrun as <-. subst s2.
  destruct (calculateDrawdown_step (equity account) now s) as (s1' & Hcd' & Hcons & _).
  rewrite Hcd in Hcd'. injection Hcd' as <-.
  specialize (Hcons Hinv). unfold drawdown_consistent in *.
  destruct s1. exact Hcons.
Qed.

(** X18. The drawdown figures stay consistent through every sequence of calls
    that returns: starting from a manager whose high-water mark and current
    drawdown are not negative and whose maximum drawdown is not below the
    current one (a new manager is such a one), the same holds afterwards. *)
Theorem drawdown_figures_stay_consistent
    (cs : list RiskManager.Call) (s s' : RiskManager.t) :
  drawdown_consistent s ->
  RiskManager.perform_all cs s = Some (tt, s') ->
  0 <= RiskManager.equityHighWaterMark_ s' /\
  0 <= RiskManager.currentDrawdown_ s' /\
  RiskManager.currentDrawdown_ s' <= RiskManager.maxDrawdown_ s'.
Proof.
  revert s. induction cs as [|c cs IH]; intros s Hinv Hrun.
  - cbn in Hrun. injection Hrun as <-. exact Hinv.
  - unfold RiskManager.perform_all in *. cbn [map seq_] in Hrun. unfold bind at 1 in Hrun.
    destruct (RiskManager.perform c s) as [[[] s1]|] eqn:Hstep; [|discriminate].
    apply (IH s1); [|exact Hrun].
    now apply (perform_keeps_drawdown_consistent c s s1).
Qed.

Lemma drawdown_figures_stay_consistent_witness :
  exists s',
    RiskManager.perform_all
      [ RiskManager.CallUpdateRiskStatus Scenario.sample_account [] 1%Z;
        RiskManager.CallRecordTrade Scenario.sample_order false;
        RiskManager.CallUpdateRiskStatus Scenario.small_account [] 2%Z ]
      RiskManager.create = Some (tt, s') /\
    0 <= RiskManager.equityHighWaterMark_ s' /\
    0 <= RiskManager.currentDrawdown_ s' /\
    RiskManager.currentDrawdown_ s' <= RiskManager.maxDrawdown_ s'.
Proof.
  eexists. split; [vm_compute; reflexivity|].
  apply (drawdown_figures_stay_consistent
           [ RiskManager.CallUpdateRiskStatus Scenario.sample_account [] 1%Z;
             RiskManager.CallRecordTrade Scenario.sample_order false;
             RiskManager.CallUpdateRiskStatus Scenario.small_account [] 2%Z ]
           RiskManager.create).
  - unfold drawdown_consistent. cbn. repeat split; discriminate.
  - vm_compute. reflexivity.
Defined.

(** X19. [updateRiskStatus] always returns.  It raises the high-water mark to
    the account equity when that is higher; while the mark is positive it sets
    the current drawdown to [(mark - equity) / mark], which is not negative
    and not above the maximum drawdown it keeps; while the mark is not
    positive it leaves both drawdowns alone.  The status it stores is
    [LIMIT_REACHED] under an emergency stop, else [PAPER_MODE] in paper mode,
    else [WARNING] when the new drawdown exceeds 0.8 of [maxDrawdownPercent],
    else [NORMAL], whatever the status was before. *)
Theorem updateRiskStatus_recomputes
    (account : AccountInfo) (positions : list Position) (now : TimePoint)
    (s : RiskManager.t) :
  exists s',
    RiskManager.updateRiskStatus account positions now s = Some (tt, s') /\
    RiskManager.equityHighWaterMark_ s <= RiskManager.equityHighWaterMark_ s' /\
    equity account <= RiskManager.equityHighWaterMark_ s' /\
    (RiskManager.equityHighWaterMark_ s' <= 0 ->
     RiskManager.currentDrawdown_ s' = RiskManager.currentDrawdown_ s /\
     RiskManager.maxDrawdown_ s' = RiskManager.maxDrawdown_ s) /\
    (0 < RiskManager.equityHighWaterMark_ s' ->
     RiskManager.currentDrawdown_ s' ==
       (RiskManager.equityHighWaterMark_ s' - equity account)
       / RiskManager.equityHighWaterMark_ s' /\
     0 <= RiskManager.currentDrawdown_ s' /\
     RiskManager.currentDrawdown_ s' <= RiskManager.maxDrawdown_ s' /\
     RiskManager.maxDrawdown_ s <= RiskManager.maxDrawdown_ s') /\
    RiskManager.currentStatus_ s' =
      (if RiskManager.emergencyStop_ s then LIMIT_REACHED
       else if RiskManager.paperMode_ s then PAPER_MODE
       else if Qgtb (RiskManager.currentDrawdown_ s')
                 (maxDrawdownPercent (RiskManager.params_ s) * (8 # 10))
            then WARNING else NORMAL).
Proof.
  destruct (updateRiskStatus_step account positions now s) as (s1 & s2 & Hcd & Hup & Hs2).
  destruct (calculateDrawdown_step (equity account) now s)
    as (s1' & Hcd' & _ & Hhwm & He & Hflat & Hpos & _).
  rewrite Hcd in Hcd'. injection Hcd' as <-.
  exists s2. split; [exact Hup|]. subst s2. destruct s1. risk_cbn.
  repeat split; try apply Hflat; try apply Hpos; auto.
Qed.

Lemma updateRiskStatus_recomputes_witness :
  exists s',
    RiskManager.updateRiskStatus Scenario.sample_account [] 1%Z RiskManager.create
      = Some (tt, s') /\
    RiskManager.equityHighWaterMark_ s' == 10000 /\
    RiskManager.currentDrawdown_ s' == 0 /\
    RiskManager.currentStatus_ s' = NORMAL.
Proof.
  destruct (updateRiskStatus_recomputes Scenario.sample_account [] 1%Z RiskManager.create)
    as (s' & Hrun & _ & _ & _ & _ & _).
  exists s'. split; [exact Hrun|].
  vm_compute in Hrun. injection Hrun as <-. repeat split.
Defined.

(** X20. The stored status is not recomputed when a flag is cleared: after
    [enableEmergencyStop(); disableEmergencyStop()] the emergency stop is off
    and [validateOrder] no longer rejects on its account, yet
    [getCurrentRiskStatus()] still returns [LIMIT_REACHED]; after
    [switchToPaperMode(); switchToLiveMode()] paper mode is off, yet the
    status still reads [PAPER_MODE].  In both cases the next
    [updateRiskStatus] replaces the stale value. *)
Theorem status_is_stale_after_clearing_a_flag (s : RiskManager.t) :
  (exists s',
      (RiskManager.enableEmergencyStop ;; RiskManager.disableEmergencyStop) s
        = Some (tt, s') /\
      RiskManager.isEmergencyStopActive s' = Some (false, s') /\
      RiskManager.getCurrentRiskStatus s' = Some (LIMIT_REACHED, s') /\
      (RiskManager.paperMode_ s = false ->
       forall account positions now s'',
         RiskManager.updateRiskStatus account positions now s' = Some (tt, s'') ->
         RiskManager.currentStatus_ s'' = NORMAL \/
         RiskManager.currentStatus_ s'' = WARNING)) /\
  (exists s',
      (RiskManager.switchToPaperMode ;; RiskManager.switchToLiveMode) s = Some (tt, s') /\
      RiskManager.isPaperMode s' = Some (false, s') /\
      RiskManager.getCurrentRiskStatus s' = Some (PAPER_MODE, s') /\
      (RiskManager.emergencyStop_ s = false ->
       forall account positions now s'',
         RiskManager.updateRiskStatus account positions now s' = Some (tt, s'') ->
         RiskManager.currentStatus_ s'' = NORMAL \/
         RiskManager.currentStatus_ s'' = WARNING)).
Proof.
  destruct s as [prm pm status paper stop hwm dd mdd hwmt dsb dpnl dru ldr
                 cur done cm losses wins maxl total profit].
  split.
  - eexists. split; [reflexivity|]. split; [reflexivity|]. split; [reflexivity|].
    cbn [RiskManager.paperMode_]. intros -> account positions now s'' Hrun.
    match type of Hrun with
    | RiskManager.updateRiskStatus _ _ _ ?s1 = _ =>
        destruct (updateRiskStatus_step account positions now s1)
          as (sd & s2 & _ & Hrun2 & Hstatus)
    end.
    rewrite Hrun in Hrun2. injection Hrun2 as <-. rewrite Hstatus.
    cbn [RiskManager.emergencyStop_ RiskManager.paperMode_ RiskManager.set_emergencyStop
         RiskManager.set_currentStatus].
    destruct sd. cbn [RiskManager.currentStatus_ RiskManager.set_currentStatus].
    match goal with
    | |- context [if ?b then WARNING else NORMAL] => destruct b
    end; auto.
  - eexists. split; [reflexivity|]. split; [reflexivity|]. split; [reflexivity|].
    cbn [RiskManager.emergencyStop_]. intros -> account positions now s'' Hrun.
    match type of Hrun with
    | RiskManager.updateRiskStatus _ _ _ ?s1 = _ =>
        destruct (updateRiskStatus_step account positions now s1)
          as (sd & s2 & _ & Hrun2 & Hstatus)
    end.
    rewrite Hrun in Hrun2. injection Hrun2 as <-. rewrite Hstatus.
    cbn [RiskManager.emergencyStop_ RiskManager.paperMode_ RiskManager.set_paperMode
         RiskManager.set_currentStatus].
    destruct sd. cbn [RiskManager.currentStatus_ RiskManager.set_currentStatus].
    match goal with
    | |- context [if ?b then WARNING else NORMAL] => destruct b
    end; auto.
Qed.

Lemma status_is_stale_after_clearing_a_flag_witness :
  exists s' s'',
    (RiskManager.enableEmergencyStop ;; RiskManager.disableEmergencyStop) RiskManager.create
      = Some (tt, s') /\
    RiskManager.getCurrentRiskStatus s' = Some (LIMIT_REACHED, s') /\
    RiskManager.updateRiskStatus Scenario.sample_account [] 1%Z s' = Some (tt, s'') /\
    (RiskManager.currentStatus_ s'' = NORMAL \/ RiskManager.currentStatus_ s'' = WARNING).
Proof.
  destruct (proj1 (status_is_stale_after_clearing_a_flag RiskManager.create))
    as (s' & Hrun & _ & Hstatus & Hnext).
  destruct (updateRiskStatus_step Scenario.sample_account [] 1%Z s')
    as (sd & s'' & _ & Hup & _).
  exists s', s''. split; [exact Hrun|]. split; [exact Hstatus|]. split; [exact Hup|].
  apply (Hnext eq_refl Scenario.sample_account [] 1%Z s'' Hup).
Defined.

(** One profitable trade, on any state. *)
Lemma recordTrade_win (order : Order) (s : RiskManager.t) :
  exists s',
    RiskManager.recordTrade order true s = Some (tt, s') /\
    RiskManager.consecutiveLosses_ s' = 0%Z /\
    RiskManager.consecutiveWins_ s' = int_incr (RiskManager.consecutiveWins_ s) /\
    RiskManager.maxConsecutiveLosses_ s' = RiskManager.maxConsecutiveLosses_ s /\
    RiskManager.params_ s' = RiskManager.params_ s /\
    RiskManager.emergencyStop_ s' = RiskManager.emergencyStop_ s /\
    RiskManager.paperMode_ s' = RiskManager.paperMode_ s /\
    RiskManager.totalTrades_ s' = RiskManager.totalTrades_ s + 1 /\
    RiskManager.profitableTrades_ s' = RiskManager.profitableTrades_ s + 1.
Proof.
  destruct s as [prm pm status paper stop hwm dd mdd hwmt dsb dpnl dru ldr
                 cur done cm losses wins maxl total profit].
  eexists. split; [reflexivity|]. repeat split.
Qed.

Lemma recordTrade_loss_totals (order : Order) (s s' : RiskManager.t) :
  RiskManager.recordTrade order false s = Some (tt, s') ->
  RiskManager.totalTrades_ s' = RiskManager.totalTrades_ s + 1 /\
  RiskManager.profitableTrades_ s' = RiskManager.profitableTrades_ s.
Proof.
  destruct s as [prm pm status paper stop hwm dd mdd hwmt dsb dpnl dru ldr
                 cur done cm losses wins maxl total profit].
  unfold RiskManager.recordTrade, RiskManager.shouldSwitchToPaperMode,
    RiskManager.switchToPaperMode, bind, ret, gets, modify.
  cbn -[int_incr std_max_int Qplus]. intros Hrun.
  split_ifs_in Hrun; cbn -[int_incr std_max_int Qplus] in Hrun;
    injection Hrun as <-; split; reflexivity.
Qed.

Lemma record_trades_cons (order : Order) (won : bool) (outcomes : list bool)
    (s : RiskManager.t) :
  record_trades order (won :: outcomes) s =
    match RiskManager.recordTrade order won s with
    | Some (_, s1) => record_trades order outcomes s1
    | None => None
    end.
Proof.
  unfold record_trades. cbn [map seq_]. unfold bind at 1.
  destruct (RiskManager.recordTrade order won s) as [[[] s1]|]; reflexivity.
Qed.

(** X21. Any sequence of [recordTrade] calls returns.  It never leaves paper
    mode and never touches the emergency stop or the parameters; after at
    least one trade the win streak or the loss streak is 0; the recorded
    maximum loss streak never decreases and, once it is at least 0 and at
    least the current loss streak, stays so; [totalTrades_] grows by the number
    of trades and [profitableTrades_] by the number of profitable ones. *)
Theorem record_trades_bookkeeping (order : Order) (outcomes : list bool) :
  forall s : RiskManager.t,
  exists s',
    record_trades order outcomes s = Some (tt, s') /\
    (RiskManager.paperMode_ s = true -> RiskManager.paperMode_ s' = true) /\
    RiskManager.emergencyStop_ s' = RiskManager.emergencyStop_ s /\
    RiskManager.params_ s' = RiskManager.params_ s /\
    (outcomes <> [] ->
     RiskManager.consecutiveWins_ s' = 0%Z \/ RiskManager.consecutiveLosses_ s' = 0%Z) /\
    (RiskManager.maxConsecutiveLosses_ s <= RiskManager.maxConsecutiveLosses_ s')%Z /\
    ((0 <= RiskManager.maxConsecutiveLosses_ s)%Z ->
     (RiskManager.consecutiveLosses_ s <= RiskManager.maxConsecutiveLosses_ s)%Z ->
     (RiskManager.consecutiveLosses_ s' <= RiskManager.maxConsecutiveLosses_ s')%Z) /\
    RiskManager.totalTrades_ s' ==
      RiskManager.totalTrades_ s + inject_Z (Z.of_nat (List.length outcomes)) /\
    RiskManager.profitableTrades_ s' ==
      RiskManager.profitableTrades_ s
      + inject_Z (Z.of_nat (List.length (filter (fun won => won) outcomes))).
Proof.
  induction outcomes as [|won outcomes IH]; intros s.
  - exists s. split; [reflexivity|]. cbn.
    repeat split; auto; try lia; try (unfold inject_Z; lra). congruence.
  - rewrite record_trades_cons. destruct won.
    + destruct (recordTrade_win order s)
        as (s1 & -> & Hl & Hw & Hm & Hp & Hstop & Hpaper & Htot & Hprof).
      destruct (IH s1) as (s' & Hrun & Hpm & Hst & Hpr & Hstreak & Hmono & Hmax & Ht & Hpf).
      exists s'. split; [exact Hrun|].
      split; [intros H; apply Hpm; congruence|].
      split; [congruence|]. split; [congruence|].
      split.
      { intros _. destruct outcomes as [|w rest].
        - cbn in Hrun. injection Hrun as <-. now right.
        - apply Hstreak. discriminate. }
      split; [lia|].
      split; [intros H0 H1; apply Hmax; lia|].
      cbn [List.length filter]. rewrite Ht, Hpf, Htot, Hprof.
      rewrite !Nat2Z.inj_succ. unfold Z.succ. rewrite !inject_Z_plus. split; ring.
    + destruct (recordTrade_loss order s)
        as (s1 & Hrun1 & Hl & Hw & Hm & Hp & Hstop & Hpaper).
      destruct (recordTrade_loss_totals order s s1 Hrun1) as [Htot Hprof].
      rewrite Hrun1.
      destruct (IH s1) as (s' & Hrun & Hpm & Hst & Hpr & Hstreak & Hmono & Hmax & Ht & Hpf).
      exists s'. split; [exact Hrun|].
      split; [intros H; apply Hpm; rewrite Hpaper, H; reflexivity|].
      split; [congruence|]. split; [congruence|].
      split.
      { intros _. destruct outcomes as [|w rest].
        - cbn in Hrun. injection Hrun as <-. now left.
        - apply Hstreak. discriminate. }
      split; [lia|].
      split; [intros H0 H1; apply Hmax; lia|].
      cbn [List.length filter]. rewrite Ht, Hpf, Htot, Hprof.
      rewrite !Nat2Z.inj_succ. unfold Z.succ. rewrite !inject_Z_plus. split; ring.
Qed.

Lemma record_trades_bookkeeping_witness :
  exists s',
    record_trades Scenario.sample_order [false; true; false; false] RiskManager.create
      = Some (tt, s') /\
    RiskManager.totalTrades_ s' == 4 /\
    RiskManager.profitableTrades_ s' == 1 /\
    (RiskManager.consecutiveLosses_ s' <= RiskManager.maxConsecutiveLosses_ s')%Z.
Proof.
  destruct (record_trades_bookkeeping Scenario.sample_order [false; true; false; false]
              RiskManager.create)
    as (s' & Hrun & _ & _ & _ & _ & _ & Hmax & Ht & Hp).
  exists s'. split; [exact Hrun|]. split; [rewrite Ht; reflexivity|].
  split; [rewrite Hp; reflexivity|]. apply Hmax; cbn; lia.
Defined.

Lemma record_trades_snoc (order : Order) (outcomes : list bool) (won : bool)
    (s : RiskManager.t) :
  record_trades order (outcomes ++ [won]) s =
    match record_trades order outcomes s with
    | Some (_, s1) => RiskManager.recordTrade order won s1
    | None => None
    end.
Proof.
  unfold record_trades. rewrite map_app, seq_app.
  destruct (seq_ (map (fun w => RiskManager.recordTrade order w) outcomes) s)
    as [[[] s1]|]; [|reflexivity].
  cbn [map seq_]. unfold bind, ret.
  destruct (RiskManager.recordTrade order won s1) as [[[] s2]|]; reflexivity.
Qed.

Lemma trailing_losses_snoc (outcomes : list bool) (won : bool) :
  trailing_losses (outcomes ++ [won]) =
    if won then O else S (trailing_losses outcomes).
Proof.
  unfold trailing_losses. rewrite rev_app_distr. cbn. destruct won; reflexivity.
Qed.

Lemma trailing_losses_within (outcomes : list bool) :
  (trailing_losses outcomes <= List.length outcomes)%nat.
Proof.
  unfold trailing_losses. rewrite <- (length_rev outcomes).
  induction (rev outcomes) as [|[|] r IH]; cbn; lia.
Qed.

Lemma firstn_snoc_within (outcomes : list bool) (won : bool) (k : nat) :
  (k <= List.length outcomes)%nat ->
  firstn k (outcomes ++ [won]) = firstn k outcomes.
Proof.
  intros Hk. rewrite firstn_app.
  replace (k - List.length outcomes)%nat with O by lia. cbn. apply app_nil_r.
Qed.

(** X22. Paper mode is entered exactly when a run of losses reaches the
    limit.  From a manager in live mode with a loss streak of 0 and a loss
    limit of at least 1, after any sequence of trades (no more than [INT_MAX])
    [consecutiveLosses_] is the number of losses the sequence ends with, and
    paper mode is on if and only if, after some prefix of the sequence, the
    number of losses that prefix ends with had reached the limit. *)
Theorem paper_mode_iff_loss_run_reached_limit
    (order : Order) (outcomes : list bool) (s : RiskManager.t) :
  RiskManager.paperMode_ s = false ->
  RiskManager.consecutiveLosses_ s = 0%Z ->
  (1 <= consecutiveLossLimit (RiskManager.params_ s))%Z ->
  (Z.of_nat (List.length outcomes) <= INT_MAX)%Z ->
  exists s',
    record_trades order outcomes s = Some (tt, s') /\
    RiskManager.consecutiveLosses_ s' = Z.of_nat (trailing_losses outcomes) /\
    (RiskManager.paperMode_ s' = true <->
     exists k, (k <= List.length outcomes)%nat /\
               (consecutiveLossLimit (RiskManager.params_ s)
                  <= Z.of_nat (trailing_losses (firstn k outcomes)))%Z).
Proof.
  intros Hpaper Hzero Hlimit.
  assert (Hgen : (Z.of_nat (List.length outcomes) <= INT_MAX)%Z ->
                 exists s',
                   record_trades order outcomes s = Some (tt, s') /\
                   RiskManager.params_ s' = RiskManager.params_ s /\
                   RiskManager.consecutiveLosses_ s' = Z.of_nat (trailing_losses outcomes) /\
                   (RiskManager.paperMode_ s' = true <->
                    exists k, (k <= List.length outcomes)%nat /\
                              (consecutiveLossLimit (RiskManager.params_ s)
                                 <= Z.of_nat (trailing_losses (firstn k outcomes)))%Z)).
  { induction outcomes as [|won outcomes IH] using rev_ind; intros Hfit.
    - exists s. split; [reflexivity|]. split; [reflexivity|]. split; [exact Hzero|].
      rewrite Hpaper. split; [discriminate|].
      intros (k & Hk & Hreach). cbn in Hk.
      replace k with O in Hreach by lia. cbn in Hreach. lia.
    - rewrite length_app in Hfit. cbn [List.length] in Hfit.
      destruct IH as (s1 & Hrun1 & Hp1 & Hl1 & Hiff1); [lia|].
      rewrite record_trades_snoc, Hrun1.
      pose proof (trailing_losses_within outcomes) as Hwithin.
      destruct won.
      + destruct (recordTrade_win order s1)
          as (s2 & Hrun2 & Hl2 & _ & _ & Hp2 & _ & Hpaper2 & _).
        exists s2. split; [exact Hrun2|]. split; [congruence|].
        rewrite trailing_losses_snoc. split; [exact Hl2|].
        rewrite Hpaper2, Hiff1, length_app. cbn [List.length]. split.
        * intros (k & Hk & Hreach). exists k. split; [lia|].
          now rewrite firstn_snoc_within.
        * intros (k & Hk & Hreach).
          destruct (Nat.le_gt_cases k (List.length outcomes)) as [Hin|Hout].
          -- exists k. split; [exact Hin|]. now rewrite firstn_snoc_within in Hreach.
          -- rewrite firstn_all2 in Hreach by (rewrite length_app; cbn; lia).
             rewrite trailing_losses_snoc in Hreach. cbn in Hreach. lia.
      + destruct (recordTrade_loss order s1)
          as (s2 & Hrun2 & Hl2 & _ & _ & Hp2 & _ & Hpaper2).
        assert (Hincr : int_incr (RiskManager.consecutiveLosses_ s1)
                        = Z.of_nat (S (trailing_losses outcomes))).
        { unfold int_incr. rewrite Hl1. rewrite wrap_int_id; [lia|].
          unfold int_range, INT_MIN, INT_MAX in *. lia. }
        rewrite Hincr in *.
        exists s2. split; [exact Hrun2|]. split; [congruence|].
        rewrite trailing_losses_snoc. split; [exact Hl2|].
        rewrite Hpaper2, Hp1, orb_true_iff, Hiff1, Z.leb_le, length_app.
        cbn [List.length]. split.
        * intros [(k & Hk & Hreach)|Hreach].
          -- exists k. split; [lia|]. now rewrite firstn_snoc_within.
          -- exists (List.length outcomes + 1)%nat. split; [lia|].
             rewrite firstn_all2 by (rewrite length_app; cbn; lia).
             now rewrite trailing_losses_snoc.
        * intros (k & Hk & Hreach).
          destruct (Nat.le_gt_cases k (List.length outcomes)) as [Hin|Hout].
          -- left. exists k. split; [exact Hin|].
             now rewrite firstn_snoc_within in Hreach.
          -- right. rewrite firstn_all2 in Hreach by (rewrite length_app; cbn; lia).
             now rewrite trailing_losses_snoc in Hreach. }
  intros Hfit. destruct (Hgen Hfit) as (s' & Hrun & _ & Hl & Hiff).
  exists s'. repeat split; auto; apply Hiff.
Qed.

Lemma paper_mode_iff_loss_run_reached_limit_witness :
  exists s',
    record_trades Scenario.sample_order [false; true; false; true] RiskManager.create
      = Some (tt, s') /\
    RiskManager.consecutiveLosses_ s' = 0%Z /\
    RiskManager.paperMode_ s' = false.
Proof.
  destruct (paper_mode_iff_loss_run_reached_limit Scenario.sample_order
              [false; true; false; true] RiskManager.create)
    as (s' & Hrun & Hl & Hiff).
  - reflexivity.
  - reflexivity.
  - cbn. lia.
  - cbn. unfold INT_MAX. lia.
  - exists s'. split; [exact Hrun|]. split; [exact Hl|].
    destruct (RiskManager.paperMode_ s') eqn:E; [|reflexivity].
    exfalso. destruct (proj1 Hiff eq_refl) as (k & Hk & Hreach).
    cbn in Hk, Hreach.
    do 5 (destruct k as [|k]; [cbn in Hreach; lia|]). lia.
Defined.

(** No call writes the daily figures or the figures of the open counter. *)
Lemma perform_keeps_untouched_figures (c : RiskManager.Call) (s s' : RiskManager.t) :
  untouched_figures s ->
  RiskManager.perform c s = Some (tt, s') ->
  untouched_figures s' /\ RiskManager.counterMutex_ s' = RiskManager.counterMutex_ s.
Proof.
  intros Hinv Hrun.
  destruct s as [prm pm status paper stop hwm dd mdd hwmt dsb dpnl dru ldr
                 cur done cm losses wins maxl total profit].
  unfold untouched_figures in *.
  cbn [RiskManager.dailyRiskUsed_ RiskManager.dailyPnL_ RiskManager.currentCounter_] in Hinv.
  destruct Hinv as (Hdru & Hdpnl & Hpnl & Hch).
  destruct c; risk_unfold; risk_cbn;
    split_ifs_in Hrun; risk_cbn; try discriminate Hrun;
    injection Hrun as <-; risk_cbn; repeat split; auto.
Qed.

Lemma perform_all_keeps_untouched_figures (cs : list RiskManager.Call) :
  forall s s' : RiskManager.t,
    untouched_figures s ->
    RiskManager.perform_all cs s = Some (tt, s') ->
    untouched_figures s' /\ RiskManager.counterMutex_ s' = RiskManager.counterMutex_ s.
Proof.
  induction cs as [|c cs IH]; intros s s' Hinv Hrun.
  - cbn in Hrun. injection Hrun as <-. split; [exact Hinv | reflexivity].
  - unfold RiskManager.perform_all in *. cbn [map seq_] in Hrun. unfold bind at 1 in Hrun.
    destruct (RiskManager.perform c s) as [[[] s1]|] eqn:Hstep; [|discriminate].
    destruct (perform_keeps_untouched_figures c s s1 Hinv Hstep) as [Hinv1 Hm1].
    destruct (IH s1 s' Hinv1 Hrun) as [Hinv' Hm']. split; [exact Hinv' | congruence].
Qed.

(** X23. No public method records profit, loss or charges in the open
    counter: from a manager whose counter figures are 0 (a new manager is such
    a one), after any sequence of calls that returns,
    [getCapitalAfterCounter(initial)] returns [initial]. *)
Theorem capital_after_counter_is_initial
    (cs : list RiskManager.Call) (s s' : RiskManager.t) (initial : Q) :
  untouched_figures s ->
  RiskManager.counterMutex_ s = false ->
  RiskManager.perform_all cs s = Some (tt, s') ->
  exists capital,
    RiskManager.getCapitalAfterCounter initial s' = Some (capital, s') /\
    capital == initial.
Proof.
  intros Hinv Hfree Hrun.
  destruct (perform_all_keeps_untouched_figures cs s s' Hinv Hrun)
    as [(_ & _ & Hpnl & Hch) Hm].
  rewrite Hfree in Hm.
  destruct s' as [prm pm status paper stop hwm dd mdd hwmt dsb dpnl dru ldr
                  cur done cm losses wins maxl total profit].
  cbn [RiskManager.currentCounter_ RiskManager.counterMutex_] in Hpnl, Hch, Hm. subst cm.
  eexists. split; [reflexivity|].
  cbn [RiskManager.currentCounter_ RiskManager.set_counterMutex].
  rewrite Hpnl, Hch. ring.
Qed.

Lemma capital_after_counter_is_initial_witness :
  exists s' capital,
    RiskManager.perform_all
      [ RiskManager.CallStartNewCounter 1%Z;
        RiskManager.CallAddOrderToCounter Scenario.sample_order 2%Z;
        RiskManager.CallRecordTrade Scenario.sample_order true ]
      RiskManager.create = Some (tt, s') /\
    RiskManager.getCapitalAfterCounter 10000 s' = Some (capital, s') /\
    capital == 10000.
Proof.
  eexists.
  match goal with
  | |- exists capital, ?run = Some (tt, ?s1) /\ _ =>
      assert (Hrun : run = Some (tt, s1)) by (vm_compute; reflexivity)
  end.
  destruct (capital_after_counter_is_initial _ RiskManager.create _ 10000
              ltac:(repeat split) eq_refl Hrun) as (capital & Hcap & Heq).
  exists capital. split; [exact Hrun|]. split; [exact Hcap | exact Heq].
Defined.

(** X24. No public method ever adds to [dailyRiskUsed_]: from a manager where
    it is 0 (a new manager is such a one), after any sequence of calls that
    returns, the daily-risk test of [validateOrder] only asks whether
    [equity * dailyRiskPercent] is positive, so that [validateOrder] approves
    exactly when the emergency stop is off, [equity * dailyRiskPercent > 0]
    and the current drawdown is below [maxDrawdownPercent]. *)
Theorem daily_limit_only_tests_equity
    (cs : list RiskManager.Call) (s s' : RiskManager.t)
    (order : Order) (account : AccountInfo) (positions : list Position) :
  untouched_figures s ->
  RiskManager.perform_all cs s = Some (tt, s') ->
  exists within ok,
    RiskManager.isWithinDailyRiskLimit order account s' = Some (within, s') /\
    (within = true <-> 0 < equity account * dailyRiskPercent (RiskManager.params_ s')) /\
    RiskManager.validateOrder order account positions s' = Some (ok, s') /\
    (ok = true <->
     RiskManager.emergencyStop_ s' = false /\
     0 < equity account * dailyRiskPercent (RiskManager.params_ s') /\
     RiskManager.currentDrawdown_ s' < maxDrawdownPercent (RiskManager.params_ s')).
Proof.
  intros Hinv Hrun.
  destruct (perform_all_keeps_untouched_figures cs s s' Hinv Hrun) as [(Hdru & _) _].
  exists (Qltb (RiskManager.dailyRiskUsed_ s')
            (equity account * dailyRiskPercent (RiskManager.params_ s'))).
  exists (negb (RiskManager.emergencyStop_ s')
          && Qltb (RiskManager.dailyRiskUsed_ s')
               (equity account * dailyRiskPercent (RiskManager.params_ s'))
          && Qltb (RiskManager.currentDrawdown_ s')
               (maxDrawdownPercent (RiskManager.params_ s')))%bool.
  split; [reflexivity|].
  split; [rewrite Hdru; apply Qltb_true|].
  split.
  - unfold RiskManager.validateOrder, RiskManager.isWithinDailyRiskLimit,
      RiskManager.isWithinDrawdownLimit, bind, ret, gets, get.
    destruct (RiskManager.emergencyStop_ s'); [reflexivity|].
    destruct (Qltb (RiskManager.dailyRiskUsed_ s')
                (equity account * dailyRiskPercent (RiskManager.params_ s')));
      [|reflexivity].
    cbn [negb]. cbv beta.
    destruct (Qltb (RiskManager.currentDrawdown_ s')
                (maxDrawdownPercent (RiskManager.params_ s'))); reflexivity.
  - rewrite Hdru, !andb_true_iff, negb_true_iff, !Qltb_true. tauto.
Qed.

Lemma daily_limit_only_tests_equity_witness :
  exists s' within ok,
    RiskManager.perform_all
      [ RiskManager.CallRecordTrade Scenario.sample_order false;
        RiskManager.CallPerformDailyReset 5%Z ]
      RiskManager.create = Some (tt, s') /\
    RiskManager.isWithinDailyRiskLimit Scenario.sample_order Scenario.sample_account s'
      = Some (within, s') /\
    (within = true <->
     0 < equity Scenario.sample_account * dailyRiskPercent (RiskManager.params_ s')) /\
    RiskManager.validateOrder Scenario.sample_order Scenario.sample_account [] s'
      = Some (ok, s').
Proof.
  eexists.
  match goal with
  | |- exists within ok, ?run = Some (tt, ?s1) /\ _ =>
      assert (Hrun : run = Some (tt, s1)) by (vm_compute; reflexivity)
  end.
  destruct (daily_limit_only_tests_equity _ RiskManager.create _ Scenario.sample_order
              Scenario.sample_account [] ltac:(repeat split) Hrun)
    as (within & ok & Hw & Hiff & Hv & _).
  exists within, ok. split; [exact Hrun|]. split; [exact Hw|]. split; [exact Hiff | exact Hv].
Defined.

(** One order added below the limit. *)
Lemma addOrderToCounter_appends (order : Order) (now : TimePoint) (s : RiskManager.t) :
  RiskManager.counterMutex_ s = false ->
  (int_incr (RiskManager.ordersCount (RiskManager.currentCounter_ s))
     < ordersPerCounter (RiskManager.params_ s))%Z ->
  exists s',
    RiskManager.addOrderToCounter order now s = Some (tt, s') /\
    RiskManager.counterMutex_ s' = false /\
    RiskManager.params_ s' = RiskManager.params_ s /\
    RiskManager.completedCounters_ s' = RiskManager.completedCounters_ s /\
    RiskManager.orders (RiskManager.currentCounter_ s') =
      RiskManager.orders (RiskManager.currentCounter_ s) ++ [order] /\
    RiskManager.ordersCount (RiskManager.currentCounter_ s') =
      int_incr (RiskManager.ordersCount (RiskManager.currentCounter_ s)) /\
    RiskManager.isComplete (RiskManager.currentCounter_ s') =
      RiskManager.isComplete (RiskManager.currentCounter_ s) /\
    RiskManager.counterNumber (RiskManager.currentCounter_ s') =
      RiskManager.counterNumber (RiskManager.currentCounter_ s).
Proof.
  intros Hfree Hbelow. apply Z.leb_gt in Hbelow.
  destruct s as [prm pm status paper stop hwm dd mdd hwmt dsb dpnl dru ldr
                 cur done cm losses wins maxl total profit].
  cbn [RiskManager.counterMutex_] in Hfree. subst cm.
  risk_unfold. risk_cbn. rewrite Hbelow.
  eexists. split; [reflexivity|]. repeat split.
Qed.

Lemma add_orders_cons (order : Order) (rest : list Order) (now : TimePoint)
    (s : RiskManager.t) :
  add_orders (order :: rest) now s =
    match RiskManager.addOrderToCounter order now s with
    | Some (_, s1) => add_orders rest now s1
    | None => None
    end.
Proof.
  unfold add_orders. cbn [map seq_]. unfold bind at 1.
  destruct (RiskManager.addOrderToCounter order now s) as [[[] s1]|]; reflexivity.
Qed.

(** X25. While the counter stays below its limit, [addOrderToCounter] keeps
    the order list and the order count in step.  On a manager whose counter
    mutex is free and whose open counter counts [n >= 0] orders, adding [k]
    orders with [n + k < ordersPerCounter <= INT_MAX] returns, appends the
    orders in the order given, leaves the count at [n + k], archives nothing
    and completes nothing; and if the counter then holds at least one order
    and is not complete, [startNewCounter] leaves the whole manager as it
    is. *)
Theorem add_orders_below_limit (added : list Order) (now later : TimePoint) :
  forall s : RiskManager.t,
    RiskManager.counterMutex_ s = false ->
    (0 <= RiskManager.ordersCount (RiskManager.currentCounter_ s))%Z ->
    (RiskManager.ordersCount (RiskManager.currentCounter_ s)
     + Z.of_nat (List.length added) < ordersPerCounter (RiskManager.params_ s))%Z ->
    (ordersPerCounter (RiskManager.params_ s) <= INT_MAX)%Z ->
    exists s',
      add_orders added now s = Some (tt, s') /\
      RiskManager.orders (RiskManager.currentCounter_ s') =
        RiskManager.orders (RiskManager.currentCounter_ s) ++ added /\
      RiskManager.ordersCount (RiskManager.currentCounter_ s') =
        (RiskManager.ordersCount (RiskManager.currentCounter_ s)
         + Z.of_nat (List.length added))%Z /\
      RiskManager.completedCounters_ s' = RiskManager.completedCounters_ s /\
      RiskManager.isComplete (RiskManager.currentCounter_ s') =
        RiskManager.isComplete (RiskManager.currentCounter_ s) /\
      ((0 < RiskManager.ordersCount (RiskManager.currentCounter_ s'))%Z ->
       RiskManager.isComplete (RiskManager.currentCounter_ s') = false ->
       RiskManager.startNewCounter later s' = Some (tt, s')).
Proof.
  induction added as [|order added IH]; intros s Hfree Hnonneg Hbelow Hint.
  - exists s. split; [reflexivity|]. rewrite app_nil_r. cbn [List.length].
    split; [reflexivity|]. split; [lia|]. split; [reflexivity|]. split; [reflexivity|].
    intros Hpos Hopen.
    destruct s as [prm pm status paper stop hwm dd mdd hwmt dsb dpnl dru ldr
                   cur done cm losses wins maxl total profit].
    cbn [RiskManager.counterMutex_ RiskManager.currentCounter_] in *. subst cm.
    unfold RiskManager.startNewCounter, RiskManager.counter_locked, lock_guard, bind,
      gets, ret.
    cbn [RiskManager.counterMutex_ RiskManager.set_counterMutex RiskManager.currentCounter_].
    rewrite Hopen. destruct (Z.eqb_spec (RiskManager.ordersCount cur) 0); [lia|].
    reflexivity.
  - cbn [List.length] in Hbelow.
    assert (Hincr : int_incr (RiskManager.ordersCount (RiskManager.currentCounter_ s))
                    = (RiskManager.ordersCount (RiskManager.currentCounter_ s) + 1)%Z).
    { unfold int_incr. apply wrap_int_id. unfold int_range, INT_MIN, INT_MAX in *. lia. }
    destruct (addOrderToCounter_appends order now s Hfree)
      as (s1 & Hrun1 & Hfree1 & Hp1 & Hdone1 & Hord1 & Hcount1 & Hcomp1 & _); [lia|].
    rewrite Hincr in Hcount1.
    destruct (IH s1) as (s' & Hrun & Hord & Hcount & Hdone & Hcomp & Hstart);
      [exact Hfree1 | lia | rewrite Hcount1, Hp1; lia | now rewrite Hp1 |].
    exists s'. rewrite add_orders_cons, Hrun1. split; [exact Hrun|].
    split; [rewrite Hord, Hord1, <- app_assoc; reflexivity|].
    split; [cbn [List.length]; lia|]. split; [congruence|]. split; [congruence|].
    exact Hstart.
Qed.

Lemma add_orders_below_limit_witness :
  exists s0 s',
    RiskManager.startNewCounter 0%Z RiskManager.create = Some (tt, s0) /\
    add_orders [Scenario.sample_order; Scenario.sample_order] 1%Z s0 = Some (tt, s') /\
    RiskManager.orders (RiskManager.currentCounter_ s') =
      [Scenario.sample_order; Scenario.sample_order] /\
    RiskManager.ordersCount (RiskManager.currentCounter_ s') = 2%Z /\
    RiskManager.startNewCounter 2%Z s' = Some (tt, s').
Proof.
  eexists.
  match goal with
  | |- exists s', ?run = Some (tt, ?s0) /\ _ =>
      assert (Hstart : run = Some (tt, s0)) by (vm_compute; reflexivity);
      destruct (add_orders_below_limit [Scenario.sample_order; Scenario.sample_order]
                  1%Z 2%Z s0) as (s' & Hrun & Hord & Hcount & _ & Hcomp & Hnoop)
  end.
  - reflexivity.
  - cbn. lia.
  - cbn. lia.
  - cbn. unfold INT_MAX. lia.
  - exists s'. split; [exact Hstart|]. split; [exact Hrun|].
    split; [exact Hord|]. split; [exact Hcount|].
    apply Hnoop; [rewrite Hcount; cbn; lia | rewrite Hcomp; reflexivity].
Defined.

(** * Properties of the logger *)

Lemma last_n_absorb {A : Type} (n : nat) (a b : list A) :
  last_n n (last_n n a ++ b) = last_n n (a ++ b).
Proof.
  unfold last_n.
  destruct (Nat.le_gt_cases (List.length a) n) as [Hle|Hgt].
  - replace (List.length a - n)%nat with O by lia. reflexivity.
  - rewrite !length_app, length_skipn, !skipn_app, length_skipn, skipn_skipn.
    f_equal; f_equal; lia.
Qed.

Lemma last_n_within {A : Type} (n : nat) (l : list A) :
  (List.length (last_n n l) <= n)%nat.
Proof. unfold last_n. rewrite length_skipn. lia. Qed.

Lemma last_n_all {A : Type} (n : nat) (l : list A) :
  (List.length l <= n)%nat -> last_n n l = l.
Proof. intros H. unfold last_n. replace (List.length l - n)%nat with O by lia. reflexivity. Qed.

(** One [log] call on a logger holding at most 1000 entries. *)
Lemma log_step (r : Logger.Request) (g : Logger.t) :
  Logger.mutex_ g = false ->
  (List.length (Logger.logEntries_ g) <= 1000)%nat ->
  exists g',
    Logger.log_request r g = Some (tt, g') /\
    Logger.mutex_ g' = false /\
    Logger.logLevel_ g' = Logger.logLevel_ g /\
    Logger.logEntries_ g' =
      last_n 1000 (Logger.logEntries_ g ++ kept (Logger.logLevel_ g) [r]).
Proof.
  destruct g as [lvl entries mtx]. cbn [Logger.mutex_ Logger.logEntries_ Logger.logLevel_].
  intros -> Hlen. destruct r as [[[l msg] cat] stamp].
  unfold Logger.log_request, Logger.log, Logger.locked, lock_guard, bind, ret, gets, modify,
    kept.
  cbn [Logger.logLevel_ filter map].
  destruct (Logger.level_value l <? Logger.level_value lvl)%Z.
  - eexists. split; [reflexivity|]. cbn [negb map].
    rewrite app_nil_r, last_n_all by exact Hlen. repeat split.
  - cbn [Logger.mutex_ Logger.set_mutex Logger.set_logEntries Logger.logEntries_
         Logger.logLevel_ negb map].
    destruct (Nat.ltb_spec 1000 (List.length (entries ++ [Logger.mkLogEntry l cat msg stamp])))
      as [Hover|Hfit].
    + eexists. split; [reflexivity|].
      cbn [Logger.mutex_ Logger.set_mutex Logger.set_logEntries Logger.logEntries_
           Logger.logLevel_].
      repeat split. unfold last_n. rewrite length_app in *. cbn [List.length] in *.
      replace (List.length entries + 1 - 1000)%nat with 1%nat by lia.
      destruct entries; reflexivity.
    + eexists. split; [reflexivity|].
      cbn [Logger.mutex_ Logger.set_mutex Logger.set_logEntries Logger.logEntries_
           Logger.logLevel_].
      repeat split. symmetry. apply last_n_all. exact Hfit.
Qed.

(** X26. The logger keeps the last 1000 accepted lines.  On a logger whose
    mutex is free and which holds at most 1000 entries, any sequence of [log]
    calls returns; requests below the log level leave no entry; the entries
    afterwards are the last 1000 of the earlier entries followed by the
    accepted requests, in order. *)
Theorem log_keeps_last_thousand (rs : list Logger.Request) :
  forall g : Logger.t,
    Logger.mutex_ g = false ->
    (List.length (Logger.logEntries_ g) <= 1000)%nat ->
    exists g',
      Logger.log_all rs g = Some (tt, g') /\
      Logger.logEntries_ g' =
        last_n 1000 (Logger.logEntries_ g ++ kept (Logger.logLevel_ g) rs) /\
      (List.length (Logger.logEntries_ g') <= 1000)%nat /\
      Logger.logLevel_ g' = Logger.logLevel_ g /\
      Logger.mutex_ g' = false.
Proof.
  induction rs as [|r rs IH]; intros g Hfree Hlen.
  - exists g. split; [reflexivity|]. unfold kept. cbn [filter map].
    rewrite app_nil_r, last_n_all by exact Hlen. repeat split; auto.
  - destruct (log_step r g Hfree Hlen) as (g1 & Hrun1 & Hfree1 & Hlvl1 & Hent1).
    destruct (IH g1 Hfree1) as (g' & Hrun & Hent & Hlen' & Hlvl & Hfree').
    { rewrite Hent1. apply last_n_within. }
    exists g'. split.
    { unfold Logger.log_all in *. cbn [map seq_]. unfold bind at 1. now rewrite Hrun1. }
    split.
    { rewrite Hent, Hent1, Hlvl1, last_n_absorb, <- app_assoc. f_equal. f_equal.
      unfold kept. cbn [filter].
      destruct r as [[[l msg] cat] stamp].
      destruct (negb (Logger.level_value l <? Logger.level_value (Logger.logLevel_ g))%Z);
        reflexivity. }
    split; [exact Hlen'|]. split; [congruence | exact Hfree'].
Qed.

Lemma log_keeps_last_thousand_witness :
  exists g',
    Logger.log_all
      [ (Logger.DEBUG, "tick"%string, "feed"%string, "t1"%string);
        (Logger.ERROR, "rejected"%string, "risk"%string, "t2"%string) ]
      Logger.create = Some (tt, g') /\
    Logger.logEntries_ g' =
      [Logger.mkLogEntry Logger.ERROR "risk"%string "rejected"%string "t2"%string].
Proof.
  destruct (log_keeps_last_thousand
              [ (Logger.DEBUG, "tick"%string, "feed"%string, "t1"%string);
                (Logger.ERROR, "rejected"%string, "risk"%string, "t2"%string) ]
              Logger.create) as (g' & Hrun & Hent & _).
  - reflexivity.
  - cbn. lia.
  - exists g'. split; [exact Hrun|]. rewrite Hent. reflexivity.
Defined.

(** X27. [getRecentEntries(count)] on a logger whose mutex is free returns
    and leaves the logger as it was; what it hands back is the tail of the
    stored entries, in order, of length [min(count, size)]: a [count] of 0
    gives the empty list, a [count] not below the size gives every entry.
    After [clearEntries()] it returns the empty list for every [count]. *)
Theorem getRecentEntries_returns_tail (count : nat) (g : Logger.t) :
  Logger.mutex_ g = false ->
  (exists recent older,
      Logger.getRecentEntries count g = Some (recent, g) /\
      Logger.logEntries_ g = older ++ recent /\
      List.length recent = Nat.min count (List.length (Logger.logEntries_ g))) /\
  (exists g0,
      Logger.clearEntries g = Some (tt, g0) /\
      Logger.logLevel_ g0 = Logger.logLevel_ g /\
      Logger.getRecentEntries count g0 = Some ([], g0)).
Proof.
  destruct g as [lvl entries mtx]. cbn [Logger.mutex_ Logger.logEntries_]. intros ->.
  split.
  - exists (last_n count entries), (firstn (List.length entries - count) entries).
    split; [|split].
    + unfold Logger.getRecentEntries, Logger.locked, lock_guard, bind, gets, ret, last_n.
      cbn [Logger.mutex_ Logger.set_mutex Logger.logEntries_ Logger.logLevel_].
      destruct (Nat.leb_spec (List.length entries) count) as [Hle|Hgt].
      * replace (List.length entries - count)%nat with O by lia. reflexivity.
      * reflexivity.
    + unfold last_n. symmetry. apply firstn_skipn.
    + unfold last_n. rewrite length_skipn. lia.
  - eexists. split; [reflexivity|]. split; reflexivity.
Qed.

Lemma getRecentEntries_returns_tail_witness :
  exists g recent older,
    Logger.log_all
      [ (Logger.INFO, "started"%string, "engine"%string, "t1"%string);
        (Logger.ERROR, "rejected"%string, "risk"%string, "t2"%string) ]
      Logger.create = Some (tt, g) /\
    Logger.getRecentEntries 1 g = Some (recent, g) /\
    Logger.logEntries_ g = older ++ recent /\
    List.length recent = 1%nat.
Proof.
  eexists.
  match goal with
  | |- exists recent older, ?run = Some (tt, ?g) /\ _ =>
      assert (Hrun : run = Some (tt, g)) by (vm_compute; reflexivity);
      destruct (getRecentEntries_returns_tail 1 g) as [(recent & older & Hget & Hsplit & Hlen) _]
  end.
  - reflexivity.
  - exists recent, older. split; [exact Hrun|]. split; [exact Hget|].
    split; [exact Hsplit | exact Hlen].
Defined.

(** * Charts under every writing call *)

Lemma perform_chart_all_cons (call : ChartCall) (calls : list ChartCall) (c : RenkoChart.t) :
  perform_chart_all (call :: calls) c =
    match perform_chart call c with
    | Some (_, c') => perform_chart_all calls c'
    | None => None
    end.
Proof.
  unfold perform_chart_all. cbn [map seq_]. unfold bind at 1.
  destruct (perform_chart call c) as [[[] c']|]; reflexivity.
Qed.

(** What [setBrickSize] does to an idle chart. *)
Lemma setBrickSize_step (brickSize : Q) (c : RenkoChart.t) :
  idle c ->
  exists c',
    RenkoChart.setBrickSize brickSize c = Some (tt, c') /\
    idle c' /\
    RenkoChart.bricks_ c' = RenkoChart.bricks_ c /\
    RenkoChart.currentBrick_ c' = RenkoChart.currentBrick_ c /\
    RenkoChart.currentBrickInitialized_ c' = RenkoChart.currentBrickInitialized_ c /\
    RenkoChart.maxBricks_ c' = RenkoChart.maxBricks_ c /\
    (0 < brickSize -> RenkoChart.brickSize_ c' = brickSize) /\
    (brickSize <= 0 -> c' = c).
Proof.
  unfold idle. destruct c as [sym b tv mx bs cur init lp hp lo lu mtx].
  cbn [RenkoChart.dataMutex_]. intros ->.
  unfold RenkoChart.setBrickSize, RenkoChart.locked, lock_guard, bind, modify, ret, gets.
  cbn [RenkoChart.dataMutex_ RenkoChart.set_dataMutex].
  destruct (Qgtb brickSize 0) eqn:Hpos.
  - apply Qgtb_true in Hpos. eexists. split; [reflexivity|].
    cbn. repeat split; auto. intros Hle. lra.
  - apply Qgtb_false in Hpos. eexists. split; [reflexivity|].
    cbn. repeat split; auto. intros Hlt. lra.
Qed.

(** Every writing call returns on an idle chart and leaves it idle.  Its
    effect is that of one tick under the brick size in force; or it leaves
    the partial brick and the seeding flag alone and keeps a tail of the
    series, under the same brick size or a positive one; or it empties the
    series and clears the seeding flag. *)
Lemma perform_chart_step (call : ChartCall) (c : RenkoChart.t) :
  idle c ->
  exists c',
    perform_chart call c = Some (tt, c') /\
    idle c' /\
    ((exists price ts,
         tick_outcome price ts c c' /\
         RenkoChart.brickSize_ c' = RenkoChart.brickSize_ c) \/
     ((exists dropped, RenkoChart.bricks_ c = dropped ++ RenkoChart.bricks_ c') /\
      RenkoChart.currentBrick_ c' = RenkoChart.currentBrick_ c /\
      RenkoChart.currentBrickInitialized_ c' = RenkoChart.currentBrickInitialized_ c /\
      (RenkoChart.brickSize_ c' = RenkoChart.brickSize_ c \/
       0 < RenkoChart.brickSize_ c')) \/
     (RenkoChart.bricks_ c' = [] /\
      RenkoChart.currentBrickInitialized_ c' = false /\
      RenkoChart.brickSize_ c' = RenkoChart.brickSize_ c)).
Proof.
  intros Hidle.
  destruct call as [price ts | tick | size | m | tv | keep | ]; cbn [perform_chart].
  - destruct (addPrice_step price ts c Hidle) as (c' & Hrun & Hidle' & Hb & _ & Hout).
    exists c'. split; [exact Hrun|]. split; [exact Hidle'|]. left. eauto.
  - unfold RenkoChart.addTick.
    destruct (addPrice_step (tick_last tick) (tick_timestamp tick) c Hidle)
      as (c' & Hrun & Hidle' & Hb & _ & Hout).
    exists c'. split; [exact Hrun|]. split; [exact Hidle'|]. left. eauto.
  - destruct (setBrickSize_step size c Hidle)
      as (c' & Hrun & Hidle' & Hbricks & Hcur & Hinit & _ & Hnew & Hkeep).
    exists c'. split; [exact Hrun|]. split; [exact Hidle'|]. right. left.
    split; [exists []; rewrite Hbricks; reflexivity|].
    split; [exact Hcur|]. split; [exact Hinit|].
    destruct (Qlt_le_dec 0 size) as [Hpos|Hneg].
    + right. rewrite (Hnew Hpos). exact Hpos.
    + left. now rewrite (Hkeep Hneg).
  - destruct c as [sym b tv mx bs cur init lp hp lo lu mtx].
    eexists. split; [reflexivity|]. split; [exact Hidle|]. right. left.
    split; [exists []; reflexivity|]. cbn. auto.
  - destruct c as [sym b tv0 mx bs cur init lp hp lo lu mtx].
    eexists. split; [reflexivity|]. split; [exact Hidle|]. right. left.
    split; [exists []; reflexivity|]. cbn. auto.
  - unfold idle in *. destruct c as [sym b tv mx bs cur init lp hp lo lu mtx].
    cbn [RenkoChart.dataMutex_] in Hidle. subst mtx.
    eexists. split; [reflexivity|]. split; [reflexivity|]. right. left.
    split; [apply pop_front_is_suffix|]. cbn. auto.
  - unfold idle in *. destruct c as [sym b tv mx bs cur init lp hp lo lu mtx].
    cbn [RenkoChart.dataMutex_] in Hidle. subst mtx.
    eexists. split; [reflexivity|]. split; [reflexivity|]. right. right.
    cbn. auto.
Qed.

(** A property kept by every writing call on an idle chart holds after any
    sequence of them, and the sequence returns. *)
Lemma perform_chart_all_invariant (Inv : RenkoChart.t -> Prop) :
  (forall call c c',
      Inv c -> idle c -> perform_chart call c = Some (tt, c') -> Inv c') ->
  forall calls c,
    Inv c -> idle c ->
    exists c', perform_chart_all calls c = Some (tt, c') /\ Inv c' /\ idle c'.
Proof.
  intros Hkeep. induction calls as [|call calls IH]; intros c Hinv Hidle.
  - exists c. split; [reflexivity|]. split; assumption.
  - destruct (perform_chart_step call c Hidle) as (c1 & Hrun & Hidle1 & _).
    rewrite perform_chart_all_cons, Hrun.
    apply IH; [exact (Hkeep call c c1 Hinv Hidle Hrun) | exact Hidle1].
Qed.

(** X28. A chart keeps a well-formed series whatever is done to it.  Whatever
    sequence of [addPrice], [addTick], [setBrickSize], [setMaxBricks],
    [setTickValue], [clearOldBricks] and [reset] calls a new chart of brick
    size [b > 0] receives, every call returns, the brick size in force stays
    positive ([setBrickSize] ignores a size that is not), every brick opens
    exactly at the close of the brick before it, also across a change of
    size, and no up brick closes below its open and no down brick above
    it. *)
Theorem resizing_keeps_series_contiguous
    (symbol : Symbol) (b : Q) (maxBricks : nat) (calls : list ChartCall) :
  0 < b ->
  exists c,
    perform_chart_all calls (RenkoChart.create symbol b maxBricks) = Some (tt, c) /\
    0 < RenkoChart.brickSize_ c /\
    (forall x, In x (RenkoChart.bricks_ c) ->
       if isUp x then open x <= close x else close x <= open x) /\
    (forall i, (S i < List.length (RenkoChart.bricks_ c))%nat ->
       open (nth (S i) (RenkoChart.bricks_ c) RenkoBrick_default) =
       close (nth i (RenkoChart.bricks_ c) RenkoBrick_default)).
Proof.
  intros Hb.
  pose (Inv := fun c : RenkoChart.t =>
                 0 < RenkoChart.brickSize_ c /\
                 Forall directed (RenkoChart.bricks_ c) /\
                 contiguous (RenkoChart.bricks_ c)).
  assert (Hkeep : forall call c c',
             Inv c -> idle c -> perform_chart call c = Some (tt, c') -> Inv c').
  { intros call c c' (Hsize & Hall & Hchain) Hidle Hrun.
    destruct (perform_chart_step call c Hidle) as (c1 & Hrun1 & _ & Heffect).
    rewrite Hrun in Hrun1. injection Hrun1 as <-.
    destruct Heffect as [(price & ts & Hout & Hsame)
                        | [((dropped & Hcut) & _ & _ & Hnew) | (Hempty & _ & Hsame)]].
    - split; [rewrite Hsame; exact Hsize|].
      apply (chain_kept_by_tick directed price ts c c' Hout);
        [| |split; assumption];
        unfold directed, RenkoBrick_make; cbn [isUp open close]; lra.
    - split; [destruct Hnew as [-> | Hpos]; assumption|].
      rewrite Hcut in Hall, Hchain. split.
      + exact (Forall_suffix _ _ _ Hall).
      + exact (contiguous_suffix _ _ Hchain).
    - split; [rewrite Hsame; exact Hsize|]. rewrite Hempty. split; [constructor | exact I]. }
  destruct (perform_chart_all_invariant Inv Hkeep calls
              (RenkoChart.create symbol b maxBricks))
    as (c & Hc & (Hsize & Hall & Hchain) & _).
  - split; [exact Hb|]. split; [constructor | exact I].
  - reflexivity.
  - exists c. split; [exact Hc|]. split; [exact Hsize|]. split.
    + intros x Hx. rewrite Forall_forall in Hall. exact (Hall x Hx).
    + intros i Hi. now apply contiguous_nth.
Qed.

Lemma resizing_keeps_series_contiguous_witness :
  exists c,
    perform_chart_all
      [ CallAddPrice 1.1000 1%Z; CallAddPrice 1.1010 2%Z;
        CallSetBrickSize 0.002; CallSetBrickSize 0; CallSetMaxBricks 2;
        CallAddPrice 1.1030 3%Z; CallClearOldBricks 1; CallAddPrice 1.1000 4%Z ]
      Scenario.eurusd = Some (tt, c) /\
    0 < RenkoChart.brickSize_ c /\
    (forall x, In x (RenkoChart.bricks_ c) ->
       if isUp x then open x <= close x else close x <= open x) /\
    (forall i, (S i < List.length (RenkoChart.bricks_ c))%nat ->
       open (nth (S i) (RenkoChart.bricks_ c) RenkoBrick_default) =
       close (nth i (RenkoChart.bricks_ c) RenkoBrick_default)).
Proof.
  apply (resizing_keeps_series_contiguous "EURUSD"%string 0.001 1000). reflexivity.
Defined.

(** X29. [setMaxBricks] does not trim: it returns with the series as it
    was, even when the series is longer than the new capacity.  The series is
    cut at the next brick: a following [addPrice] on an idle chart either
    leaves the series alone, or appends one brick and keeps the last
    [maxBricks] bricks of the result. *)
Theorem setMaxBricks_trims_at_next_brick
    (maxBricks : nat) (price : Price) (ts : TimePoint) (c : RenkoChart.t) :
  idle c ->
  exists c1 c2,
    RenkoChart.setMaxBricks maxBricks c = Some (tt, c1) /\
    RenkoChart.bricks_ c1 = RenkoChart.bricks_ c /\
    RenkoChart.addPrice price ts c1 = Some (tt, c2) /\
    (RenkoChart.bricks_ c2 = RenkoChart.bricks_ c \/
     exists x,
       RenkoChart.bricks_ c2 = last_n maxBricks (RenkoChart.bricks_ c ++ [x]) /\
       (List.length (RenkoChart.bricks_ c2) <= maxBricks)%nat).
Proof.
  intros Hidle.
  destruct c as [sym b tv mx bs cur init lp hp lo lu mtx].
  unfold idle in Hidle. cbn [RenkoChart.dataMutex_] in Hidle. subst mtx.
  set (c1 := RenkoChart.mk sym b tv maxBricks bs cur init lp hp lo lu false).
  destruct (addPrice_step price ts c1 eq_refl) as (c2 & Hadd & _ & _ & _ & Hout).
  exists c1, c2. split; [reflexivity|]. split; [reflexivity|]. split; [exact Hadd|].
  cbn [RenkoChart.bricks_].
  assert (Hcut : forall x,
             RenkoChart.bricks_ c2 = RenkoChart.pop_front_while_over maxBricks (bs ++ [x]) ->
             exists y, RenkoChart.bricks_ c2 = last_n maxBricks (bs ++ [y]) /\
                       (List.length (RenkoChart.bricks_ c2) <= maxBricks)%nat).
  { intros x Hx. exists x. rewrite Hx. split.
    - unfold last_n. apply pop_front_is_skipn.
    - apply pop_front_within. }
  destruct Hout as [_ ->|_ _ _ Hb _|_ _ _ _ Hb _|_ _ _ _ _ Hb _|_ _ _ _ _ Hb _ _ _].
  - left. reflexivity.
  - left. exact Hb.
  - right. exact (Hcut _ Hb).
  - right. exact (Hcut _ Hb).
  - left. exact Hb.
Qed.

Lemma setMaxBricks_trims_at_next_brick_witness :
  idle Scenario.up_down_down /\
  exists c1 c2,
    RenkoChart.setMaxBricks 1 Scenario.up_down_down = Some (tt, c1) /\
    RenkoChart.bricks_ c1 = RenkoChart.bricks_ Scenario.up_down_down /\
    RenkoChart.addPrice 1.1010 5%Z c1 = Some (tt, c2) /\
    (RenkoChart.bricks_ c2 = RenkoChart.bricks_ Scenario.up_down_down \/
     exists x,
       RenkoChart.bricks_ c2 = last_n 1 (RenkoChart.bricks_ Scenario.up_down_down ++ [x]) /\
       (List.length (RenkoChart.bricks_ c2) <= 1)%nat).
Proof.
  split; [reflexivity|].
  apply (setMaxBricks_trims_at_next_brick 1 1.1010 5%Z Scenario.up_down_down). reflexivity.
Defined.

(** ** Setup 1 on the charts the public methods build *)



